(** * Database-enhanced calendar server: sync, free-slot search, insights

    A shallow embedding of [Templates/python/database-enhanced/server.py]
    (class [DatabaseEnhancedMCP]): the [events] table and the SQL the server
    runs against it, the [free_slots] table macro, [_transform_event_data],
    the reconciliation loop of [_handle_sync_data] and the report computed by
    [_handle_generate_insights].

    Conventions.
    - A DuckDB [TIMESTAMP] is an integer number of microseconds since
      1970-01-01 00:00:00, as DuckDB stores it; it is a [Z] here and the
      64-bit range check of the engine is left out. An [INTEGER] column
      holds 32 bits, and the engine refuses a value outside of them.
    - A Python [float] and a DuckDB [DOUBLE] are binary64 values: the
      kernel's primitive [float].
    - A Python exception is a value of [py_exception]; code that may raise
      returns a [result].
    - A Python [str] is a [string], one character for each code point
      below 256.
    - The remote feed is JSON: a raw event is any [json] value, and every
      operation of the server on it is defined on every value, raising
      what Python raises on a value of the wrong type.
    - The [events] table holds what syncs wrote: a column is an [option]
      where a sync can store [NULL].
    - What DuckDB does with a bound value or a comparison that the types
      of the server do not determine (a number under a [VARCHAR] column,
      an id that is not a string) is a parameter, the [engine]. The
      properties hold for every engine; those that compare what several
      records do to one row say which ids a record can select
      ([may_select]), or take records whose id is a str or [None]
      ([plain_id]). *)

From Stdlib Require Import ZArith List String Ascii Bool Lia.
From Stdlib Require Import Floats.
From stdpp Require Import base list strings gmap.

Local Open Scope string_scope.
Local Open Scope Z_scope.
Import ListNotations.

(** ** Python values and exceptions *)

Inductive py_exception : Type :=
| KeyError (key : string)
| ValueError
| TypeError
| AttributeError
| ZeroDivisionError
| OverflowError
| IndexError
| ConversionException
| ConstraintException.

Inductive result (A : Type) : Type :=
| Ok (a : A)
| Raise (e : py_exception).
Arguments Ok {A} a.
Arguments Raise {A} e.

Global Instance result_ret : MRet result := fun _ a => Ok a.
Global Instance result_bind : MBind result := fun _ _ f r =>
  match r with
  | Ok a => f a
  | Raise e => Raise e
  end.

Definition is_ok {A : Type} (r : result A) : bool :=
  match r with Ok _ => true | Raise _ => false end.

(** [d[key]] on a dict: the key may be absent. *)
Definition getitem {A : Type} (key : string) (field : option A) : result A :=
  match field with
  | Some v => Ok v
  | None => Raise (KeyError key)
  end.

(** [d.get(key, default)]. *)
Definition dict_get {A : Type} (field : option A) (default : A) : A :=
  match field with
  | Some v => v
  | None => default
  end.

(** [l[i]] on a list. *)
Definition list_getitem {A : Type} (l : list A) (i : nat) : result A :=
  match l !! i with
  | Some v => Ok v
  | None => Raise IndexError
  end.

(** *** Strings *)

(** ["@" in s]. *)
Fixpoint contains_char (c : ascii) (s : string) : bool :=
  match s with
  | EmptyString => false
  | String c' s' => Ascii.eqb c' c || contains_char c s'
  end.

(** [s.split(sep)] for a one-character separator. *)
Fixpoint str_split (sep : ascii) (s : string) : list string :=
  match s with
  | EmptyString => [EmptyString]
  | String c s' =>
      if Ascii.eqb c sep then EmptyString :: str_split sep s'
      else match str_split sep s' with
           | piece :: pieces => String c piece :: pieces
           | [] => [String c EmptyString]
           end
  end.

(** [s.replace("Z", "+00:00")]. *)
Fixpoint replace_Z (s : string) : string :=
  match s with
  | EmptyString => EmptyString
  | String c s' =>
      if Ascii.eqb c "Z"%char then "+00:00" ++ replace_Z s'
      else String c (replace_Z s')
  end.

(** *** Numbers *)

(** [float(n)] for a Python int, and the cast of a DuckDB integer to
    [DOUBLE]: the nearest binary64 value, ties to even. *)
Definition float_of_Z (n : Z) : float :=
  SF2Prim (binary_normalize prec emax n 0 false).

(** [a / b] on two Python ints with [b > 0]: the quotient rounded once. *)
Definition int_truediv (a b : Z) : float :=
  match a with
  | Z0 => PrimFloat.zero
  | Zpos p => SF2Prim (SFdiv prec emax (S754_finite false p 0)
                             (S754_finite false (Z.to_pos b) 0))
  | Zneg p => SF2Prim (SFdiv prec emax (S754_finite true p 0)
                             (S754_finite false (Z.to_pos b) 0))
  end.

(** [int(x)] on a float: truncation toward zero. *)
Definition int_of_float (x : float) : result Z :=
  match Prim2SF x with
  | S754_zero _ => Ok 0
  | S754_finite s m e =>
      let magnitude :=
        match e with
        | Z0 => Zpos m
        | Zpos k => Zpos m * 2 ^ Zpos k
        | Zneg k => Zpos m / 2 ^ Zpos k
        end in
      Ok (if s then - magnitude else magnitude)
  | S754_infinity _ => Raise OverflowError
  | S754_nan => Raise ValueError
  end.

(** [x / y] on floats: Python raises where IEEE 754 returns an infinity or
    a NaN. *)
Definition float_truediv (x y : float) : result float :=
  if PrimFloat.eqb y PrimFloat.zero then Raise ZeroDivisionError
  else Ok (PrimFloat.div x y).

(** [x / n] with [n] a Python int: [n] is converted to a float, which is
    zero exactly when [n] is. *)
Definition float_truediv_int (x : float) (n : Z) : result float :=
  if n =? 0 then Raise ZeroDivisionError
  else Ok (PrimFloat.div x (float_of_Z n)).

(** A number that is either a Python int or a Python float. *)
Inductive py_number : Type :=
| PyInt (n : Z)
| PyFloat (x : float).

Definition to_float (v : py_number) : float :=
  match v with
  | PyInt n => float_of_Z n
  | PyFloat x => x
  end.

(** [v > n] for an int literal [n]. *)
Definition number_gt (v : py_number) (n : Z) : bool :=
  match v with
  | PyInt m => n <? m
  | PyFloat x => PrimFloat.ltb (float_of_Z n) x
  end.

(** [v + x], the step of [sum] over floats. *)
Definition number_add (v : py_number) (x : float) : py_number :=
  PyFloat (PrimFloat.add (to_float v) x).

(** A value of one of the three Python types a breakdown row holds. *)
Inductive py_value : Type :=
| VStr (s : string)
| VInt (n : Z)
| VFloat (x : float).

(** [a == b]: values of different types are unequal, save int and float. *)
Definition py_eq (a b : py_value) : bool :=
  match a, b with
  | VStr s, VStr t => String.eqb s t
  | VInt m, VInt n => m =? n
  | VFloat x, VFloat y => PrimFloat.eqb x y
  | VInt m, VFloat y => PrimFloat.eqb (float_of_Z m) y
  | VFloat x, VInt n => PrimFloat.eqb x (float_of_Z n)
  | _, _ => false
  end.

(** ** JSON values

    What [response.json()] returns: [None], a [bool], a number, a [str], a
    [list], or a [dict] with [str] keys. A dict is the list of its items in
    order; a key occurs once, and were it to occur twice the first item
    would count. *)
#[warnings="-register-all"]
Inductive json : Type :=
| JNull
| JBool (b : bool)
| JNumber (n : py_number)
| JStr (s : string)
| JList (items : list json)
| JDict (entries : list (string * json)).

(** The item of a key among the items of a dict. *)
Fixpoint dict_item (key : string) (entries : list (string * json)) : option json :=
  match entries with
  | [] => None
  | (k, v) :: entries' => if String.eqb k key then Some v else dict_item key entries'
  end.

(** [d[key] = v]: the item of the key is replaced where it stands, and
    a new key comes last. *)
Fixpoint dict_set (key : string) (v : json) (entries : list (string * json))
  : list (string * json) :=
  match entries with
  | [] => [(key, v)]
  | (k, x) :: entries' =>
      if String.eqb k key then (k, v) :: entries' else (k, x) :: dict_set key v entries'
  end.

(** [v[key]] for a [str] key: a dict has items under such keys; a list
    and a str take integer indices, the other values none. *)
Definition json_getitem (v : json) (key : string) : result json :=
  match v with
  | JDict entries => getitem key (dict_item key entries)
  | _ => Raise TypeError
  end.

(** [v.get(key, default)]: a method of dicts only. *)
Definition json_get (v : json) (key : string) (default : json) : result json :=
  match v with
  | JDict entries => Ok (dict_get (dict_item key entries) default)
  | _ => Raise AttributeError
  end.

(** [len(v)]. *)
Definition json_len (v : json) : result Z :=
  match v with
  | JStr s => Ok (Z.of_nat (String.length s))
  | JList items => Ok (Z.of_nat (length items))
  | JDict entries => Ok (Z.of_nat (length entries))
  | _ => Raise TypeError
  end.

(** [for x in v]: the items of a list, the characters of a str, the keys
    of a dict. *)
Definition json_iter (v : json) : result (list json) :=
  match v with
  | JStr s => Ok (map (fun c => JStr (String c EmptyString)) (list_ascii_of_string s))
  | JList items => Ok items
  | JDict entries => Ok (map (fun entry => JStr (fst entry)) entries)
  | _ => Raise TypeError
  end.

(** [c in v] for a one-character str [c]: a substring test on a str, a
    search for an equal item in a list, for the key in a dict. *)
Definition json_contains (c : ascii) (v : json) : result bool :=
  match v with
  | JStr s => Ok (contains_char c s)
  | JList items =>
      Ok (existsb (fun item => match item with
                               | JStr s => String.eqb s (String c EmptyString)
                               | _ => false
                               end) items)
  | JDict entries =>
      Ok (existsb (fun entry => String.eqb (fst entry) (String c EmptyString)) entries)
  | _ => Raise TypeError
  end.

(** [v.replace("Z", "+00:00")] and [v.split(sep)]: methods of str only. *)
Definition json_replace_Z (v : json) : result string :=
  match v with
  | JStr s => Ok (replace_Z s)
  | _ => Raise AttributeError
  end.

Definition json_split (sep : ascii) (v : json) : result (list string) :=
  match v with
  | JStr s => Ok (str_split sep s)
  | _ => Raise AttributeError
  end.

(** ** Timestamps *)

Definition usec_per_second : Z := 1000000.
Definition usec_per_minute : Z := 60 * usec_per_second.
Definition usec_per_hour : Z := 60 * usec_per_minute.
Definition usec_per_day : Z := 24 * usec_per_hour.

(** [INTERVAL (n || ' minutes')]. *)
Definition interval_minutes (n : Z) : Z := n * usec_per_minute.

(** [EXTRACT(hour FROM t)]. *)
Definition extract_hour (t : Z) : Z := (t / usec_per_hour) mod 24.

(** [DATE(t)], as a day number counted from 1970-01-01. *)
Definition date_of (t : Z) : Z := t / usec_per_day.

(** [EXTRACT(dow FROM t)]: Sunday is 0 and Saturday is 6; 1970-01-01 was a
    Thursday. *)
Definition extract_dow (t : Z) : Z := (date_of t + 4) mod 7.

(** [x BETWEEN lo AND hi]: both ends included. *)
Definition between (x lo hi : Z) : bool := (lo <=? x) && (x <=? hi).

(** The day number of a Gregorian calendar date, used to write the
    timestamps of the examples. *)
Definition days_from_civil (y m d : Z) : Z :=
  let y' := if m <=? 2 then y - 1 else y in
  let era := y' / 400 in
  let yoe := y' - era * 400 in
  let mp := if m <=? 2 then m + 9 else m - 3 in
  let doy := (153 * mp + 2) / 5 + d - 1 in
  let doe := yoe * 365 + yoe / 4 - yoe / 100 + doy in
  era * 146097 + doe - 719468.

Definition timestamp (y m d hh mm : Z) : Z :=
  days_from_civil y m d * usec_per_day + hh * usec_per_hour
  + mm * usec_per_minute.

(** ** The [events] table *)

(** A row of [events]; the columns are those of the [CREATE TABLE]. [id],
    [title] and the two times are [NOT NULL]; the sync writes a str or
    [NULL] to [description], [creator_email], [status] and [location], and
    a bool or [NULL] to [is_recurring]. *)
Record event_row : Type := {
  row_id : string;
  row_title : string;
  row_description : option string;
  row_start_time : Z;
  row_end_time : Z;
  row_duration_minutes : Z;
  row_attendees_count : Z;
  row_meeting_type : string;
  row_creator_email : option string;
  row_status : option string;
  row_location : option string;
  row_is_recurring : option bool;
  row_created_at : Z;
  row_updated_at : Z
}.

(** The table is the list of its rows, in insertion order. *)
Abbreviation events_table := (list event_row).

(** [column = 'text'] in a [WHERE] clause: a [NULL] does not pass. *)
Definition text_is (column : option string) (text : string) : bool :=
  match column with
  | Some s => String.eqb s text
  | None => false
  end.

(** The row count of [events], as the sync report selects it. *)
Definition count_events (table : events_table) : Z := Z.of_nat (length table).

(** ** The [free_slots] table macro *)

(** The recursive member of [time_slots]: from the newest row [slot_start]
    it adds [slot_start + 30 minutes] while that lies before [end_date].
    [fuel] bounds the number of rounds. *)
Fixpoint time_slots_step (fuel : nat) (slot_start end_date : Z) : list Z :=
  match fuel with
  | O => []
  | S fuel' =>
      let next := slot_start + interval_minutes 30 in
      if next <? end_date then next :: time_slots_step fuel' next end_date
      else []
  end.

(** The number of rounds after which the recursion has stopped. *)
Definition time_slots_rounds (start_date end_date : Z) : nat :=
  Z.to_nat ((end_date - start_date) / interval_minutes 30 + 1).

(** [WITH RECURSIVE time_slots]: the anchor row [start_date], then the rows
    of the recursive member. *)
Definition time_slots (start_date end_date : Z) : list Z :=
  start_date :: time_slots_step (time_slots_rounds start_date end_date) start_date end_date.

(** [busy_times]: the confirmed events lying inside the range. *)
Definition busy_times (table : events_table) (start_date end_date : Z) : list (Z * Z) :=
  map (fun r => (row_start_time r, row_end_time r))
      (filter (fun r => (text_is (row_status r) "confirmed"
                         && (start_date <=? row_start_time r)
                         && (row_end_time r <=? end_date)) = true) table).

(** The [WHERE] clause of the [EXISTS] subquery, for one busy interval. *)
Definition overlaps (busy : Z * Z) (slot_start duration_minutes : Z) : bool :=
  (fst busy <? slot_start + interval_minutes duration_minutes)
  && (slot_start <? snd busy).

(** The two tests of the macro's final [WHERE] clause that its comments
    label business hours and weekdays. *)
Definition business_time (slot_start : Z) : bool :=
  between (extract_hour slot_start) 9 17 && between (extract_dow slot_start) 1 5.

(** The [WHERE] clause of the macro's final [SELECT]. *)
Definition slot_selected (busy : list (Z * Z)) (duration_minutes slot_start : Z) : bool :=
  negb (existsb (fun b => overlaps b slot_start duration_minutes) busy)
  && business_time slot_start.

(** [free_slots(start_date, end_date, duration_minutes)]: the rows
    [(slot_start, slot_end)] of the macro. *)
Definition free_slots (table : events_table) (start_date end_date duration_minutes : Z)
  : list (Z * Z) :=
  map (fun slot_start => (slot_start, slot_start + interval_minutes duration_minutes))
      (filter (fun slot_start =>
                 slot_selected (busy_times table start_date end_date)
                               duration_minutes slot_start = true)
              (time_slots start_date end_date)).

(** The macro called without its third argument: [duration_minutes := 60]. *)
Definition free_slots_default (table : events_table) (start_date end_date : Z) : list (Z * Z) :=
  free_slots table start_date end_date 60.

(** ** Raw events and their transformation *)

(** A Python [datetime]: the wall-clock reading in microseconds since
    1970-01-01 00:00:00 and, for an aware value, its UTC offset. *)
Record datetime : Type := {
  dt_wall : Z;
  dt_utcoffset : option Z
}.

(** [a - b] on datetimes, a [timedelta] in microseconds: Python refuses to
    subtract a naive value from an aware one and conversely. *)
Definition datetime_sub (a b : datetime) : result Z :=
  match dt_utcoffset a, dt_utcoffset b with
  | Some oa, Some ob => Ok ((dt_wall a - oa) - (dt_wall b - ob))
  | None, None => Ok (dt_wall a - dt_wall b)
  | _, _ => Raise TypeError
  end.

(** [td.total_seconds()]. *)
Definition total_seconds (td : Z) : float := int_truediv td (10 ^ 6).

(** The [TIMESTAMP] DuckDB stores for a Python datetime bound to a query
    parameter: the UTC instant of an aware value (session time zone UTC),
    the wall-clock reading of a naive one. *)
Definition timestamp_of_datetime (d : datetime) : Z :=
  match dt_utcoffset d with
  | Some offset => dt_wall d - offset
  | None => dt_wall d
  end.

(** The dict [_transform_event_data] returns. The values taken from the
    raw event with [event["id"]] and [event.get(...)] are passed on as
    they are, whatever their type. *)
Record transformed : Type := {
  tr_id : json;
  tr_title : json;
  tr_description : json;
  tr_start_time : datetime;
  tr_end_time : datetime;
  tr_duration_minutes : Z;
  tr_attendees_count : Z;
  tr_meeting_type : string;
  tr_creator_email : json;
  tr_status : json;
  tr_location : json;
  tr_is_recurring : json
}.

(** One round of the set comprehension: the condition
    ["@" in attendee.get("email", "")], then, for an attendee that passes
    it, the element [attendee.get("email", "").split("@")[1]]. *)
Definition attendee_domain (attendee : json) : result (option string) :=
  email ← json_get attendee "email" (JStr "");
  selected ← json_contains "@" email;
  if selected : bool then
    email ← json_get attendee "email" (JStr "");
    pieces ← json_split "@" email;
    domain ← list_getitem pieces 1;
    mret (Some domain)
  else mret None.

(** The set comprehension [external_domains], over the attendees the
    iteration yields. *)
Definition external_domains (attendees : list json) : result (gset string) :=
  domains ← mapM attendee_domain attendees;
  mret (list_to_set (omap id domains)).

(** The comprehension, then the [if]/[elif]/[else] that determines the
    meeting type. *)
Definition classify_meeting (attendees : json) (company_domain : string) : result string :=
  items ← json_iter attendees;
  domains ← external_domains items;
  if bool_decide (0 < size (domains ∖ {[ company_domain ]}))%nat
  then mret "external"
  else n ← json_len attendees;
       mret (if 1 <? n then "internal" else "personal").

(** ** The engine *)

(** The values of the columns an [INSERT] or an [UPDATE] of the sync
    sets, once the engine has accepted the parameters. *)
Record columns : Type := {
  col_title : string;
  col_description : option string;
  col_start_time : Z;
  col_end_time : Z;
  col_duration_minutes : Z;
  col_attendees_count : Z;
  col_meeting_type : string;
  col_creator_email : option string;
  col_status : option string;
  col_location : option string;
  col_is_recurring : option bool
}.

(** What the server leaves to DuckDB:
    - [cast_varchar], [cast_boolean]: the value a [VARCHAR] or a [BOOLEAN]
      column takes from a bound parameter that is neither [None] nor of
      the column's own Python type (a number or a list under [title],
      say), or the exception of the cast;
    - [select_other]: the answer of [SELECT id FROM events WHERE id = ?]
      and [fetchone()] for a parameter that is neither [None] nor a str;
    - [update_other]: for the [UPDATE] of a record with such an id, the
      exception it raises or the ids of the rows its [WHERE] selects. *)
Record engine : Type := {
  cast_varchar : json -> result string;
  cast_boolean : json -> result bool;
  select_other : json -> events_table -> result (option string);
  update_other : transformed -> events_table -> result (string -> bool)
}.

(** The range of an [INTEGER] column. *)
Definition int32 (n : Z) : bool := (- 2 ^ 31 <=? n) && (n <? 2 ^ 31).

(** A Python int bound to an [INTEGER] column. *)
Definition to_integer (n : Z) : result Z :=
  if int32 n then Ok n else Raise ConversionException.

(** A value stored under a [NOT NULL] column. *)
Definition not_null {A : Type} (value : option A) : result A :=
  match value with
  | Some v => Ok v
  | None => Raise ConstraintException
  end.

Section Server.

(** [datetime.fromisoformat], of the Python library; it raises
    [ValueError] on a string it does not accept. *)
Variable fromisoformat : string -> result datetime.

(** The system clock: [clock n] is what the [n]-th call of
    [datetime.now(timezone.utc)] returns, as a timestamp. *)
Variable clock : nat -> Z.

Variable duckdb : engine.

Definition _transform_event_data (event : json) : result transformed :=
  start_raw ← json_getitem event "start_time";
  start_text ← json_replace_Z start_raw;
  start_time ← fromisoformat start_text;
  end_raw ← json_getitem event "end_time";
  end_text ← json_replace_Z end_raw;
  end_time ← fromisoformat end_text;
  delta ← datetime_sub end_time start_time;
  duration ← int_of_float (PrimFloat.div (total_seconds delta) (float_of_Z 60));
  attendees ← json_get event "attendees" (JList []);
  let company_domain := "example.com" in
  meeting_type ← classify_meeting attendees company_domain;
  id ← json_getitem event "id";
  title ← json_get event "title" (JStr "No title");
  description ← json_get event "description" (JStr "");
  attendees_count ← json_len attendees;
  creator ← json_get event "creator" (JDict []);
  creator_email ← json_get creator "email" (JStr "");
  status ← json_get event "status" (JStr "confirmed");
  location ← json_get event "location" (JStr "");
  is_recurring ← json_get event "recurring" (JBool false);
  mret {| tr_id := id;
          tr_title := title;
          tr_description := description;
          tr_start_time := start_time;
          tr_end_time := end_time;
          tr_duration_minutes := duration;
          tr_attendees_count := attendees_count;
          tr_meeting_type := meeting_type;
          tr_creator_email := creator_email;
          tr_status := status;
          tr_location := location;
          tr_is_recurring := is_recurring |}.

(** *** Parameters and columns *)

(** A value bound to a parameter of a [VARCHAR] column: [None] is [NULL]
    and a str is stored as it is. *)
Definition to_varchar (v : json) : result (option string) :=
  match v with
  | JNull => Ok None
  | JStr s => Ok (Some s)
  | _ => s ← cast_varchar duckdb v; mret (Some s)
  end.

(** A value bound to a parameter of a [BOOLEAN] column. *)
Definition to_boolean (v : json) : result (option bool) :=
  match v with
  | JNull => Ok None
  | JBool b => Ok (Some b)
  | _ => b ← cast_boolean duckdb v; mret (Some b)
  end.

(** The parameters the [INSERT] and the [UPDATE] have in common, as the
    table would hold them: the engine refuses a number of minutes or of
    attendees outside the range of an [INTEGER], and [NULL] as a title. *)
Definition bind_columns (t : transformed) : result columns :=
  title ← to_varchar (tr_title t);
  description ← to_varchar (tr_description t);
  duration_minutes ← to_integer (tr_duration_minutes t);
  attendees_count ← to_integer (tr_attendees_count t);
  creator_email ← to_varchar (tr_creator_email t);
  status ← to_varchar (tr_status t);
  location ← to_varchar (tr_location t);
  is_recurring ← to_boolean (tr_is_recurring t);
  title ← not_null title;
  mret {| col_title := title;
          col_description := description;
          col_start_time := timestamp_of_datetime (tr_start_time t);
          col_end_time := timestamp_of_datetime (tr_end_time t);
          col_duration_minutes := duration_minutes;
          col_attendees_count := attendees_count;
          col_meeting_type := tr_meeting_type t;
          col_creator_email := creator_email;
          col_status := status;
          col_location := location;
          col_is_recurring := is_recurring |}.

(** [SELECT id FROM events WHERE id = ?] followed by [fetchone()]: the id
    of the first row selected, if any. No id equals [NULL]. *)
Definition select_id (key : json) (table : events_table) : result (option string) :=
  match key with
  | JStr s =>
      Ok (match filter (fun r => String.eqb (row_id r) s = true) table with
          | r :: _ => Some (row_id r)
          | [] => None
          end)
  | JNull => Ok None
  | _ => select_other duckdb key table
  end.

(** The ids the clause [WHERE id = ?] of the [UPDATE] selects. *)
Definition where_id (t : transformed) (table : events_table) : result (string -> bool) :=
  match tr_id t with
  | JStr s => Ok (String.eqb s)
  | JNull => Ok (fun _ => false)
  | _ => update_other duckdb t table
  end.

(** *** The store and the clock *)

(** What the sync loop reads and writes: the table and the number of
    clock readings taken so far. *)
Record world : Type := {
  db : events_table;
  clock_reads : nat
}.

(** [datetime.now(timezone.utc)]. *)
Definition now (w : world) : Z * world :=
  (clock (clock_reads w),
   {| db := db w; clock_reads := S (clock_reads w) |}).

(** The [SET] clause of the [UPDATE], applied to one row. *)
Definition apply_update (cols : columns) (updated_at : Z) (r : event_row) : event_row :=
  {| row_id := row_id r;
     row_title := col_title cols;
     row_description := col_description cols;
     row_start_time := col_start_time cols;
     row_end_time := col_end_time cols;
     row_duration_minutes := col_duration_minutes cols;
     row_attendees_count := col_attendees_count cols;
     row_meeting_type := col_meeting_type cols;
     row_creator_email := col_creator_email cols;
     row_status := col_status cols;
     row_location := col_location cols;
     row_is_recurring := col_is_recurring cols;
     row_created_at := row_created_at r;
     row_updated_at := updated_at |}.

(** [UPDATE events SET ... WHERE id = ?]: the rows selected take the new
    values, which the engine must accept; a statement that raises writes
    nothing. *)
Definition update_rows (t : transformed) (updated_at : Z) (table : events_table)
  : result events_table :=
  selected ← where_id t table;
  if existsb (fun r => selected (row_id r)) table then
    cols ← bind_columns t;
    mret (map (fun r => if selected (row_id r) : bool
                        then apply_update cols updated_at r else r) table)
  else mret table.

(** The row of the [INSERT]'s [VALUES]. *)
Definition new_row (id : string) (cols : columns) (created_at updated_at : Z) : event_row :=
  {| row_id := id;
     row_title := col_title cols;
     row_description := col_description cols;
     row_start_time := col_start_time cols;
     row_end_time := col_end_time cols;
     row_duration_minutes := col_duration_minutes cols;
     row_attendees_count := col_attendees_count cols;
     row_meeting_type := col_meeting_type cols;
     row_creator_email := col_creator_email cols;
     row_status := col_status cols;
     row_location := col_location cols;
     row_is_recurring := col_is_recurring cols;
     row_created_at := created_at;
     row_updated_at := updated_at |}.

(** [INSERT INTO events ... VALUES ...]: the engine must accept the
    values; [id] is the [PRIMARY KEY], so that [NULL] and an id that a
    stored row has are refused. *)
Definition insert_row (t : transformed) (created_at updated_at : Z) (table : events_table)
  : result events_table :=
  cols ← bind_columns t;
  id ← to_varchar (tr_id t);
  id ← not_null id;
  if bool_decide (id ∈ map row_id table) then Raise ConstraintException
  else mret (table ++ [new_row id cols created_at updated_at])%list.

Inductive upsert_result : Type := Inserted | Updated.

(** The statements after the transformation in the [try] block of the
    loop: look the id up, then update or insert. The parameters of each
    statement are evaluated, clock readings included, before it runs. *)
Definition upsert (t : transformed) (w : world) : result upsert_result * world :=
  match select_id (tr_id t) (db w) with
  | Raise e => (Raise e, w)
  | Ok (Some _) =>
      let '(updated_at, w1) := now w in
      match update_rows t updated_at (db w1) with
      | Ok table => (Ok Updated, {| db := table; clock_reads := clock_reads w1 |})
      | Raise e => (Raise e, w1)
      end
  | Ok None =>
      let '(created_at, w1) := now w in
      let '(updated_at, w2) := now w1 in
      match insert_row t created_at updated_at (db w2) with
      | Ok table => (Ok Inserted, {| db := table; clock_reads := clock_reads w2 |})
      | Raise e => (Raise e, w2)
      end
  end.

(** The [try] block of the loop for one raw event. *)
Definition reconcile (event : json) (w : world) : result upsert_result * world :=
  match _transform_event_data event with
  | Ok t => upsert t w
  | Raise e => (Raise e, w)
  end.

Record sync_stats : Type := {
  fetched : Z;
  updated : Z;
  inserted : Z;
  errors : Z
}.

(** One iteration of the loop: the [try] block and its [except], which
    counts the error and then prints a line with
    [event.get('id', 'unknown')]; what that call raises leaves the loop. *)
Definition sync_step (stats : sync_stats) (w : world) (event : json)
  : result sync_stats * world :=
  match reconcile event w with
  | (Ok Updated, w') =>
      (Ok {| fetched := fetched stats; updated := updated stats + 1;
             inserted := inserted stats; errors := errors stats |}, w')
  | (Ok Inserted, w') =>
      (Ok {| fetched := fetched stats; updated := updated stats;
             inserted := inserted stats + 1; errors := errors stats |}, w')
  | (Raise _, w') =>
      (_ ← json_get event "id" (JStr "unknown");
       mret {| fetched := fetched stats; updated := updated stats;
               inserted := inserted stats; errors := errors stats + 1 |}, w')
  end.

(** The [for] loop over the fetched events. *)
Fixpoint sync_loop (feed : list json) (stats : sync_stats) (w : world)
  : result sync_stats * world :=
  match feed with
  | [] => (Ok stats, w)
  | event :: feed' =>
      match sync_step stats w event with
      | (Ok stats', w') => sync_loop feed' stats' w'
      | (Raise e, w') => (Raise e, w')
      end
  end.

(** What [_handle_sync_data] answers: the statistics with the row count
    and the time of the report, or the text of the outer [except]. *)
Inductive sync_response : Type :=
| SyncComplete (stats : sync_stats) (total_events : Z) (last_sync : Z)
| SyncError (e : py_exception).

(** [events_data.get("events", [])], its [len] and its iteration. *)
Definition fetched_events (events_data : json) : result (Z * list json) :=
  events ← json_get events_data "events" (JList []);
  n ← json_len events;
  feed ← json_iter events;
  mret (n, feed).

(** [_handle_sync_data]. [token] is what the keyring holds and
    [api_response] what the [GET] of the date range comes to: the
    exception raised while the range is computed, the request made or its
    answer decoded, else the JSON body. *)
Definition _handle_sync_data (token : option string) (api_response : result json)
    (w : world) : sync_response * world :=
  match token with
  | None | Some "" => (SyncError ValueError, w)
  | Some _ =>
      let '(end_date, w1) := now w in
      match api_response ≫= fetched_events with
      | Raise e => (SyncError e, w1)
      | Ok (n, feed) =>
          let stats0 := {| fetched := 0; updated := 0; inserted := 0; errors := 0 |} in
          let stats1 := {| fetched := n; updated := updated stats0;
                           inserted := inserted stats0; errors := errors stats0 |} in
          match sync_loop feed stats1 w1 with
          | (Raise e, w2) => (SyncError e, w2)
          | (Ok stats, w2) =>
              let total := count_events (db w2) in
              let '(last_sync, w3) := now w2 in
              (SyncComplete stats total last_sync, w3)
          end
      end
  end.

End Server.

(** ** Insights *)

(** The [WHERE] clause shared by the four analytics queries. *)
Definition in_window (start_date end_date : Z) (r : event_row) : bool :=
  (start_date <=? row_start_time r) && (row_start_time r <=? end_date)
  && text_is (row_status r) "confirmed".

Definition window_rows (start_date end_date : Z) (table : events_table) : events_table :=
  filter (fun r => in_window start_date end_date r = true) table.

(** [SUM(duration_minutes)]; [COALESCE(..., 0)] gives the empty sum. *)
Definition sum_minutes (rows : events_table) : Z :=
  fold_right Z.add 0 (map row_duration_minutes rows).

(** [SUM(duration_minutes) / 60.0]. *)
Definition hours_of (rows : events_table) : float :=
  PrimFloat.div (float_of_Z (sum_minutes rows)) (float_of_Z 60).

(** The distinct values of a list, in order of first occurrence: the groups
    of a [GROUP BY]. *)
Fixpoint distinct {K : Type} (eqb : K -> K -> bool) (keys : list K) : list K :=
  match keys with
  | [] => []
  | k :: keys' => k :: filter (fun k' => eqb k k' = false) (distinct eqb keys')
  end.

(** [ORDER BY hours DESC] by insertion; rows of equal hours keep the order
    of their groups. *)
Fixpoint insert_desc {A : Type} (hours : A -> float) (x : A) (sorted : list A) : list A :=
  match sorted with
  | [] => [x]
  | y :: sorted' =>
      if PrimFloat.ltb (hours x) (hours y) then y :: insert_desc hours x sorted'
      else x :: y :: sorted'
  end.

Definition order_by_hours_desc {A : Type} (hours : A -> float) (rows : list A) : list A :=
  fold_right (insert_desc hours) [] rows.

(** The [meeting_breakdown] query: type, count and hours of each group. *)
Definition meeting_breakdown (rows : events_table) : list (string * Z * float) :=
  order_by_hours_desc snd
    (map (fun k =>
            let group := filter (fun r => String.eqb (row_meeting_type r) k = true) rows in
            (k, Z.of_nat (length group), hours_of group))
         (distinct String.eqb (map row_meeting_type rows))).

(** The [busiest_days] query: day, count and hours, the first five. *)
Definition busiest_days (rows : events_table) : list (Z * Z * float) :=
  take 5
    (order_by_hours_desc snd
       (map (fun day =>
               let group := filter (fun r => (date_of (row_start_time r) =? day) = true) rows in
               (day, Z.of_nat (length group), hours_of group))
            (distinct Z.eqb (map (fun r => date_of (row_start_time r)) rows)))).

(** The condition of the generator expression
    [hours for _, _, hours in meeting_breakdown if _ == "external"]: the
    row is unpacked into the targets [_], [_] and [hours] from left to
    right, so that [_] holds the second component when the condition is
    evaluated. *)
Definition generator_condition (row : string * Z * float) : bool :=
  let '(meeting_type, count, _) := row in
  let underscore := VStr meeting_type in
  let underscore := VInt count in
  py_eq underscore (VStr "external").

(** [sum(...)] over the hours the generator yields: from the int [0]. *)
Definition sum_hours (hours : list float) : py_number :=
  fold_left number_add hours (PyInt 0).

Inductive recommendation : Type :=
| HighMeetingLoad
| HighExternalRatio
| LongAverageDuration
| ScheduleReview.

(** The numbers the report prints, before formatting, and the
    recommendation lines in order. *)
Record report : Type := {
  rep_total_meetings : Z;
  rep_total_hours : float;
  rep_average_per_day : float;
  rep_average_meeting_length : py_number;
  rep_breakdown : list (string * Z * float * py_number);
  rep_busiest_days : list (Z * Z * float);
  rep_recommendations : list recommendation
}.

(** [(total_hours * 60 / total_meetings) if total_meetings > 0 else 0]. *)
Definition average_meeting_length (total_hours : float) (total_meetings : Z) : result py_number :=
  if 0 <? total_meetings
  then x ← float_truediv_int (PrimFloat.mul total_hours (float_of_Z 60)) total_meetings;
       mret (PyFloat x)
  else mret (PyInt 0).

(** [(hours / total_hours * 100) if total_hours > 0 else 0]. *)
Definition percentage (hours total_hours : float) : result py_number :=
  if PrimFloat.ltb (float_of_Z 0) total_hours
  then q ← float_truediv hours total_hours;
       mret (PyFloat (PrimFloat.mul q (float_of_Z 100)))
  else mret (PyInt 0).

(** The loop over [meeting_breakdown] that prints one line per type. *)
Fixpoint breakdown_lines (breakdown : list (string * Z * float)) (total_hours : float)
  : result (list (string * Z * float * py_number)) :=
  match breakdown with
  | [] => mret []
  | (meeting_type, count, hours) :: breakdown' =>
      p ← percentage hours total_hours;
      lines ← breakdown_lines breakdown' total_hours;
      mret ((meeting_type, count, hours, p) :: lines)
  end.

(** The block under [if include_recommendations and total_hours > 0]. *)
Definition recommendations (breakdown : list (string * Z * float))
    (total_hours : float) (total_meetings : Z) : result (list recommendation) :=
  let high_load :=
    if PrimFloat.ltb (float_of_Z 20) total_hours then [HighMeetingLoad] else [] in
  share ← float_truediv
            (to_float (sum_hours (map snd (filter (fun row => generator_condition row = true)
                                                  breakdown))))
            total_hours;
  let external_percentage := PrimFloat.mul share (float_of_Z 100) in
  let high_external :=
    if PrimFloat.ltb (float_of_Z 60) external_percentage then [HighExternalRatio] else [] in
  avg_meeting_length ← average_meeting_length total_hours total_meetings;
  let long_average :=
    if number_gt avg_meeting_length 45 then [LongAverageDuration] else [] in
  mret (high_load ++ high_external ++ long_average ++ [ScheduleReview])%list.

(** [(end_date - start_date).days]. *)
Definition timedelta_days (td : Z) : Z := td / usec_per_day.

(** The [try] block of [_handle_generate_insights], up to the report;
    [end_date] is the clock reading it starts with. *)
Definition generate_insights (time_period : string) (include_recommendations : bool)
    (end_date : Z) (table : events_table) : result report :=
  let start_date :=
    if String.eqb time_period "week" then end_date - 7 * usec_per_day
    else if String.eqb time_period "month" then end_date - 30 * usec_per_day
    else end_date - 90 * usec_per_day in
  let rows := window_rows start_date end_date table in
  let total_meetings := Z.of_nat (length rows) in
  let total_hours := hours_of rows in
  let breakdown := meeting_breakdown rows in
  let days := busiest_days rows in
  average_per_day ← float_truediv_int total_hours (timedelta_days (end_date - start_date));
  average_length ← average_meeting_length total_hours total_meetings;
  lines ← breakdown_lines breakdown total_hours;
  recs ← (if include_recommendations && PrimFloat.ltb (float_of_Z 0) total_hours
          then recommendations breakdown total_hours total_meetings
          else mret []);
  mret {| rep_total_meetings := total_meetings;
          rep_total_hours := total_hours;
          rep_average_per_day := average_per_day;
          rep_average_meeting_length := average_length;
          rep_breakdown := lines;
          rep_busiest_days := days;
          rep_recommendations := recs |}.

Inductive insights_response : Type :=
| InsightsReport (r : report)
| InsightsError (e : py_exception).

(** [_handle_generate_insights]: the arguments default to ["month"] and
    [True]; an exception of the [try] block becomes the error text. *)
Definition _handle_generate_insights (time_period : option string)
    (include_recommendations : option bool) (end_date : Z) (table : events_table)
  : insights_response :=
  match generate_insights (dict_get time_period "month")
                          (dict_get include_recommendations true) end_date table with
  | Ok r => InsightsReport r
  | Raise e => InsightsError e
  end.

(** ** The statement of the insights specification

    The share of the hours of external meetings, computed as the
    specification words it: the hours of the breakdown rows whose meeting
    type is ["external"], divided by the total hours, as a percentage. *)
Definition external_percentage_spec (breakdown : list (string * Z * float))
    (total_hours : float) : float :=
  let external_rows :=
    filter (fun row => String.eqb (fst (fst row)) "external" = true) breakdown in
  PrimFloat.mul
    (PrimFloat.div (to_float (sum_hours (map snd external_rows))) total_hours)
    (float_of_Z 100).

(** The classification of meetings as the specification words it: a
    meeting is external when some attendee has a domain other than the home
    domain. *)
Definition has_foreign_domain (attendees : list json) (home_domain : string) : bool :=
  existsb (fun a => match attendee_domain a with
                    | Ok (Some d) => negb (String.eqb d home_domain)
                    | _ => false
                    end) attendees.

Definition classify_spec (attendees : list json) (home_domain : string) : string :=
  if has_foreign_domain attendees home_domain then "external"
  else if (1 <? length attendees)%nat then "internal"
  else "personal".

(** ** Sample data *)

(** A reader of the timestamps [YYYY-MM-DDTHH:MM:SS], with an optional
    [+HH:MM] or [-HH:MM], that agrees with [datetime.fromisoformat] on
    them and raises [ValueError] on every other string. *)
Definition digit_value (c : ascii) : option Z :=
  let n := Z.of_N (N_of_ascii c) in
  if (48 <=? n) && (n <=? 57) then Some (n - 48) else None.

Fixpoint number_of_digits (acc : Z) (cs : list ascii) : option Z :=
  match cs with
  | [] => Some acc
  | c :: cs' => d ← digit_value c; number_of_digits (10 * acc + d) cs'
  end.

Definition digits_at (cs : list ascii) (from len : nat) : option Z :=
  let piece := take len (drop from cs) in
  if (length piece =? len)%nat then number_of_digits 0 piece else None.

Definition char_at (cs : list ascii) (i : nat) (c : ascii) : option unit :=
  match cs !! i with
  | Some c' => if Ascii.eqb c c' then Some tt else None
  | None => None
  end.

Definition is_leap (y : Z) : bool :=
  ((y mod 4 =? 0) && negb (y mod 100 =? 0)) || (y mod 400 =? 0).

Definition days_in_month (y m : Z) : Z :=
  if m =? 2 then (if is_leap y then 29 else 28)
  else if (m =? 4) || (m =? 6) || (m =? 9) || (m =? 11) then 30
  else 31.

Definition parse_utcoffset (cs : list ascii) : option (option Z) :=
  match cs with
  | [] => Some None
  | sign :: rest =>
      if (length rest =? 5)%nat then
        hh ← digits_at rest 0 2;
        _ ← char_at rest 2 ":";
        mm ← digits_at rest 3 2;
        let offset := hh * usec_per_hour + mm * usec_per_minute in
        if (hh <? 24) && (mm <? 60) then
          if Ascii.eqb sign "+" then Some (Some offset)
          else if Ascii.eqb sign "-" then Some (Some (- offset))
          else None
        else None
      else None
  end.

Definition sample_fromisoformat (s : string) : result datetime :=
  let cs := list_ascii_of_string s in
  let parsed :=
    y ← digits_at cs 0 4;
    _ ← char_at cs 4 "-";
    m ← digits_at cs 5 2;
    _ ← char_at cs 7 "-";
    d ← digits_at cs 8 2;
    _ ← char_at cs 10 "T";
    hh ← digits_at cs 11 2;
    _ ← char_at cs 13 ":";
    mi ← digits_at cs 14 2;
    _ ← char_at cs 16 ":";
    ss ← digits_at cs 17 2;
    offset ← parse_utcoffset (drop 19 cs);
    if (1 <=? y) && (1 <=? m) && (m <=? 12) && (1 <=? d) && (d <=? days_in_month y m)
       && (hh <? 24) && (mi <? 60) && (ss <? 60)
    then Some {| dt_wall := timestamp y m d hh mi + ss * usec_per_second;
                 dt_utcoffset := offset |}
    else None in
  match parsed with
  | Some d => Ok d
  | None => Raise ValueError
  end.

(** A clock that advances by one microsecond between two readings. *)
Definition sample_clock (n : nat) : Z := timestamp 2024 1 20 12 0 + Z.of_nat n.

(** An engine that refuses whatever the server leaves to it. *)
Definition strict_engine : engine :=
  {| cast_varchar := fun _ => Raise ConversionException;
     cast_boolean := fun _ => Raise ConversionException;
     select_other := fun _ _ => Raise ConversionException;
     update_other := fun _ _ => Raise ConversionException |}.

(** An attendee with an address, and one with or without. *)
Definition with_email (email : string) : json := JDict [("email", JStr email)].

Definition plain_attendee (email : option string) : json :=
  match email with
  | Some e => with_email e
  | None => JDict []
  end.

Definition sample_event (id title start_time end_time : string) (emails : list string)
  : json :=
  JDict [("id", JStr id); ("title", JStr title);
         ("start_time", JStr start_time); ("end_time", JStr end_time);
         ("attendees", JList (map with_email emails))].

Definition planning : json :=
  sample_event "evt-1" "Planning" "2024-01-15T09:00:00Z" "2024-01-15T10:30:00Z"
               ["a@example.com"; "b@other.com"].

Definition planning_renamed : json :=
  sample_event "evt-1" "Planning (moved)" "2024-01-15T09:00:00Z" "2024-01-15T10:30:00Z"
               ["a@example.com"; "b@other.com"].

(** What the transformer makes of [planning], under a given title. *)
Definition planning_transformed (title : string) : transformed :=
  {| tr_id := JStr "evt-1";
     tr_title := JStr title;
     tr_description := JStr "";
     tr_start_time := {| dt_wall := timestamp 2024 1 15 9 0; dt_utcoffset := Some 0 |};
     tr_end_time := {| dt_wall := timestamp 2024 1 15 10 30; dt_utcoffset := Some 0 |};
     tr_duration_minutes := 90;
     tr_attendees_count := 2;
     tr_meeting_type := "external";
     tr_creator_email := JStr "";
     tr_status := JStr "confirmed";
     tr_location := JStr "";
     tr_is_recurring := JBool false |}.

(** The columns the engine makes of it. *)
Definition planning_columns (title : string) : columns :=
  {| col_title := title;
     col_description := Some "";
     col_start_time := timestamp 2024 1 15 9 0;
     col_end_time := timestamp 2024 1 15 10 30;
     col_duration_minutes := 90;
     col_attendees_count := 2;
     col_meeting_type := "external";
     col_creator_email := Some "";
     col_status := Some "confirmed";
     col_location := Some "";
     col_is_recurring := Some false |}.

(** A record whose end lies an hour before its start. *)
Definition backwards : json :=
  sample_event "evt-2" "Backwards" "2024-01-15T10:00:00Z" "2024-01-15T09:00:00Z"
               ["a@example.com"; "b@example.com"].

(** The id of [planning] under an end in the last minute that a
    [datetime] can hold: 4194949859 minutes, more than an [INTEGER]
    column takes. *)
Definition endless : json :=
  sample_event "evt-1" "Endless" "2024-01-15T09:00:00Z" "9999-12-31T23:59:00Z"
               ["a@example.com"; "b@other.com"].

(** A record without a title key, and one whose title is [null]. *)
Definition untitled : json :=
  JDict [("id", JStr "evt-3");
         ("start_time", JStr "2024-01-15T09:00:00Z");
         ("end_time", JStr "2024-01-15T10:30:00Z")].

Definition null_title : json :=
  JDict [("id", JStr "evt-3"); ("title", JNull);
         ("start_time", JStr "2024-01-15T09:00:00Z");
         ("end_time", JStr "2024-01-15T10:30:00Z")].

Definition empty_world : world := {| db := []; clock_reads := 0 |}.

Definition no_stats : sync_stats :=
  {| fetched := 0; updated := 0; inserted := 0; errors := 0 |}.

(** The body of a response with the given events. *)
Definition body_of (feed : list json) : json := JDict [("events", JList feed)].

(** One confirmed external meeting of one hour, an hour before the sample
    clock starts. *)
Definition external_hour : event_row :=
  {| row_id := "evt-9"; row_title := "Customer call"; row_description := Some "";
     row_start_time := timestamp 2024 1 20 11 0;
     row_end_time := timestamp 2024 1 20 12 0;
     row_duration_minutes := 60; row_attendees_count := 2;
     row_meeting_type := "external"; row_creator_email := Some "";
     row_status := Some "confirmed"; row_location := Some "";
     row_is_recurring := Some false;
     row_created_at := timestamp 2024 1 20 10 0;
     row_updated_at := timestamp 2024 1 20 10 0 |}.

(** ** Vocabulary of the sync properties *)

(** A row with its [updated_at] column blanked, and the content of a table
    up to that column. *)
Definition without_updated_at (r : event_row) : event_row :=
  {| row_id := row_id r;
     row_title := row_title r;
     row_description := row_description r;
     row_start_time := row_start_time r;
     row_end_time := row_end_time r;
     row_duration_minutes := row_duration_minutes r;
     row_attendees_count := row_attendees_count r;
     row_meeting_type := row_meeting_type r;
     row_creator_email := row_creator_email r;
     row_status := row_status r;
     row_location := row_location r;
     row_is_recurring := row_is_recurring r;
     row_created_at := row_created_at r;
     row_updated_at := 0 |}.

Definition content (table : events_table) : events_table :=
  map without_updated_at table.

(** The columns of a row that an upsert sets. *)
Definition carries (r : event_row) (cols : columns) : Prop :=
  row_title r = col_title cols
  /\ row_description r = col_description cols
  /\ row_start_time r = col_start_time cols
  /\ row_end_time r = col_end_time cols
  /\ row_duration_minutes r = col_duration_minutes cols
  /\ row_attendees_count r = col_attendees_count cols
  /\ row_meeting_type r = col_meeting_type cols
  /\ row_creator_email r = col_creator_email cols
  /\ row_status r = col_status cols
  /\ row_location r = col_location cols
  /\ row_is_recurring r = col_is_recurring cols.

(** An id that is a str or [None]: the comparisons with it are those of
    SQL on text, and not the engine's own. *)
Definition plain_id (key : json) : Prop :=
  match key with
  | JNull | JStr _ => True
  | _ => False
  end.

(** The ids a parameter of [WHERE id = ?] can select: a str selects
    itself, [None] nothing, and for any other value the engine decides. *)
Definition may_select (key : json) (id : string) : Prop :=
  match key with
  | JStr s => s = id
  | JNull => False
  | _ => True
  end.


(** The records the store can take under an id: those whose parameter
    can select the id and whose values the engine accepts. *)
Definition may_write (duckdb : engine) (t : transformed) (id : string) : Prop :=
  may_select (tr_id t) id /\ is_ok (bind_columns duckdb t) = true.

(** A row after the [UPDATE] of [t] with a [WHERE] clause that selects
    the ids [selected]. *)
Definition updated_row (duckdb : engine) (t : transformed) (u : Z)
    (selected : string -> bool) (r : event_row) : event_row :=
  if selected (row_id r)
  then match bind_columns duckdb t with
       | Ok cols => apply_update cols u r
       | Raise _ => r
       end
  else r.

(** An object, the only value with a method [get]. *)
Definition is_dict (v : json) : bool :=
  match v with
  | JDict _ => true
  | _ => false
  end.


(** The effect of the [UPDATE] for [t] on a row, up to [updated_at]; and of
    the updates for a list of transformed events, in order. *)
Definition overwrite (duckdb : engine) (t : transformed) (r : event_row) : event_row :=
  match tr_id t, bind_columns duckdb t with
  | JStr s, Ok cols => if String.eqb s (row_id r) then apply_update cols 0 r else r
  | _, _ => r
  end.

Definition overwrite_all (duckdb : engine) (ts : list transformed) (r : event_row)
  : event_row :=
  fold_left (fun r t => overwrite duckdb t r) ts r.

(** The records of a feed that the loop reaches and the transformer
    accepts, transformed. *)
Fixpoint accepted (fromisoformat : string -> result datetime) (feed : list json)
  : list transformed :=
  match feed with
  | [] => []
  | event :: feed' =>
      match _transform_event_data fromisoformat event with
      | Ok t => t :: accepted fromisoformat feed'
      | Raise _ => if is_dict event then accepted fromisoformat feed' else []
      end
  end.

(** The upserts of a list of transformed events, in order. *)
Definition upsert_all (clock : nat -> Z) (duckdb : engine) (ts : list transformed)
    (w : world) : world :=
  fold_left (fun w t => snd (upsert clock duckdb t w)) ts w.

(** The events of a response, as the loop iterates over them; none when
    there is no response or no iteration. *)
Definition feed_of (api_response : result json) : list json :=
  match api_response ≫= fetched_events with
  | Ok (_, feed) => feed
  | Raise _ => []
  end.

(** The statistics of a sync response; zero for an error response. *)
Definition inserted_of (r : sync_response) : Z :=
  match r with
  | SyncComplete stats _ _ => inserted stats
  | SyncError _ => 0
  end.

(** ** The [daily_summary] view *)

From Stdlib Require Import Sorted DecimalString.

(** A row of the view. *)
Record summary_row : Type := {
  ds_date : Z;
  ds_total_meetings : Z;
  ds_total_minutes : Z;
  ds_external_meetings : Z;
  ds_internal_meetings : Z;
  ds_avg_attendees : float
}.

(** [ORDER BY date]: ascending, by insertion. *)
Fixpoint insert_asc (x : Z) (sorted : list Z) : list Z :=
  match sorted with
  | [] => [x]
  | y :: sorted' => if x <=? y then x :: y :: sorted' else y :: insert_asc x sorted'
  end.

Definition order_asc (keys : list Z) : list Z := fold_right insert_asc [] keys.

(** The sum of a column of integers. *)
Definition sum_Z (values : list Z) : Z := fold_right Z.add 0 values.

(** [SUM(CASE WHEN meeting_type = t THEN 1 ELSE 0 END)]. *)
Definition count_type (t : string) (rows : events_table) : Z :=
  sum_Z (map (fun r => if String.eqb (row_meeting_type r) t then 1 else 0) rows).

(** The rows with [status = 'confirmed']. *)
Definition confirmed_rows (table : events_table) : events_table :=
  filter (fun r => text_is (row_status r) "confirmed" = true) table.

Section DailySummary.

(** The final step of [AVG] over an integer column, from the sum and the
    count of the group: the engine divides in the platform's long double
    and rounds the quotient to a [DOUBLE]. *)
Variable sql_avg : Z -> Z -> float.

(** One row of the view, for the group of a day. *)
Definition summary_of (day : Z) (group : events_table) : summary_row :=
  {| ds_date := day;
     ds_total_meetings := Z.of_nat (length group);
     ds_total_minutes := sum_minutes group;
     ds_external_meetings := count_type "external" group;
     ds_internal_meetings := count_type "internal" group;
     ds_avg_attendees :=
       sql_avg (sum_Z (map row_attendees_count group)) (Z.of_nat (length group)) |}.

(** [SELECT ... FROM events WHERE status = 'confirmed' GROUP BY
    DATE(start_time) ORDER BY date]. *)
Definition daily_summary (table : events_table) : list summary_row :=
  let rows := confirmed_rows table in
  map (fun day =>
         summary_of day
           (filter (fun r => (date_of (row_start_time r) =? day) = true) rows))
      (order_asc (distinct Z.eqb (map (fun r => date_of (row_start_time r)) rows))).

End DailySummary.

(** ** Ad hoc queries *)

(** A cell of a fetched row, with the text [str(cell)] gives: [None], a
    [str], a [datetime], or a value of another type. *)
Inductive cell : Type :=
| CNone
| CStr (s : string)
| CDatetime (text : string)
| COther (text : string).

(** The characters [str.strip()] removes, among the first 256 code points. *)
Definition is_space (c : ascii) : bool :=
  let n := nat_of_ascii c in
  ((9 <=? n) && (n <=? 13) || (28 <=? n) && (n <=? 32) || (n =? 133) || (n =? 160))%nat.

Fixpoint lstrip (s : string) : string :=
  match s with
  | EmptyString => EmptyString
  | String c s' => if is_space c then lstrip s' else s
  end.

Fixpoint string_rev (s : string) : string :=
  match s with
  | EmptyString => EmptyString
  | String c s' => string_rev s' ++ String c EmptyString
  end.

Definition rstrip (s : string) : string := string_rev (lstrip (string_rev s)).

(** [s.strip()]. *)
Definition strip (s : string) : string := rstrip (lstrip s).

(** The line feed. *)
Definition newline : string := String (ascii_of_nat 10) EmptyString.

(** [str(n)] for a length. *)
Definition str_of_nat (n : nat) : string := NilZero.string_of_uint (Nat.to_uint n).

(** One cell of the table, as the loop over a row formats it. *)
Definition format_cell (c : cell) : string :=
  match c with
  | CNone => "NULL"
  | CStr s | CDatetime s =>
      if (30 <? String.length s)%nat then substring 0 27 s ++ "..." else s
  | COther text => text
  end.

(** One line of the table. *)
Definition format_row (row : list cell) : string :=
  "| " ++ String.concat " | " (map format_cell row) ++ " |" ++ newline.

(** The markdown text of a non-empty result. *)
Definition format_results (sql : string) (columns : list string) (rows : list (list cell))
  : string :=
  let header := "| " ++ String.concat " | " columns ++ " |" in
  let separator := "|" ++ String.concat "|" (map (fun _ => " --- ") columns) ++ "|" in
  "## Query Results" ++ newline ++ newline
  ++ "**Query**: `" ++ sql ++ "`" ++ newline ++ newline
  ++ header ++ newline ++ separator ++ newline
  ++ String.concat "" (map format_row (take 50 rows))
  ++ (if (50 <? length rows)%nat
      then newline ++ "*Showing first 50 of " ++ str_of_nat (length rows) ++ " results*"
      else "")
  ++ newline ++ newline ++ "**Rows returned**: " ++ str_of_nat (length rows).

(** The four answers of [_handle_database_query]: the request for a query,
    the notice of an empty result, the table, and the error text with the
    message of the exception and the query. *)
Inductive query_response : Type :=
| QueryRequired
| QueryNoResults
| QueryResults (text : string)
| QueryFailed (message : string) (sql : string).

(** [_handle_database_query]. [execute] is the engine: for a query it gives
    the message of the exception it raises, or the column names and the
    rows fetched. *)
Definition _handle_database_query
    (execute : string -> string + list string * list (list cell))
    (sql_arg : option string) : query_response :=
  let sql := strip (dict_get sql_arg "") in
  if String.eqb sql "" then QueryRequired
  else match execute sql with
       | inr (columns, []) => QueryNoResults
       | inr (columns, rows) => QueryResults (format_results sql columns rows)
       | inl message => QueryFailed message sql
       end.

(** ** Vocabulary of the further properties *)

(** The keys of a raw event the transformer can fail on, and the items
    of a raw event under them. *)
Definition load_bearing (key : string) : bool :=
  String.eqb key "id" || String.eqb key "start_time" || String.eqb key "end_time"
  || String.eqb key "attendees" || String.eqb key "creator".

Definition required_only (entries : list (string * json)) : list (string * json) :=
  filter (fun entry => load_bearing (fst entry) = true) entries.

(** The three meeting types of the schema. *)
Definition known_meeting_type (t : string) : Prop :=
  t = "external" \/ t = "internal" \/ t = "personal".

(** A confirmed meeting on Wednesday 2024-01-17, from [hh:mm] for a number
    of minutes. *)
Definition wednesday_meeting (id : string) (hh mm minutes : Z) : event_row :=
  {| row_id := id; row_title := "Meeting"; row_description := Some "";
     row_start_time := timestamp 2024 1 17 hh mm;
     row_end_time := timestamp 2024 1 17 hh mm + interval_minutes minutes;
     row_duration_minutes := minutes; row_attendees_count := 2;
     row_meeting_type := "internal"; row_creator_email := Some "";
     row_status := Some "confirmed"; row_location := Some "";
     row_is_recurring := Some false;
     row_created_at := timestamp 2024 1 16 8 0;
     row_updated_at := timestamp 2024 1 16 8 0 |}.

(** A raw event with its start and end timestamps set to the given
    texts. *)
Definition with_times (start_time end_time : string) (entries : list (string * json))
  : json :=
  JDict (dict_set "start_time" (JStr start_time)
                  (dict_set "end_time" (JStr end_time) entries)).

(** The start of the window of a report: 7, 30 or 90 days before its end. *)
Definition period_start (time_period : string) (end_date : Z) : Z :=
  if String.eqb time_period "week" then end_date - 7 * usec_per_day
  else if String.eqb time_period "month" then end_date - 30 * usec_per_day
  else end_date - 90 * usec_per_day.

(** "Not directly followed by a row of more hours". *)
Definition not_below {A : Type} (hours : A -> float) (x y : A) : Prop :=
  PrimFloat.ltb (hours x) (hours y) = false.

(** The rows of the group of a key, for a key function and its equality
    test. *)
Definition group_of {A K : Type} (key : A -> K) (eqb : K -> K -> bool)
    (rows : list A) (k : K) : list A :=
  filter (fun r => eqb (key r) k = true) rows.

(** A string of white space only. *)
Fixpoint all_space (s : string) : bool :=
  match s with
  | EmptyString => true
  | String c s' => is_space c && all_space s'
  end.

(** * Properties *)

(** ** Arithmetic of candidate slots *)

Lemma interval_30_value : interval_minutes 30 = 1800000000.
Proof. reflexivity. Qed.

(** Once the rounds of [time_slots_rounds] are spent the recursive member
    adds no row: more fuel changes nothing. *)
Lemma time_slots_step_saturated (fuel : nat) :
  forall s e, (time_slots_rounds s e <= fuel)%nat ->
              time_slots_step (S fuel) s e = time_slots_step fuel s e.
Proof.
  induction fuel as [|fuel IH]; intros s e Hle.
  - unfold time_slots_rounds in Hle. cbn [time_slots_step].
    rewrite interval_30_value in *.
    destruct (Z.ltb_spec (s + 1800000000) e) as [Hlt|]; [|reflexivity].
    exfalso.
    assert (0 <= (e - s) / 1800000000) by (apply Z.div_pos; lia).
    lia.
  - cbn [time_slots_step]. cbn [time_slots_step] in IH.
    destruct (Z.ltb_spec (s + interval_minutes 30) e) as [Hlt|]; [|reflexivity].
    f_equal. apply IH.
    unfold time_slots_rounds in *. rewrite interval_30_value in *.
    replace (e - (s + 1800000000)) with ((e - s) + (-1) * 1800000000) by lia.
    rewrite Z.div_add by lia.
    assert (0 <= (e - s) / 1800000000) by (apply Z.div_pos; lia).
    lia.
Qed.

Lemma time_slots_fuel_enough (s e : Z) (extra : nat) :
  time_slots_step (time_slots_rounds s e + extra) s e
  = time_slots_step (time_slots_rounds s e) s e.
Proof.
  induction extra as [|extra IH].
  - by rewrite Nat.add_0_r.
  - rewrite Nat.add_succ_r, time_slots_step_saturated by lia. exact IH.
Qed.

(** Every row the recursive member adds lies before [end_date]. *)
Lemma time_slots_step_before_end (fuel : nat) :
  forall s e t, t ∈ time_slots_step fuel s e -> s < t < e.
Proof.
  induction fuel as [|fuel IH]; intros s e t Hin; cbn [time_slots_step] in Hin.
  - by apply elem_of_nil in Hin.
  - destruct (Z.ltb_spec (s + interval_minutes 30) e) as [Hlt|];
      [|by apply elem_of_nil in Hin].
    rewrite interval_30_value in *.
    apply elem_of_cons in Hin as [->|Hin]; [lia|].
    apply IH in Hin. lia.
Qed.

(** A range that ends no later than it starts has the anchor row only. *)
Lemma time_slots_degenerate (s e : Z) : e <= s -> time_slots s e = [s].
Proof.
  intros Hle. unfold time_slots. f_equal.
  destruct (time_slots_rounds s e) as [|n]; [reflexivity|].
  cbn [time_slots_step]. rewrite interval_30_value.
  destruct (Z.ltb_spec (s + 1800000000) e); [lia|reflexivity].
Qed.

Lemma between_spec (x lo hi : Z) : between x lo hi = true <-> lo <= x <= hi.
Proof. unfold between. rewrite andb_true_iff, !Z.leb_le. tauto. Qed.

(** What the macro guarantees of every row: a start hour from 9 to 17, both
    included, on a day from Monday to Friday, and an end that is the start
    plus the duration. *)
Lemma free_slots_selected (table : events_table) (s e d : Z) (slot : Z * Z) :
  slot ∈ free_slots table s e d ->
  9 <= extract_hour (fst slot) <= 17 /\ 1 <= extract_dow (fst slot) <= 5
  /\ snd slot = fst slot + interval_minutes d
  /\ (fst slot = s \/ fst slot < e).
Proof.
  unfold free_slots. rewrite list_elem_of_In, in_map_iff.
  intros (t & <- & Hin). apply list_elem_of_In, list_elem_of_filter in Hin as [Hsel Hin].
  unfold slot_selected, business_time in Hsel.
  rewrite !andb_true_iff, !between_spec in Hsel.
  destruct Hsel as [_ [Hh Hd]]. cbn [fst snd]. repeat split; try tauto.
  unfold time_slots in Hin. apply elem_of_cons in Hin as [->|Hin]; [by left|].
  right. by apply time_slots_step_before_end in Hin as [_ ?].
Qed.

(** No busy interval of a degenerate range overlaps its anchor. *)
Lemma busy_times_degenerate (table : events_table) (s e d : Z) :
  e <= s ->
  existsb (fun b => overlaps b s d) (busy_times table s e) = false.
Proof.
  intros Hle. apply not_true_is_false. rewrite existsb_exists.
  intros ([b1 b2] & Hin & Hov). unfold busy_times in Hin.
  apply in_map_iff in Hin as (r & [= <- <-] & Hin).
  apply list_elem_of_In, list_elem_of_filter in Hin as [Hr _].
  rewrite !andb_true_iff, !Z.leb_le in Hr.
  unfold overlaps in Hov. cbn [fst snd] in Hov.
  rewrite andb_true_iff, !Z.ltb_lt in Hov. lia.
Qed.

(** ** Free-slot search *)

(** C1, evaluated on the range 09:00-18:00 of Wednesday 2024-01-17 with a
    duration of 30 minutes and no stored event: the macro emits the slots
    that start at 17:00 and at 17:30, whose start hour is 17. The test
    [BETWEEN 9 AND 17] on the hour includes its upper end. *)
Theorem free_slots_emits_hour_17 :
  let wednesday := timestamp 2024 1 17 in
  let slots := free_slots [] (wednesday 9 0) (wednesday 18 0) 30 in
  (wednesday 17 0, wednesday 17 30) ∈ slots
  /\ (wednesday 17 30, wednesday 18 0) ∈ slots
  /\ extract_hour (wednesday 17 30) = 17
  /\ extract_dow (wednesday 17 30) = 3.
Proof.
  cbv zeta. rewrite !list_elem_of_In. vm_compute. tauto.
Qed.

(** C4 as stated fails: a range whose end equals its start still yields
    the slot at its start, and a negative duration empties nothing (sixteen
    slots between 09:00 and 17:00). *)
Lemma free_slots_degenerate_not_empty :
  let wednesday := timestamp 2024 1 17 in
  free_slots [] (wednesday 10 0) (wednesday 10 0) 30
  = [(wednesday 10 0, wednesday 10 30)]
  /\ free_slots [] (wednesday 10 0) (wednesday 9 0) 30
     = [(wednesday 10 0, wednesday 10 30)]
  /\ length (free_slots [] (wednesday 9 0) (wednesday 17 0) (-30)) = 16%nat
  /\ length (free_slots [] (wednesday 9 0) (wednesday 17 0) 0) = 16%nat.
Proof. vm_compute. tauto. Qed.

(** C4, amended: when [range_end <= range_start] the search examines the
    single candidate [range_start] and, whatever the busy set, returns
    exactly the slot starting there if that start passes the macro's hour
    and weekday tests, and nothing otherwise. The duration is not tested:
    with an empty busy set every candidate that passes the two tests is
    emitted with end = start + duration, for every duration. *)
Theorem free_slots_without_guards (table : events_table) (s e d s' e' d' : Z) :
  e <= s ->
  free_slots table s e d
  = (if business_time s then [(s, s + interval_minutes d)] else [])
  /\ free_slots [] s' e' d'
     = map (fun t => (t, t + interval_minutes d'))
           (filter (fun t => business_time t = true) (time_slots s' e')).
Proof.
  intros Hle. split.
  - unfold free_slots. rewrite time_slots_degenerate by done.
    rewrite filter_cons, filter_nil. unfold slot_selected.
    rewrite busy_times_degenerate by done. cbn [negb andb].
    destruct (decide _) as [Heq|Hne].
    + by rewrite Heq.
    + by apply not_true_is_false in Hne as ->.
  - reflexivity.
Qed.

Lemma free_slots_without_guards_witness :
  let t := timestamp 2024 1 17 10 0 in
  t <= t
  /\ free_slots [external_hour] t t 30 = [(t, t + interval_minutes 30)].
Proof.
  cbv zeta. split; [vm_compute; discriminate|].
  exact (proj1 (free_slots_without_guards [external_hour]
                  (timestamp 2024 1 17 10 0) (timestamp 2024 1 17 10 0) 30 0 0 0
                  ltac:(vm_compute; discriminate))).
Defined.

(** ** Event transformation *)

(** The index [1] of the comprehension is always in range: an email that
    holds an ["@"] splits into two pieces at least. *)
Lemma str_split_two (email : string) :
  contains_char "@" email = true -> is_Some (str_split "@" email !! 1%nat).
Proof.
  induction email as [|c email IH]; cbn [contains_char str_split]; [done|].
  destruct (Ascii.eqb c "@") eqn:Hc; cbn [orb].
  - intros _. destruct email as [|c' email']; cbn [str_split]; [by eexists|].
    destruct (Ascii.eqb c' "@"); [by eexists|].
    destruct (str_split "@" email'); by eexists.
  - intros Hin. specialize (IH Hin).
    destruct (str_split "@" email) as [|piece [|piece' pieces]];
      destruct IH as [x Hx]; try discriminate. by eexists.
Qed.

(** The monad of results. *)
Lemma mapM_ok {A B : Type} (f : A -> result B) (l : list A) (k : list B) :
  mapM f l = Ok k <-> Forall2 (fun x y => f x = Ok y) l k.
Proof.
  revert k. induction l as [|x l IH]; intros k; cbn.
  - split; [intros [= <-]; constructor|by inversion 1].
  - destruct (f x) as [y|e] eqn:Hx; cbn.
    + destruct (mapM f l) as [k'|e] eqn:Hl; cbn.
      * split.
        -- intros [= <-]. constructor; [done|]. by apply IH.
        -- inversion 1 as [|? y' ? k'' Hy Hk]; subst.
           apply IH in Hk as [= <-]. assert (y = y') as -> by congruence. done.
      * split; [done|]. inversion 1 as [|? y' ? k'' Hy Hk]; subst.
        by apply IH in Hk.
    + split; [done|]. inversion 1; congruence.
Qed.

Lemma mapM_raise {A B : Type} (f : A -> result B) (l : list A) (e : py_exception) :
  mapM f l = Raise e -> exists x, x ∈ l /\ f x = Raise e.
Proof.
  induction l as [|x l IH]; cbn; [done|].
  destruct (f x) as [y|e'] eqn:Hx; cbn.
  - destruct (mapM f l) as [k'|e'] eqn:Hl; cbn; [done|].
    intros [= ->]. destruct IH as (x' & Hin & Hx'); [done|].
    exists x'. split; [|done]. apply elem_of_cons. by right.
  - intros [= ->]. exists x. split; [|done]. apply elem_of_cons. by left.
Qed.

(** The set a comprehension that does not raise builds. *)
Lemma external_domains_elem (attendees : list json) (domains : gset string) (d : string) :
  external_domains attendees = Ok domains ->
  d ∈ domains <-> exists a, a ∈ attendees /\ attendee_domain a = Ok (Some d).
Proof.
  unfold external_domains.
  destruct (mapM attendee_domain attendees) as [k|e] eqn:Hk; cbn; [|done].
  intros [= <-]. apply mapM_ok in Hk.
  rewrite elem_of_list_to_set, list_elem_of_omap. split.
  - intros (o & Ho & Hd). unfold id in Hd. subst o.
    apply list_elem_of_lookup in Ho as [i Hi].
    destruct (Forall2_lookup_r _ _ _ _ _ Hk Hi) as (a & Ha & Hf).
    exists a. split; [|done]. apply list_elem_of_lookup. by exists i.
  - intros (a & Ha & Hf). apply list_elem_of_lookup in Ha as [i Hi].
    destruct (Forall2_lookup_l _ _ _ _ _ Hk Hi) as (o & Ho & Hf').
    exists o. split; [apply list_elem_of_lookup; by exists i|].
    unfold id. congruence.
Qed.

Lemma external_domains_raise (attendees : list json) (e : py_exception) :
  external_domains attendees = Raise e ->
  exists a, a ∈ attendees /\ attendee_domain a = Raise e.
Proof.
  unfold external_domains.
  destruct (mapM attendee_domain attendees) as [k|e'] eqn:Hk; cbn; [done|].
  intros [= ->]. by apply mapM_raise.
Qed.

Lemma has_foreign_domain_spec (attendees : list json) (domains : gset string)
    (home_domain : string) :
  external_domains attendees = Ok domains ->
  has_foreign_domain attendees home_domain = true
  <-> (0 < size (domains ∖ {[ home_domain ]}))%nat.
Proof.
  intros Hdomains. unfold has_foreign_domain. rewrite existsb_exists. split.
  - intros (a & Hin & Ha).
    destruct (attendee_domain a) as [[d|]|] eqn:Hd; [|done..].
    apply negb_true_iff, String.eqb_neq in Ha.
    assert (Hel : d ∈ domains ∖ {[ home_domain ]}).
    { apply elem_of_difference. split.
      - apply (external_domains_elem _ _ _ Hdomains). exists a.
        by rewrite list_elem_of_In.
      - by rewrite elem_of_singleton. }
    destruct (size _) eqn:Hsize; [|lia].
    apply size_empty_inv in Hsize. apply Hsize in Hel. by apply elem_of_empty in Hel.
  - intros Hpos. apply size_pos_elem_of in Hpos as [d Hel].
    apply elem_of_difference in Hel as [Hel Hne].
    apply (external_domains_elem _ _ _ Hdomains) in Hel as (a & Hin & Ha).
    exists a. rewrite <- list_elem_of_In. split; [done|]. rewrite Ha.
    apply negb_true_iff, String.eqb_neq. by rewrite elem_of_singleton in Hne.
Qed.

(** The classification of a list of attendees: that of the
    specification, unless the comprehension raises. *)
Lemma classify_meeting_spec (attendees : list json) (home_domain : string) :
  classify_meeting (JList attendees) home_domain
  = match external_domains attendees with
    | Ok _ => Ok (classify_spec attendees home_domain)
    | Raise e => Raise e
    end.
Proof.
  unfold classify_meeting, classify_spec. cbn [json_iter json_len mbind result_bind].
  destruct (external_domains attendees) as [domains|e] eqn:Hdomains;
    cbn [mbind result_bind]; [|done].
  destruct (has_foreign_domain attendees home_domain) eqn:Hf.
  - apply (has_foreign_domain_spec _ _ _ Hdomains) in Hf.
    by rewrite bool_decide_eq_true_2.
  - rewrite bool_decide_eq_false_2.
    + unfold mret, result_ret.
      destruct (Z.ltb_spec 1 (Z.of_nat (length attendees)));
        destruct (Nat.ltb_spec 1 (length attendees)); done || lia.
    + intros Hpos. apply (has_foreign_domain_spec _ _ _ Hdomains) in Hpos. congruence.
Qed.

(** An attendee that is an object with a str under [email], or with no
    such key, passes through the comprehension. *)
Lemma plain_attendee_domain (email : option string) :
  is_ok (attendee_domain (plain_attendee email)) = true.
Proof.
  destruct email as [email|]; [|done].
  unfold attendee_domain, plain_attendee, with_email. cbn.
  destruct (contains_char "@" email) eqn:Hat; [|done]. cbn.
  destruct (str_split_two email Hat) as [d Hd].
  unfold list_getitem. by rewrite Hd.
Qed.

Lemma plain_attendees_domains (emails : list (option string)) :
  is_ok (external_domains (map plain_attendee emails)) = true.
Proof.
  destruct (external_domains (map plain_attendee emails)) as [|e] eqn:Hd; [done|].
  apply external_domains_raise in Hd as (a & Hin & Ha).
  apply list_elem_of_In, in_map_iff in Hin as (email & <- & _).
  pose proof (plain_attendee_domain email) as Hok. by rewrite Ha in Hok.
Qed.

Lemma classify_plain_attendees (emails : list (option string)) (home_domain : string) :
  classify_meeting (JList (map plain_attendee emails)) home_domain
  = Ok (classify_spec (map plain_attendee emails) home_domain).
Proof.
  rewrite classify_meeting_spec.
  pose proof (plain_attendees_domains emails) as Hok.
  by destruct (external_domains (map plain_attendee emails)).
Qed.

Section Transform.

Variable fromisoformat : string -> result datetime.

(** What a successful transformation went through. *)
Lemma transform_ok_inv (event : json) (t : transformed) :
  _transform_event_data fromisoformat event = Ok t ->
  exists entries start_raw end_raw delta attendees creator,
    event = JDict entries
    /\ dict_item "start_time" entries = Some (JStr start_raw)
    /\ dict_item "end_time" entries = Some (JStr end_raw)
    /\ fromisoformat (replace_Z start_raw) = Ok (tr_start_time t)
    /\ fromisoformat (replace_Z end_raw) = Ok (tr_end_time t)
    /\ datetime_sub (tr_end_time t) (tr_start_time t) = Ok delta
    /\ int_of_float (PrimFloat.div (total_seconds delta) (float_of_Z 60))
       = Ok (tr_duration_minutes t)
    /\ attendees = dict_get (dict_item "attendees" entries) (JList [])
    /\ classify_meeting attendees "example.com" = Ok (tr_meeting_type t)
    /\ json_len attendees = Ok (tr_attendees_count t)
    /\ dict_item "id" entries = Some (tr_id t)
    /\ tr_title t = dict_get (dict_item "title" entries) (JStr "No title")
    /\ tr_description t = dict_get (dict_item "description" entries) (JStr "")
    /\ creator = dict_get (dict_item "creator" entries) (JDict [])
    /\ json_get creator "email" (JStr "") = Ok (tr_creator_email t)
    /\ tr_status t = dict_get (dict_item "status" entries) (JStr "confirmed")
    /\ tr_location t = dict_get (dict_item "location" entries) (JStr "")
    /\ tr_is_recurring t = dict_get (dict_item "recurring" entries) (JBool false).
Proof.
  unfold _transform_event_data.
  destruct event as [| | | |items|entries]; try discriminate. cbn.
  destruct (dict_item "start_time" entries) as [start_raw|] eqn:Hsr; [|discriminate]. cbn.
  destruct start_raw as [| | |start_raw| |]; try discriminate. cbn.
  destruct (fromisoformat (replace_Z start_raw)) as [start_time|] eqn:Hs;
    [|discriminate]. cbn.
  destruct (dict_item "end_time" entries) as [end_raw|] eqn:Her; [|discriminate]. cbn.
  destruct end_raw as [| | |end_raw| |]; try discriminate. cbn.
  destruct (fromisoformat (replace_Z end_raw)) as [end_time|] eqn:He;
    [|discriminate]. cbn.
  destruct (datetime_sub end_time start_time) as [delta|] eqn:Hd; [|discriminate]. cbn.
  destruct (int_of_float _) as [duration|] eqn:Hi; [|discriminate]. cbn.
  destruct (classify_meeting _ _) as [meeting_type|] eqn:Hc; [|discriminate]. cbn.
  destruct (dict_item "id" entries) as [id|] eqn:Hid; [|discriminate]. cbn.
  destruct (json_len _) as [n|] eqn:Hn; [|discriminate]. cbn.
  destruct (json_get (dict_get (dict_item "creator" entries) _) _ _)
    as [creator_email|] eqn:Hcr; [|discriminate]. cbn.
  intros [= <-].
  exists entries, start_raw, end_raw, delta,
    (dict_get (dict_item "attendees" entries) (JList [])),
    (dict_get (dict_item "creator" entries) (JDict [])).
  cbn. repeat split; done.
Qed.


(** C5: the meeting type is [external] when some attendee's email domain
    differs from the home domain, else [internal] when there is more than
    one attendee, else [personal]: so for every list of attendees the
    comprehension goes through, and it goes through every list of objects
    whose [email], if any, is a str; the transformer computes the type from
    the attendees and the home domain [example.com] alone; and the three
    examples of the specification hold. *)
Theorem meeting_type_classification
    (attendees : list json) (emails : list (option string))
    (home_domain : string) (event : json) :
  match classify_meeting (JList attendees) home_domain with
  | Ok meeting_type => meeting_type = classify_spec attendees home_domain
  | Raise _ => exists a, a ∈ attendees /\ is_ok (attendee_domain a) = false
  end
  /\ classify_meeting (JList (map plain_attendee emails)) home_domain
     = Ok (classify_spec (map plain_attendee emails) home_domain)
  /\ match _transform_event_data fromisoformat event with
     | Ok t =>
         exists attendees,
           json_get event "attendees" (JList []) = Ok attendees
           /\ classify_meeting attendees "example.com" = Ok (tr_meeting_type t)
     | Raise _ => True
     end
  /\ classify_meeting (JList (map with_email ["a@example.com"; "b@other.com"]))
                      "example.com"
     = Ok "external"
  /\ classify_meeting (JList (map with_email ["a@example.com"; "b@example.com"]))
                      "example.com"
     = Ok "internal"
  /\ classify_meeting (JList (map with_email ["a@example.com"])) "example.com"
     = Ok "personal".
Proof.
  split; [|split; [apply classify_plain_attendees|split]].
  - rewrite classify_meeting_spec.
    destruct (external_domains attendees) as [domains|e] eqn:Hd; [done|].
    apply external_domains_raise in Hd as (a & Hin & Ha).
    exists a. split; [done|]. by rewrite Ha.
  - destruct (_transform_event_data fromisoformat event) as [t|] eqn:Ht; [|done].
    apply transform_ok_inv in Ht
      as (entries & ? & ? & ? & attendees' & ? & -> & _ & _ & _ & _ & _ & _
          & -> & Hc & _).
    eexists. split; [reflexivity|]. exact Hc.
  - split; [|split].
    + exact (classify_plain_attendees [Some "a@example.com"; Some "b@other.com"]
                                      "example.com").
    + exact (classify_plain_attendees [Some "a@example.com"; Some "b@example.com"]
                                      "example.com").
    + exact (classify_plain_attendees [Some "a@example.com"] "example.com").
Qed.

End Transform.

(** ** Durations under an exchange of the two timestamps *)










Lemma dict_item_set (key k : string) (v : json) (entries : list (string * json)) :
  dict_item k (dict_set key v entries)
  = if String.eqb key k then Some v else dict_item k entries.
Proof.
  induction entries as [|[k' x] entries IH]; cbn [dict_set dict_item].
  - by destruct (String.eqb key k).
  - destruct (String.eqb_spec k' key) as [->|Hne]; cbn [dict_item].
    + by destruct (String.eqb key k).
    + rewrite IH. destruct (String.eqb_spec k' k) as [->|Hne']; [|done].
      destruct (String.eqb_spec key k) as [->|]; [done|done].
Qed.

(** ** The store under upserts *)

Ltac result_simpl := cbn [mbind mret result_bind result_ret not_null].

(** The transformer on a record whose timestamps were set. *)
Ltac transform_with_times :=
  unfold _transform_event_data, with_times; cbn [json_getitem json_get];
  rewrite !dict_item_set;
  cbn [String.eqb Ascii.eqb Bool.eqb getitem dict_get json_replace_Z
       mbind mret result_bind result_ret].

Lemma content_ids (table : events_table) :
  map row_id (content table) = map row_id table.
Proof. unfold content. rewrite map_map. reflexivity. Qed.

Lemma filter_id_absent (key : string) (table : events_table) :
  key ∉ map row_id table -> filter (fun r => row_id r = key) table = [].
Proof.
  induction table as [|r table IH]; cbn [map]; [done|].
  intros [Hne Hfresh]%not_elem_of_cons.
  rewrite filter_cons_False by congruence. by apply IH.
Qed.

(** A table without two rows of one id has exactly one row for each id it
    holds. *)
Lemma unique_row (key : string) (table : events_table) :
  NoDup (map row_id table) -> key ∈ map row_id table ->
  exists r, filter (fun r => row_id r = key) table = [r] /\ r ∈ table.
Proof.
  induction table as [|r0 table IH]; cbn [map]; intros Hnd Hin.
  - by apply elem_of_nil in Hin.
  - apply NoDup_cons in Hnd as [Hfresh Hnd]. rewrite filter_cons.
    destruct (decide (row_id r0 = key)) as [Heq|Hne].
    + exists r0. split; [|apply elem_of_cons; by left].
      rewrite filter_id_absent; [done|]. by rewrite <- Heq.
    + apply elem_of_cons in Hin as [Heq|Hin]; [congruence|].
      destruct (IH Hnd Hin) as (r & Hfilter & Hr).
      exists r. split; [done|]. apply elem_of_cons. by right.
Qed.

Lemma carries_apply_update (cols : columns) (u : Z) (r : event_row) :
  carries (apply_update cols u r) cols.
Proof. repeat split. Qed.

Lemma carries_new_row (id : string) (cols : columns) (c u : Z) :
  carries (new_row id cols c u) cols.
Proof. repeat split. Qed.

Section Store.

Variable fromisoformat : string -> result datetime.
Variable clock : nat -> Z.
Variable duckdb : engine.

(** *** The lookup *)

Lemma select_id_str (s : string) (table : events_table) :
  select_id duckdb (JStr s) table
  = Ok (if bool_decide (s ∈ map row_id table) then Some s else None).
Proof.
  cbn [select_id]. f_equal. induction table as [|r table IH]; cbn [map]; [done|].
  rewrite filter_cons. destruct (decide _) as [Heq|Hne].
  - apply String.eqb_eq in Heq. rewrite bool_decide_eq_true_2; [by f_equal|].
    apply elem_of_cons. by left.
  - rewrite IH. assert (s ≠ row_id r) by (intros ->; apply Hne, String.eqb_refl).
    destruct (bool_decide_reflect (s ∈ map row_id table)) as [Hin|Hnotin].
    + rewrite bool_decide_eq_true_2; [done|]. apply elem_of_cons. by right.
    + rewrite bool_decide_eq_false_2; [done|]. rewrite not_elem_of_cons. done.
Qed.

(** The ids the [WHERE] clause selects are ids the parameter can select. *)
Lemma where_id_may_select (t : transformed) (table : events_table)
    (selected : string -> bool) (id : string) :
  where_id duckdb t table = Ok selected -> selected id = true ->
  may_select (tr_id t) id.
Proof.
  unfold where_id, may_select. destruct (tr_id t); try done.
  - by intros [= <-].
  - intros [= <-] Heq. by apply String.eqb_eq.
Qed.

(** *** The two statements *)

Lemma updated_row_id (t : transformed) (u : Z) (selected : string -> bool)
    (r : event_row) :
  row_id (updated_row duckdb t u selected r) = row_id r
  /\ row_created_at (updated_row duckdb t u selected r) = row_created_at r.
Proof.
  unfold updated_row. destruct (selected (row_id r)); [|done].
  by destruct (bind_columns duckdb t).
Qed.

Lemma update_rows_ok (t : transformed) (u : Z) (table table' : events_table) :
  update_rows duckdb t u table = Ok table' ->
  exists selected,
    where_id duckdb t table = Ok selected
    /\ table' = map (updated_row duckdb t u selected) table.
Proof.
  unfold update_rows.
  destruct (where_id duckdb t table) as [selected|] eqn:Hw; result_simpl; [|done].
  destruct (existsb _ table) eqn:Hany.
  - destruct (bind_columns duckdb t) as [cols|] eqn:Hb; result_simpl; [|done].
    intros [= <-]. exists selected. split; [done|].
    apply map_ext. intros r. unfold updated_row. by rewrite Hb.
  - intros [= <-]. exists selected. split; [done|].
    rewrite <- (map_id table) at 1. apply map_ext_in. intros r Hin.
    unfold updated_row.
    destruct (selected (row_id r)) eqn:Hsel; [|done].
    assert (Hex : existsb (fun r => selected (row_id r)) table = true).
    { apply existsb_exists. by exists r. }
    congruence.
Qed.

(** An [UPDATE] that raises while its [WHERE] holds for the id of the
    str parameter was refused a value. *)
Lemma update_rows_str (t : transformed) (u : Z) (table : events_table) (s : string) :
  tr_id t = JStr s -> s ∈ map row_id table ->
  update_rows duckdb t u table
  = match bind_columns duckdb t with
    | Ok cols =>
        Ok (map (fun r => if String.eqb s (row_id r) then apply_update cols u r else r)
                table)
    | Raise e => Raise e
    end.
Proof.
  intros Hid Hin. unfold update_rows, where_id. rewrite Hid. result_simpl.
  assert (Hany : existsb (fun r => String.eqb s (row_id r)) table = true).
  { apply existsb_exists. apply list_elem_of_In, in_map_iff in Hin as (r & Hr & Hin).
    exists r. split; [done|]. apply String.eqb_eq. done. }
  rewrite Hany. by destruct (bind_columns duckdb t).
Qed.

Lemma insert_row_ok (t : transformed) (c u : Z) (table table' : events_table) :
  insert_row duckdb t c u table = Ok table' ->
  exists id cols,
    to_varchar duckdb (tr_id t) = Ok (Some id)
    /\ bind_columns duckdb t = Ok cols
    /\ (id ∉ map row_id table)
    /\ table' = (table ++ [new_row id cols c u])%list.
Proof.
  unfold insert_row.
  destruct (bind_columns duckdb t) as [cols|]; result_simpl; [|done].
  destruct (to_varchar duckdb (tr_id t)) as [[id|]|]; result_simpl; [|done..].
  destruct (bool_decide_reflect (id ∈ map row_id table)); [done|].
  intros [= <-]. by exists id, cols.
Qed.

Lemma insert_row_str (t : transformed) (c u : Z) (table : events_table) (s : string) :
  tr_id t = JStr s -> s ∉ map row_id table ->
  insert_row duckdb t c u table
  = match bind_columns duckdb t with
    | Ok cols => Ok (table ++ [new_row s cols c u])%list
    | Raise e => Raise e
    end.
Proof.
  intros Hid Hnotin. unfold insert_row. rewrite Hid.
  destruct (bind_columns duckdb t) as [cols|]; result_simpl; [|done].
  cbn [to_varchar not_null]. result_simpl. by rewrite bool_decide_eq_false_2.
Qed.

(** *** One upsert *)

(** The three outcomes of an upsert: an exception, and nothing written;
    an update of the rows selected; an insert of a row of a new id. *)
Lemma upsert_cases (t : transformed) (w : world) :
  (exists e, fst (upsert clock duckdb t w) = Raise e
             /\ db (snd (upsert clock duckdb t w)) = db w)
  \/ (fst (upsert clock duckdb t w) = Ok Updated
      /\ exists selected,
          where_id duckdb t (db w) = Ok selected
          /\ db (snd (upsert clock duckdb t w))
             = map (updated_row duckdb t (clock (clock_reads w)) selected) (db w))
  \/ (fst (upsert clock duckdb t w) = Ok Inserted
      /\ exists id cols,
          to_varchar duckdb (tr_id t) = Ok (Some id)
          /\ bind_columns duckdb t = Ok cols
          /\ (id ∉ map row_id (db w))
          /\ db (snd (upsert clock duckdb t w))
             = (db w ++ [new_row id cols (clock (clock_reads w))
                                 (clock (S (clock_reads w)))])%list).
Proof.
  unfold upsert, now. cbn [db clock_reads].
  destruct (select_id duckdb (tr_id t) (db w)) as [[x|]|e]; [| |left; by exists e].
  - destruct (update_rows _ _ _ _) as [table|e] eqn:Hu; [|left; by exists e].
    right. left. split; [done|]. cbn [snd db]. by apply update_rows_ok.
  - destruct (insert_row _ _ _ _ _) as [table|e] eqn:Hi; [|left; by exists e].
    right. right. split; [done|]. cbn [snd db]. by apply insert_row_ok.
Qed.

(** The upsert of a record whose id is a str: an update when the id is
    stored and an insert when it is not; it fails exactly when the engine
    refuses a value, and writes nothing then. *)
Lemma upsert_str (t : transformed) (w : world) (s : string) :
  tr_id t = JStr s ->
  upsert clock duckdb t w
  = if bool_decide (s ∈ map row_id (db w)) then
      match bind_columns duckdb t with
      | Ok cols =>
          (Ok Updated,
           {| db := map (fun r => if String.eqb s (row_id r)
                                  then apply_update cols (clock (clock_reads w)) r
                                  else r) (db w);
              clock_reads := S (clock_reads w) |})
      | Raise e => (Raise e, {| db := db w; clock_reads := S (clock_reads w) |})
      end
    else
      match bind_columns duckdb t with
      | Ok cols =>
          (Ok Inserted,
           {| db := db w ++ [new_row s cols (clock (clock_reads w))
                                     (clock (S (clock_reads w)))];
              clock_reads := S (S (clock_reads w)) |})
      | Raise e => (Raise e, {| db := db w; clock_reads := S (S (clock_reads w)) |})
      end.
Proof.
  intros Hid. unfold upsert, now. rewrite Hid, select_id_str. cbn [db clock_reads].
  destruct (bool_decide_reflect (s ∈ map row_id (db w))) as [Hin|Hnotin].
  - rewrite (update_rows_str _ _ _ _ Hid Hin). by destruct (bind_columns duckdb t).
  - rewrite (insert_row_str _ _ _ _ _ Hid Hnotin). by destruct (bind_columns duckdb t).
Qed.

(** The upsert of a record whose id is [None] fails: no row is selected,
    and the [INSERT] is refused. *)
Lemma upsert_null (t : transformed) (w : world) :
  tr_id t = JNull ->
  exists e, fst (upsert clock duckdb t w) = Raise e
            /\ db (snd (upsert clock duckdb t w)) = db w.
Proof.
  intros Hid. unfold upsert, now. rewrite Hid. cbn [select_id db clock_reads].
  unfold insert_row. rewrite Hid.
  destruct (bind_columns duckdb t) as [cols|e]; result_simpl; by eexists.
Qed.

Lemma upsert_ids (t : transformed) (w : world) :
  map row_id (db (snd (upsert clock duckdb t w))) = map row_id (db w)
  \/ exists id, (id ∉ map row_id (db w))
                /\ to_varchar duckdb (tr_id t) = Ok (Some id)
                /\ map row_id (db (snd (upsert clock duckdb t w)))
                   = (map row_id (db w) ++ [id])%list.
Proof.
  destruct (upsert_cases t w)
    as [(e & _ & ->)|[(_ & selected & _ & ->)|(_ & id & cols & Hid & _ & Hnotin & ->)]].
  - by left.
  - left. rewrite map_map. apply map_ext. intros r. apply updated_row_id.
  - right. exists id. by rewrite map_app.
Qed.

Lemma upsert_keeps_ids (t : transformed) (w : world) (key : string) :
  key ∈ map row_id (db w) -> key ∈ map row_id (db (snd (upsert clock duckdb t w))).
Proof.
  destruct (upsert_ids t w) as [->|(id & _ & _ & ->)]; [done|].
  intros Hin. apply elem_of_app. by left.
Qed.

Lemma upsert_NoDup (t : transformed) (w : world) :
  NoDup (map row_id (db w)) -> NoDup (map row_id (db (snd (upsert clock duckdb t w)))).
Proof.
  destruct (upsert_ids t w) as [->|(id & Hnotin & _ & ->)]; [done|].
  intros Hnd. apply NoDup_app. split; [done|]. split; [|apply NoDup_singleton].
  intros key Hin Hkey. by apply list_elem_of_singleton in Hkey as ->.
Qed.

(** An upsert that the store takes leaves the id stored. *)
Lemma upsert_stores_id (t : transformed) (w : world) (s : string) :
  tr_id t = JStr s -> is_ok (bind_columns duckdb t) = true ->
  s ∈ map row_id (db (snd (upsert clock duckdb t w))).
Proof.
  intros Hid Hok. rewrite (upsert_str _ _ _ Hid).
  destruct (bind_columns duckdb t) as [cols|]; [|done].
  destruct (bool_decide_reflect (s ∈ map row_id (db w))) as [Hin|Hnotin]; cbn [snd db].
  - rewrite map_map.
    replace (map _ (db w)) with (map row_id (db w)); [done|].
    apply map_ext. intros r. by destruct (String.eqb s (row_id r)).
  - rewrite map_app. apply elem_of_app. right. by apply list_elem_of_singleton.
Qed.


(** *** Rows under upserts *)

(** An upsert keeps every row in its place, with its id and its creation
    time, and leaves a row as it is unless it can write under its id. *)
Lemma upsert_keeps_row (t : transformed) (w : world) (i : nat) (r : event_row) :
  db w !! i = Some r ->
  exists r', db (snd (upsert clock duckdb t w)) !! i = Some r'
             /\ row_id r' = row_id r
             /\ row_created_at r' = row_created_at r
             /\ (~ may_write duckdb t (row_id r) -> r' = r).
Proof.
  intros Hi. destruct (upsert_cases t w)
    as [(e & _ & ->)|[(_ & selected & Hw & ->)|(_ & id & cols & _ & _ & _ & ->)]].
  - by exists r.
  - exists (updated_row duckdb t (clock (clock_reads w)) selected r).
    split; [by rewrite list_lookup_fmap, Hi|].
    destruct (updated_row_id t (clock (clock_reads w)) selected r) as [Hid Hc].
    split; [done|]. split; [done|]. intros Hno. unfold updated_row.
    destruct (selected (row_id r)) eqn:Hsel; [|done].
    destruct (bind_columns duckdb t) as [cols|] eqn:Hb; [|done].
    exfalso. apply Hno. split; [by eapply where_id_may_select|]. by rewrite Hb.
  - exists r. split; [|done]. rewrite lookup_app_l; [done|]. by eapply lookup_lt_Some.
Qed.

Lemma upsert_all_cons (t : transformed) (ts : list transformed) (w : world) :
  upsert_all clock duckdb (t :: ts) w
  = upsert_all clock duckdb ts (snd (upsert clock duckdb t w)).
Proof. reflexivity. Qed.

Lemma upsert_all_app (ts1 ts2 : list transformed) (w : world) :
  upsert_all clock duckdb (ts1 ++ ts2) w
  = upsert_all clock duckdb ts2 (upsert_all clock duckdb ts1 w).
Proof. unfold upsert_all. by rewrite fold_left_app. Qed.

Lemma upsert_all_snoc (ts : list transformed) (t : transformed) (w : world) :
  upsert_all clock duckdb (ts ++ [t]) w
  = snd (upsert clock duckdb t (upsert_all clock duckdb ts w)).
Proof. by rewrite upsert_all_app. Qed.

Lemma upsert_all_keeps_row (ts : list transformed) :
  forall w i r,
    db w !! i = Some r ->
    exists r', db (upsert_all clock duckdb ts w) !! i = Some r'
               /\ row_id r' = row_id r
               /\ row_created_at r' = row_created_at r
               /\ (Forall (fun t => ~ may_write duckdb t (row_id r)) ts -> r' = r).
Proof.
  induction ts as [|t ts IH]; intros w i r Hi.
  - exists r. done.
  - rewrite upsert_all_cons.
    destruct (upsert_keeps_row t w i r Hi) as (r1 & Hi1 & Hid1 & Hc1 & Hsame1).
    destruct (IH _ i r1 Hi1) as (r2 & Hi2 & Hid2 & Hc2 & Hsame2).
    exists r2. split; [done|]. split; [congruence|]. split; [congruence|].
    intros [Hno Hnone]%Forall_cons.
    rewrite Hsame2, Hsame1; [done|done|]. by rewrite Hsame1.
Qed.

Lemma upsert_all_keeps_ids (ts : list transformed) :
  forall w key, key ∈ map row_id (db w) ->
                key ∈ map row_id (db (upsert_all clock duckdb ts w)).
Proof.
  induction ts as [|t ts IH]; intros w key Hin; [done|].
  rewrite upsert_all_cons. by apply IH, upsert_keeps_ids.
Qed.

Lemma upsert_all_stores_ids (ts : list transformed) :
  forall w t s, t ∈ ts -> tr_id t = JStr s -> is_ok (bind_columns duckdb t) = true ->
                s ∈ map row_id (db (upsert_all clock duckdb ts w)).
Proof.
  induction ts as [|t0 ts IH]; intros w t s Hin Hid Hok.
  - by apply elem_of_nil in Hin.
  - rewrite upsert_all_cons. apply elem_of_cons in Hin as [->|Hin].
    + by apply upsert_all_keeps_ids, upsert_stores_id.
    + by apply (IH _ t).
Qed.

Lemma upsert_all_NoDup (ts : list transformed) :
  forall w, NoDup (map row_id (db w)) ->
            NoDup (map row_id (db (upsert_all clock duckdb ts w))).
Proof.
  induction ts as [|t ts IH]; intros w Hnd; [done|].
  rewrite upsert_all_cons. by apply IH, upsert_NoDup.
Qed.

(** An upsert that the store takes leaves a row that carries the
    record. *)
Lemma upsert_leaves_row (t : transformed) (w : world) (s : string) (cols : columns) :
  tr_id t = JStr s -> bind_columns duckdb t = Ok cols ->
  exists i r, db (snd (upsert clock duckdb t w)) !! i = Some r
              /\ row_id r = s /\ carries r cols.
Proof.
  intros Hid Hb. rewrite (upsert_str _ _ _ Hid), Hb.
  destruct (bool_decide_reflect (s ∈ map row_id (db w))) as [Hin|Hnotin]; cbn [snd db].
  - apply list_elem_of_In, in_map_iff in Hin as (r & Hr & Hin).
    apply list_elem_of_In, list_elem_of_lookup in Hin as [i Hi].
    exists i. eexists. rewrite list_lookup_fmap, Hi. cbn [fmap option_fmap option_map].
    rewrite Hr, String.eqb_refl. split; [done|]. split; [done|].
    apply carries_apply_update.
  - exists (length (db w)). eexists. split.
    + rewrite lookup_app_r by lia. by rewrite Nat.sub_diag.
    + split; [done|]. apply carries_new_row.
Qed.

(** *** The content of the store *)

Lemma overwrite_id (t : transformed) (r : event_row) :
  row_id (overwrite duckdb t r) = row_id r
  /\ row_created_at (overwrite duckdb t r) = row_created_at r.
Proof.
  unfold overwrite. destruct (tr_id t); try done.
  destruct (bind_columns duckdb t); [|done]. by destruct (String.eqb _ _).
Qed.

Lemma overwrite_all_id (ts : list transformed) :
  forall r, row_id (overwrite_all duckdb ts r) = row_id r
            /\ row_created_at (overwrite_all duckdb ts r) = row_created_at r.
Proof.
  unfold overwrite_all.
  induction ts as [|t ts IH]; intros r; cbn [fold_left]; [done|].
  destruct (IH (overwrite duckdb t r)) as [-> ->]. apply overwrite_id.
Qed.

(** What the update of [t] makes of a row depends on the id and on the
    creation time of the row only. *)
Lemma overwrite_merge (t : transformed) (r r' : event_row) :
  row_id r = row_id r' -> row_created_at r = row_created_at r' ->
  (overwrite duckdb t r = r /\ overwrite duckdb t r' = r')
  \/ overwrite duckdb t r = overwrite duckdb t r'.
Proof.
  intros Hid Hcreated. unfold overwrite.
  destruct (tr_id t); try by left.
  destruct (bind_columns duckdb t) as [cols|]; [|by left].
  rewrite <- Hid. destruct (String.eqb s (row_id r)); [|by left].
  right. unfold apply_update. by rewrite Hid, Hcreated.
Qed.

(** Two rows of the same id and creation time are either both left alone by
    the updates of [ts] or brought to the same row. *)
Lemma overwrite_all_merge (ts : list transformed) :
  forall r r', row_id r = row_id r' -> row_created_at r = row_created_at r' ->
               overwrite_all duckdb ts r' = r'
               \/ overwrite_all duckdb ts r = overwrite_all duckdb ts r'.
Proof.
  unfold overwrite_all.
  induction ts as [|t ts IH]; intros r r' Hid Hcreated; cbn [fold_left]; [by left|].
  destruct (overwrite_merge t r r' Hid Hcreated) as [[-> ->]| ->]; [by apply IH|by right].
Qed.

Lemma overwrite_all_idempotent (ts : list transformed) (r : event_row) :
  overwrite_all duckdb ts (overwrite_all duckdb ts r) = overwrite_all duckdb ts r.
Proof.
  destruct (overwrite_all_id ts r) as [Hid Hcreated].
  destruct (overwrite_all_merge ts r (overwrite_all duckdb ts r)) as [H|H];
    [by symmetry | by symmetry | exact H | symmetry; exact H].
Qed.

Lemma overwrite_all_snoc (ts : list transformed) (t : transformed) (r : event_row) :
  overwrite_all duckdb (ts ++ [t]) r = overwrite duckdb t (overwrite_all duckdb ts r).
Proof. unfold overwrite_all. by rewrite fold_left_app. Qed.

(** The update of [t] leaves the rows of other ids alone. *)
Lemma overwrite_other (t : transformed) (r : event_row) :
  tr_id t <> JStr (row_id r) -> overwrite duckdb t r = r.
Proof.
  intros Hne. unfold overwrite. destruct (tr_id t) as [| | |s| |]; try done.
  destruct (bind_columns duckdb t); [|done].
  destruct (String.eqb_spec s (row_id r)); [congruence|done].
Qed.

(** The content after the upsert of a record whose id is a str or
    [None]: the content before with the rows of the id overwritten, or
    with the new row of a new id. *)
Lemma upsert_content (t : transformed) (w : world) :
  plain_id (tr_id t) ->
  content (db (snd (upsert clock duckdb t w)))
  = map (overwrite duckdb t) (content (db w))
  \/ exists s cols,
      tr_id t = JStr s /\ bind_columns duckdb t = Ok cols
      /\ (s ∉ map row_id (db w))
      /\ content (db (snd (upsert clock duckdb t w)))
         = (content (db w)
            ++ [without_updated_at (new_row s cols (clock (clock_reads w))
                                            (clock (S (clock_reads w))))])%list.
Proof.
  intros Hplain. destruct (tr_id t) as [| | |s| |] eqn:Hid; try done.
  - left. destruct (upsert_null t w Hid) as (e & _ & ->).
    rewrite <- (map_id (content (db w))) at 1. apply map_ext. intros r.
    unfold overwrite. by rewrite Hid.
  - rewrite (upsert_str _ _ _ Hid).
    destruct (bool_decide_reflect (s ∈ map row_id (db w))) as [Hin|Hnotin];
      destruct (bind_columns duckdb t) as [cols|] eqn:Hb; cbn [snd db].
    + left. unfold content. rewrite !map_map. apply map_ext. intros r.
      unfold overwrite. rewrite Hid, Hb. cbn [without_updated_at row_id].
      by destruct (String.eqb s (row_id r)).
    + left. rewrite <- (map_id (content (db w))) at 1. apply map_ext. intros r.
      unfold overwrite. by rewrite Hid, Hb.
    + right. exists s, cols. split; [done|]. split; [done|]. split; [done|].
      unfold content. by rewrite map_app.
    + left. rewrite <- (map_id (content (db w))) at 1. apply map_ext. intros r.
      unfold overwrite. by rewrite Hid, Hb.
Qed.

(** Up to [updated_at], every row of the store after the upserts of [ts]
    is a row brought to its final state by the updates of [ts]. *)
Lemma upsert_all_content_shape (ts : list transformed) (w : world) :
  Forall (fun t => plain_id (tr_id t)) ts ->
  exists rows, content (db (upsert_all clock duckdb ts w))
               = map (overwrite_all duckdb ts) rows.
Proof.
  induction ts as [|t ts IH] using rev_ind; intros Hplain.
  - exists (content (db w)). cbn. by rewrite map_id.
  - apply Forall_app in Hplain as [Hts [Ht _]%Forall_cons].
    destruct (IH Hts) as [rows Hrows]. rewrite upsert_all_snoc.
    set (w' := upsert_all clock duckdb ts w) in *.
    destruct (upsert_content t w' Ht) as [-> |(s & cols & Hid & Hb & Hnotin & ->)].
    + exists rows. rewrite Hrows, map_map.
      apply map_ext. intros r. by rewrite overwrite_all_snoc.
    + set (n := new_row s cols _ _).
      exists (rows ++ [without_updated_at n])%list. rewrite map_app. f_equal.
      * rewrite Hrows. apply map_ext_in. intros r Hin.
        rewrite overwrite_all_snoc. symmetry. apply overwrite_other.
        rewrite Hid. intros [= ->]. apply Hnotin.
        rewrite <- content_ids, Hrows, map_map.
        apply list_elem_of_In, in_map_iff. by exists r.
      * cbn [map]. f_equal. rewrite overwrite_all_snoc.
        destruct (overwrite_all_id ts (without_updated_at n)) as [Hrid Hcreated].
        unfold overwrite. rewrite Hid, Hb, Hrid. cbn [without_updated_at n new_row row_id].
        rewrite String.eqb_refl. unfold apply_update. by rewrite Hrid, Hcreated.
Qed.

(** When the store holds the ids of all the records of [ts] it can take,
    the upserts are updates. *)
Lemma upsert_all_updates_only (ts : list transformed) :
  forall w,
    Forall (fun t => plain_id (tr_id t)) ts ->
    (forall t s, t ∈ ts -> tr_id t = JStr s -> is_ok (bind_columns duckdb t) = true ->
                 s ∈ map row_id (db w)) ->
    content (db (upsert_all clock duckdb ts w))
    = map (overwrite_all duckdb ts) (content (db w)).
Proof.
  induction ts as [|t ts IH]; intros w Hplain Hall.
  - cbn. by rewrite map_id.
  - apply Forall_cons in Hplain as [Ht Hts]. rewrite upsert_all_cons, IH; [|done|].
    + destruct (upsert_content t w Ht) as [-> |(s & cols & Hid & Hb & Hnotin & _)].
      * by rewrite map_map.
      * exfalso. apply Hnotin, (Hall t); [apply elem_of_cons; by left|done|].
        by rewrite Hb.
    + intros t' s Hin Hid Hok. eapply upsert_keeps_ids, Hall; [|done..].
      apply elem_of_cons. by right.
Qed.

End Store.

(** ** The loop *)

Lemma length_list_ascii (s : string) :
  length (list_ascii_of_string s) = String.length s.
Proof. induction s as [|c s IH]; [done|]. cbn. by rewrite IH. Qed.

(** The number of events fetched is the number of rounds of the loop. *)
Lemma fetched_events_length (events_data : json) (n : Z) (feed : list json) :
  fetched_events events_data = Ok (n, feed) -> n = Z.of_nat (length feed).
Proof.
  unfold fetched_events.
  destruct (json_get events_data "events" (JList [])) as [events|]; result_simpl; [|done].
  destruct events as [| | |s|items|entries]; cbn; try done; intros [= <- <-].
  - by rewrite length_map, length_list_ascii.
  - done.
  - by rewrite length_map.
Qed.

Lemma fetched_events_body (feed : list json) :
  fetched_events (body_of feed) = Ok (Z.of_nat (length feed), feed).
Proof. reflexivity. Qed.

Section Sync.

Variable fromisoformat : string -> result datetime.
Variable clock : nat -> Z.
Variable duckdb : engine.

Lemma transform_ok_dict (event : json) (t : transformed) :
  _transform_event_data fromisoformat event = Ok t -> is_dict event = true.
Proof. intros Ht. by apply transform_ok_inv in Ht as (? & ? & ? & ? & ? & ? & -> & _). Qed.

(** One iteration of the loop, by cases. *)
Lemma sync_step_cases (stats : sync_stats) (w : world) (event : json) :
  sync_step fromisoformat clock duckdb stats w event
  = match _transform_event_data fromisoformat event with
    | Ok t =>
        (Ok match fst (upsert clock duckdb t w) with
            | Ok Updated =>
                {| fetched := fetched stats; updated := updated stats + 1;
                   inserted := inserted stats; errors := errors stats |}
            | Ok Inserted =>
                {| fetched := fetched stats; updated := updated stats;
                   inserted := inserted stats + 1; errors := errors stats |}
            | Raise _ =>
                {| fetched := fetched stats; updated := updated stats;
                   inserted := inserted stats; errors := errors stats + 1 |}
            end,
         snd (upsert clock duckdb t w))
    | Raise _ =>
        (if is_dict event
         then Ok {| fetched := fetched stats; updated := updated stats;
                    inserted := inserted stats; errors := errors stats + 1 |}
         else Raise AttributeError, w)
    end.
Proof.
  unfold sync_step, reconcile.
  destruct (_transform_event_data fromisoformat event) as [t|] eqn:Ht.
  - apply transform_ok_dict in Ht. destruct event; try done.
    by destruct (upsert clock duckdb t w) as [[[]|] w'].
  - by destruct event.
Qed.

(** The store after the loop is the store after the upserts of the
    records it reached and the transformer accepted. *)
Lemma sync_loop_world (feed : list json) :
  forall stats w,
    snd (sync_loop fromisoformat clock duckdb feed stats w)
    = upsert_all clock duckdb (accepted fromisoformat feed) w.
Proof.
  induction feed as [|event feed IH]; intros stats w; [done|].
  cbn [sync_loop accepted]. rewrite sync_step_cases.
  destruct (_transform_event_data fromisoformat event) as [t|].
  - by rewrite IH.
  - destruct (is_dict event); [by rewrite IH|done].
Qed.

(** What one iteration that does not leave the loop counts and writes. *)
Lemma sync_step_ok (stats stats1 : sync_stats) (w w1 : world) (event : json) :
  sync_step fromisoformat clock duckdb stats w event = (Ok stats1, w1) ->
  fetched stats1 = fetched stats
  /\ ((inserted stats1 = inserted stats + 1 /\ updated stats1 = updated stats
       /\ errors stats1 = errors stats /\ length (db w1) = S (length (db w)))
      \/ (inserted stats1 = inserted stats /\ updated stats1 = updated stats + 1
          /\ errors stats1 = errors stats /\ length (db w1) = length (db w))
      \/ (inserted stats1 = inserted stats /\ updated stats1 = updated stats
          /\ errors stats1 = errors stats + 1 /\ db w1 = db w)).
Proof.
  rewrite sync_step_cases.
  destruct (_transform_event_data fromisoformat event) as [t|].
  - intros [= <- <-].
    destruct (upsert_cases clock duckdb t w)
      as [(e & -> & ->)|[(-> & selected & _ & ->)|(-> & id & cols & _ & _ & _ & ->)]].
    + split; [done|]. right. by right.
    + split; [done|]. right. left. by rewrite length_map.
    + split; [done|]. left. rewrite length_app. cbn. repeat split; lia.
  - destruct (is_dict event); [|done]. intros [= <- <-]. split; [done|]. right. by right.
Qed.

(** The statistics and the row count after a loop that came to its end. *)
Lemma sync_loop_counts (feed : list json) :
  forall stats w stats',
    fst (sync_loop fromisoformat clock duckdb feed stats w) = Ok stats' ->
    fetched stats' = fetched stats
    /\ inserted stats' + updated stats' + errors stats'
       = inserted stats + updated stats + errors stats + Z.of_nat (length feed)
    /\ Z.of_nat (length (db (snd (sync_loop fromisoformat clock duckdb feed stats w))))
       = Z.of_nat (length (db w)) + (inserted stats' - inserted stats).
Proof.
  induction feed as [|event feed IH]; intros stats w stats'; cbn [sync_loop].
  - intros [= <-]. cbn. lia.
  - destruct (sync_step fromisoformat clock duckdb stats w event) as [[stats1|e] w1] eqn:Hstep;
      [|done].
    intros Hloop. destruct (IH _ _ _ Hloop) as (Hf & Hsum & Hlen).
    apply sync_step_ok in Hstep as (Hf1 & Hcases).
    rewrite Hf, Hlen. split; [done|]. cbn [length].
    destruct Hcases as [(? & ? & ? & ?)|[(? & ? & ? & ?)|(? & ? & ? & Hdb)]];
      try rewrite Hdb; split; lia.
Qed.

(** A loop over objects comes to its end. *)
Lemma sync_loop_completes (feed : list json) :
  Forall (fun event => is_dict event = true) feed ->
  forall stats w, is_ok (fst (sync_loop fromisoformat clock duckdb feed stats w)) = true.
Proof.
  induction 1 as [|event feed Hdict _ IH]; intros stats w; [done|].
  cbn [sync_loop]. rewrite sync_step_cases, Hdict.
  by destruct (_transform_event_data fromisoformat event).
Qed.


(** A loop over records whose ids are stored, as far as the store can
    take them, inserts nothing. *)
Lemma sync_loop_no_insert (feed : list json) :
  forall stats w stats',
    Forall (fun t => plain_id (tr_id t)) (accepted fromisoformat feed) ->
    (forall t s, t ∈ accepted fromisoformat feed -> tr_id t = JStr s ->
                 is_ok (bind_columns duckdb t) = true -> s ∈ map row_id (db w)) ->
    fst (sync_loop fromisoformat clock duckdb feed stats w) = Ok stats' ->
    inserted stats' = inserted stats.
Proof.
  induction feed as [|event feed IH]; intros stats w stats'; cbn [sync_loop accepted].
  - by intros _ _ [= <-].
  - rewrite sync_step_cases.
    destruct (_transform_event_data fromisoformat event) as [t|].
    + intros [Hplain Hrest]%Forall_cons Hall Hloop.
      apply IH in Hloop; [|done|].
      * rewrite Hloop. destruct (tr_id t) as [| | |s| |] eqn:Hid; try done.
        -- by destruct (upsert_null clock duckdb t w Hid) as (e & -> & _).
        -- rewrite (upsert_str _ _ _ _ _ Hid).
           destruct (bind_columns duckdb t) as [cols|] eqn:Hb.
           ++ rewrite bool_decide_eq_true_2; [done|].
              apply (Hall t); [apply elem_of_cons; by left|done|by rewrite Hb].
           ++ by destruct (bool_decide _).
      * intros t' s' Hin Hid Hok.
        eapply upsert_keeps_ids, Hall; [|done..]. apply elem_of_cons. by right.
    + destruct (is_dict event); [|done]. intros Hplain Hall Hloop.
      by rewrite (IH _ _ _ Hplain Hall Hloop).
Qed.

(** *** The handler *)

(** The table a sync leaves: that of the upserts of the accepted records
    of the feed when there is a token, the table it found when there is
    none. *)
Lemma handle_sync_data_db (token : option string) (api_response : result json) (w : world) :
  db (snd (_handle_sync_data fromisoformat clock duckdb token api_response w))
  = match token with
    | None | Some "" => db w
    | Some _ =>
        db (upsert_all clock duckdb (accepted fromisoformat (feed_of api_response))
                       {| db := db w; clock_reads := S (clock_reads w) |})
    end.
Proof.
  unfold _handle_sync_data, feed_of, now. destruct token as [[|c token]|]; [done| |done].
  cbn [db clock_reads].
  destruct (api_response ≫= fetched_events) as [[n feed]|]; [|done].
  cbn [updated inserted errors].
  rewrite <- sync_loop_world
    with (stats := {| fetched := n; updated := 0; inserted := 0; errors := 0 |}).
  by destruct (sync_loop _ _ _ _ _ _) as [[stats|e] w2].
Qed.

(** The answer of a sync that reports statistics. *)
Lemma handle_sync_data_complete (token : option string) (api_response : result json)
    (w : world) (stats : sync_stats) (total last_sync : Z) :
  fst (_handle_sync_data fromisoformat clock duckdb token api_response w)
  = SyncComplete stats total last_sync ->
  let w1 := {| db := db w; clock_reads := S (clock_reads w) |} in
  let feed := feed_of api_response in
  let stats1 := {| fetched := Z.of_nat (length feed); updated := 0;
                   inserted := 0; errors := 0 |} in
  (exists c text, token = Some (String c text))
  /\ fst (sync_loop fromisoformat clock duckdb feed stats1 w1) = Ok stats
  /\ total = count_events (db (snd (sync_loop fromisoformat clock duckdb feed stats1 w1))).
Proof.
  unfold _handle_sync_data, feed_of, now. destruct token as [[|c token]|]; [done| |done].
  cbn [db clock_reads].
  destruct (api_response ≫= fetched_events) as [[n feed]|] eqn:Hfetch; [|done].
  cbn [updated inserted errors].
  assert (n = Z.of_nat (length feed)) as ->.
  { destruct api_response as [body|]; [|done]. by apply fetched_events_length in Hfetch. }
  destruct (sync_loop _ _ _ _ _ _) as [[stats'|e] w2] eqn:Hloop; [|done].
  intros [= <- <- _]. cbv zeta. split; [by eexists _, _|]. done.
Qed.

(** A sync with a token whose response lists objects reports
    statistics. *)
Lemma handle_sync_data_reports (c : ascii) (token : string) (feed : list json) (w : world) :
  Forall (fun event => is_dict event = true) feed ->
  exists stats total last_sync,
    fst (_handle_sync_data fromisoformat clock duckdb (Some (String c token))
                           (Ok (body_of feed)) w)
    = SyncComplete stats total last_sync.
Proof.
  intros Hdicts. unfold _handle_sync_data, now. cbn [db clock_reads].
  change (Ok (body_of feed) ≫= fetched_events) with (fetched_events (body_of feed)).
  rewrite fetched_events_body. cbn [updated inserted errors].
  pose proof (sync_loop_completes feed Hdicts
                {| fetched := Z.of_nat (length feed); updated := 0;
                   inserted := 0; errors := 0 |}
                {| db := db w; clock_reads := S (clock_reads w) |}) as Hok.
  destruct (sync_loop _ _ _ _ _ _) as [[stats|e] w2]; [|done]. by eexists _, _, _.
Qed.

End Sync.

(** ** Sync *)


Section Reconciliation.

Variable fromisoformat : string -> result datetime.
Variable clock : nat -> Z.
Variable duckdb : engine.




(** C10: a sync call that has a token and whose fetch succeeds returns
    statistics when the events fetched are objects; and statistics a sync
    returns have [fetched] equal to the number of events of the response
    and to [inserted + updated + errors]. *)
Theorem sync_stats_balance
    (c : ascii) (token : string) (api_response : result json) (feed : list json)
    (w : world) :
  Forall (fun event => is_dict event = true) feed ->
  match fst (_handle_sync_data fromisoformat clock duckdb (Some (String c token))
                               api_response w) with
  | SyncComplete stats _ _ =>
      fetched stats = Z.of_nat (length (feed_of api_response))
      /\ fetched stats = inserted stats + updated stats + errors stats
  | SyncError _ => True
  end
  /\ exists stats total last_sync,
      fst (_handle_sync_data fromisoformat clock duckdb (Some (String c token))
                             (Ok (body_of feed)) w)
      = SyncComplete stats total last_sync
      /\ fetched stats = Z.of_nat (length feed)
      /\ fetched stats = inserted stats + updated stats + errors stats.
Proof.
  intros Hdicts.
  assert (Hbalance : forall api stats total last_sync,
             fst (_handle_sync_data fromisoformat clock duckdb (Some (String c token))
                                    api w)
             = SyncComplete stats total last_sync ->
             fetched stats = Z.of_nat (length (feed_of api))
             /\ fetched stats = inserted stats + updated stats + errors stats).
  { intros api stats total last_sync Hanswer.
    apply handle_sync_data_complete in Hanswer as (_ & Hloop & _).
    apply sync_loop_counts in Hloop as (Hf & Hsum & _).
    cbn [fetched inserted updated errors] in Hf, Hsum. lia. }
  split.
  - destruct (fst (_handle_sync_data _ _ _ _ api_response w)) eqn:Hanswer; [|done].
    by eapply Hbalance.
  - destruct (handle_sync_data_reports fromisoformat clock duckdb c token feed w Hdicts)
      as (stats & total & last_sync & Hanswer).
    exists stats, total, last_sync. split; [done|].
    by apply Hbalance in Hanswer.
Qed.

(** C6: two sync calls in a row with the same token and the same feed,
    whose ids are strings or null: the second reports [inserted = 0] and
    leaves the store with the content the first call left, up to
    [updated_at]; and it leaves as it is, [updated_at] included, every row
    under whose id no record of the feed can be written. *)
Theorem sync_idempotent
    (token : option string) (api_response : result json) (w : world) :
  Forall (fun t => plain_id (tr_id t)) (accepted fromisoformat (feed_of api_response)) ->
  let first := _handle_sync_data fromisoformat clock duckdb token api_response w in
  let second :=
    _handle_sync_data fromisoformat clock duckdb token api_response (snd first) in
  inserted_of (fst second) = 0
  /\ content (db (snd second)) = content (db (snd first))
  /\ forall i r,
      db (snd first) !! i = Some r ->
      Forall (fun t => ~ may_write duckdb t (row_id r))
             (accepted fromisoformat (feed_of api_response)) ->
      db (snd second) !! i = Some r.
Proof.
  intros Hplain. cbv zeta. destruct token as [[|c token]|].
  - split; [done|]. split; [done|]. by intros.
  - set (token' := Some (String c token)).
    set (first := _handle_sync_data fromisoformat clock duckdb token' api_response w).
    set (ts := accepted fromisoformat (feed_of api_response)) in *.
    set (w1 := {| db := db w; clock_reads := S (clock_reads w) |}).
    set (w1' := {| db := db (snd first); clock_reads := S (clock_reads (snd first)) |}).
    assert (Hfirst : db (snd first) = db (upsert_all clock duckdb ts w1)).
    { unfold first. by rewrite handle_sync_data_db. }
    assert (Hsecond : db (snd (_handle_sync_data fromisoformat clock duckdb token'
                                                 api_response (snd first)))
                      = db (upsert_all clock duckdb ts w1')).
    { by rewrite handle_sync_data_db. }
    assert (Hstored : forall t s, t ∈ ts -> tr_id t = JStr s ->
                                  is_ok (bind_columns duckdb t) = true ->
                                  s ∈ map row_id (db w1')).
    { intros t s Hin Hid Hok. cbn [w1' db]. rewrite Hfirst.
      by eapply upsert_all_stores_ids. }
    split; [|split].
    + destruct (fst (_handle_sync_data _ _ _ token' api_response (snd first)))
        as [stats total last_sync|] eqn:Hanswer; [|done].
      apply handle_sync_data_complete in Hanswer as (_ & Hloop & _).
      by apply sync_loop_no_insert in Hloop.
    + rewrite Hsecond, upsert_all_updates_only by done. cbn [w1' db].
      destruct (upsert_all_content_shape clock duckdb ts w1 Hplain) as [rows Hrows].
      rewrite Hfirst, Hrows, map_map. apply map_ext. intros r.
      apply overwrite_all_idempotent.
    + intros i r Hi Hnone. rewrite Hsecond.
      destruct (upsert_all_keeps_row clock duckdb ts w1' i r Hi)
        as (r' & Hi' & _ & _ & Hsame).
      by rewrite Hi', Hsame.
  - split; [done|]. split; [done|]. by intros.
Qed.

End Reconciliation.

(** ** Upserts *)

Section Upserts.

Variable fromisoformat : string -> result datetime.
Variable clock : nat -> Z.
Variable duckdb : engine.

(** C7: every sequence of upserts, and every sync call, keeps the ids of
    the store unique; and two raw events of one id, both accepted by the
    transformer, leave exactly one row of that id: with the columns of the
    second when the engine accepts its values, and as the first left it
    when the engine refuses them. *)
Theorem sync_keeps_ids_unique
    (ts : list transformed) (token : option string) (api_response : result json)
    (stats : sync_stats) (w : world)
    (event1 event2 : json) (t1 t2 : transformed) (s : string) :
  NoDup (map row_id (db w)) ->
  _transform_event_data fromisoformat event1 = Ok t1 ->
  _transform_event_data fromisoformat event2 = Ok t2 ->
  tr_id t1 = JStr s ->
  tr_id t2 = JStr s ->
  NoDup (map row_id (db (upsert_all clock duckdb ts w)))
  /\ NoDup (map row_id
              (db (snd (_handle_sync_data fromisoformat clock duckdb token
                                          api_response w))))
  /\ match bind_columns duckdb t2 with
     | Ok cols2 =>
         exists r,
           filter (fun r => row_id r = s)
                  (db (snd (sync_loop fromisoformat clock duckdb [event1; event2]
                                      stats w)))
           = [r]
           /\ carries r cols2
     | Raise _ =>
         db (snd (sync_loop fromisoformat clock duckdb [event1; event2] stats w))
         = db (snd (sync_loop fromisoformat clock duckdb [event1] stats w))
     end.
Proof.
  intros Hnd Ht1 Ht2 Hid1 Hid2. split; [by apply upsert_all_NoDup|]. split.
  - rewrite handle_sync_data_db. destruct token as [[|c token]|]; [done| |done].
    by apply upsert_all_NoDup.
  - rewrite !sync_loop_world. cbn [accepted]. rewrite Ht1, Ht2.
    change (upsert_all clock duckdb [t1; t2] w)
      with (snd (upsert clock duckdb t2 (snd (upsert clock duckdb t1 w)))).
    change (upsert_all clock duckdb [t1] w) with (snd (upsert clock duckdb t1 w)).
    set (w1 := snd (upsert clock duckdb t1 w)).
    assert (Hnd1 : NoDup (map row_id (db w1))) by by apply upsert_NoDup.
    destruct (bind_columns duckdb t2) as [cols2|e] eqn:Hb.
    + destruct (upsert_leaves_row clock duckdb t2 w1 s cols2 Hid2 Hb)
        as (i & r & Hi & Hrid & Hcarries).
      assert (Hr : r ∈ db (snd (upsert clock duckdb t2 w1))).
      { apply list_elem_of_lookup. by exists i. }
      destruct (unique_row s (db (snd (upsert clock duckdb t2 w1)))) as (r' & Hfilter & _).
      * by apply upsert_NoDup.
      * rewrite <- Hrid. apply list_elem_of_In, in_map, list_elem_of_In, Hr.
      * exists r. split; [|done]. rewrite Hfilter. f_equal.
        assert (Hel : r ∈ filter (fun r => row_id r = s)
                              (db (snd (upsert clock duckdb t2 w1)))).
        { by apply list_elem_of_filter. }
        rewrite Hfilter in Hel. by apply list_elem_of_singleton in Hel.
    + rewrite (upsert_str _ _ _ _ _ Hid2), Hb. by destruct (bool_decide _).
Qed.

(** C8, amended: an upsert of a record whose id is a str writes when the
    engine accepts the values of the record, and raises without writing
    when it refuses one. When it writes under an absent id it appends one
    row that carries the record, whose [created_at] and [updated_at] are
    two successive readings of the clock, [created_at] first; under a
    present id it replaces the mutable columns of the rows of that id,
    sets their [updated_at] to the next clock reading and keeps their
    [created_at], and leaves every other row as it is. *)
Theorem upsert_timestamps (t : transformed) (w : world) (s : string) :
  tr_id t = JStr s ->
  match bind_columns duckdb t, select_id duckdb (tr_id t) (db w) with
  | Ok cols, Ok None =>
      exists r,
        upsert clock duckdb t w
        = (Ok Inserted,
           {| db := db w ++ [r]; clock_reads := S (S (clock_reads w)) |})
        /\ row_id r = s /\ carries r cols
        /\ row_created_at r = clock (clock_reads w)
        /\ row_updated_at r = clock (S (clock_reads w))
  | Ok cols, Ok (Some _) =>
      exists table,
        upsert clock duckdb t w
        = (Ok Updated, {| db := table; clock_reads := S (clock_reads w) |})
        /\ Forall2 (fun r r' =>
                      row_id r' = row_id r
                      /\ row_created_at r' = row_created_at r
                      /\ if String.eqb s (row_id r)
                         then carries r' cols
                              /\ row_updated_at r' = clock (clock_reads w)
                         else r' = r)
                   (db w) table
  | Raise e, Ok _ =>
      fst (upsert clock duckdb t w) = Raise e
      /\ db (snd (upsert clock duckdb t w)) = db w
  | _, Raise _ => False
  end.
Proof.
  intros Hid. rewrite (upsert_str _ _ _ _ _ Hid), Hid, select_id_str.
  destruct (bind_columns duckdb t) as [cols|e];
    destruct (bool_decide (s ∈ map row_id (db w))); [| |done..].
  - eexists. split; [done|]. induction (db w) as [|r table IH]; constructor; [|done].
    destruct (String.eqb s (row_id r)); [|done]. repeat split.
  - eexists. split; [done|]. repeat split.
Qed.

End Upserts.

(** C7 on the sample feed: the same id under two titles. *)
Lemma sync_keeps_ids_unique_witness :
  NoDup (map row_id (db empty_world))
  /\ map row_title
       (db (snd (sync_loop sample_fromisoformat sample_clock strict_engine
                           [planning; planning_renamed] no_stats empty_world)))
     = ["Planning (moved)"]
  /\ exists r,
      filter (fun r => row_id r = "evt-1")
             (db (snd (sync_loop sample_fromisoformat sample_clock strict_engine
                                 [planning; planning_renamed] no_stats empty_world)))
      = [r]
      /\ carries r (planning_columns "Planning (moved)").
Proof.
  split; [apply NoDup_nil; done|]. split; [by vm_compute|].
  assert (Hnd : NoDup (map row_id (db empty_world))) by (apply NoDup_nil; done).
  assert (Ht1 : _transform_event_data sample_fromisoformat planning
                = Ok (planning_transformed "Planning")) by by vm_compute.
  assert (Ht2 : _transform_event_data sample_fromisoformat planning_renamed
                = Ok (planning_transformed "Planning (moved)")) by by vm_compute.
  exact (proj2 (proj2 (sync_keeps_ids_unique sample_fromisoformat sample_clock
                         strict_engine [planning_transformed "Planning"]
                         (Some "token") (Ok (body_of [planning; planning_renamed]))
                         no_stats empty_world planning planning_renamed
                         (planning_transformed "Planning")
                         (planning_transformed "Planning (moved)") "evt-1"
                         Hnd Ht1 Ht2 eq_refl eq_refl))).
Defined.

(** C8 on the sample record and the empty store. *)
Lemma upsert_timestamps_witness :
  tr_id (planning_transformed "Planning") = JStr "evt-1"
  /\ exists r,
      upsert sample_clock strict_engine (planning_transformed "Planning") empty_world
      = (Ok Inserted, {| db := [r]; clock_reads := 2 |})
      /\ row_id r = "evt-1" /\ carries r (planning_columns "Planning")
      /\ row_created_at r = sample_clock 0
      /\ row_updated_at r = sample_clock 1.
Proof.
  split; [reflexivity|].
  exact (upsert_timestamps sample_clock strict_engine (planning_transformed "Planning")
                           empty_world "evt-1" eq_refl).
Defined.

(** C8 as stated fails: with a clock that advances between two readings,
    the row inserted for the sample event has a [created_at] that differs
    from its [updated_at]. *)
Lemma insert_reads_clock_twice :
  exists t r,
    _transform_event_data sample_fromisoformat planning = Ok t
    /\ db (snd (upsert sample_clock strict_engine t empty_world)) = [r]
    /\ row_created_at r = sample_clock 0
    /\ row_updated_at r = sample_clock 1
    /\ row_created_at r <> row_updated_at r.
Proof.
  eexists _, _. split; [by vm_compute|]. split; [by vm_compute|].
  split; [by vm_compute|]. split; [by vm_compute|]. by vm_compute.
Qed.



(** C10 on the sample batch. *)
Lemma sync_stats_balance_witness :
  Forall (fun event => is_dict event = true) [planning; backwards]
  /\ exists stats total last_sync,
      fst (_handle_sync_data sample_fromisoformat sample_clock strict_engine
                             (Some "token") (Ok (body_of [planning; backwards]))
                             empty_world)
      = SyncComplete stats total last_sync
      /\ fetched stats = 2
      /\ fetched stats = inserted stats + updated stats + errors stats.
Proof.
  assert (Hdicts : Forall (fun event => is_dict event = true) [planning; backwards])
    by by repeat constructor.
  split; [exact Hdicts|].
  exact (proj2 (sync_stats_balance sample_fromisoformat sample_clock strict_engine
                  "t" "oken" (Ok (body_of [planning; backwards]))
                  [planning; backwards] empty_world Hdicts)).
Defined.

(** C6 on the sample batch. *)
Lemma sync_idempotent_witness :
  let api := Ok (body_of [planning; backwards]) in
  let first := _handle_sync_data sample_fromisoformat sample_clock strict_engine
                                 (Some "token") api empty_world in
  let second := _handle_sync_data sample_fromisoformat sample_clock strict_engine
                                  (Some "token") api (snd first) in
  Forall (fun t => plain_id (tr_id t)) (accepted sample_fromisoformat (feed_of api))
  /\ inserted_of (fst second) = 0
  /\ content (db (snd second)) = content (db (snd first)).
Proof.
  cbv zeta.
  assert (Hplain : Forall (fun t => plain_id (tr_id t))
                          (accepted sample_fromisoformat
                                    (feed_of (Ok (body_of [planning; backwards]))))).
  { vm_compute. repeat constructor. }
  split; [exact Hplain|].
  destruct (sync_idempotent sample_fromisoformat sample_clock strict_engine
              (Some "token") (Ok (body_of [planning; backwards])) empty_world Hplain)
    as (Hinserted & Hcontent & _).
  split; [exact Hinserted|exact Hcontent].
Defined.

(** ** Insights *)

Lemma float_of_Z_0 : float_of_Z 0 = PrimFloat.zero.
Proof. reflexivity. Qed.

(** A float above zero is not zero. *)
Lemma positive_not_zero (x : float) :
  PrimFloat.ltb (float_of_Z 0) x = true -> PrimFloat.eqb x PrimFloat.zero = false.
Proof.
  rewrite FloatAxioms.ltb_spec, FloatAxioms.eqb_spec, float_of_Z_0.
  change (Prim2SF PrimFloat.zero) with (S754_zero false).
  destruct (Prim2SF x) as [s|s| |s m e]; cbn; try discriminate;
    destruct s; cbn; try discriminate; done.
Qed.

(** Zero hours are no share above 60 percent of a positive total. *)
Lemma zero_share_not_high (total_hours : float) :
  PrimFloat.ltb (float_of_Z 0) total_hours = true ->
  PrimFloat.ltb (float_of_Z 60)
    (PrimFloat.mul (PrimFloat.div (float_of_Z 0) total_hours) (float_of_Z 100)) = false.
Proof.
  rewrite !FloatAxioms.ltb_spec, FloatAxioms.mul_spec, FloatAxioms.div_spec, float_of_Z_0.
  change (Prim2SF PrimFloat.zero) with (S754_zero false).
  set (hundred := Prim2SF (float_of_Z 100)). vm_compute in hundred. subst hundred.
  set (sixty := Prim2SF (float_of_Z 60)). vm_compute in sixty. subst sixty.
  destruct (Prim2SF total_hours) as [s|s| |s m e]; cbn; try discriminate;
    destruct s; cbn; try discriminate; done.
Qed.

(** The condition of the generator compares a count with a string: it
    holds of no row. *)
Lemma generator_condition_false (row : string * Z * float) :
  generator_condition row = false.
Proof. by destruct row as [[meeting_type count] hours]. Qed.

Lemma generator_selects_nothing (breakdown : list (string * Z * float)) :
  filter (fun row => generator_condition row = true) breakdown = [].
Proof.
  induction breakdown as [|row breakdown IH]; [done|].
  rewrite filter_cons_False; [done|]. by rewrite generator_condition_false.
Qed.

Lemma average_meeting_length_value (total_hours : float) (total_meetings : Z) :
  average_meeting_length total_hours total_meetings
  = Ok (if 0 <? total_meetings
        then PyFloat (PrimFloat.div (PrimFloat.mul total_hours (float_of_Z 60))
                                    (float_of_Z total_meetings))
        else PyInt 0).
Proof.
  unfold average_meeting_length, float_truediv_int.
  destruct (Z.ltb_spec 0 total_meetings); [|done].
  destruct (Z.eqb_spec total_meetings 0); [lia|done].
Qed.

Lemma percentage_defined (hours total_hours : float) :
  exists p, percentage hours total_hours = Ok p.
Proof.
  unfold percentage, float_truediv.
  destruct (PrimFloat.ltb (float_of_Z 0) total_hours) eqn:Hpos; [|by eexists].
  rewrite positive_not_zero by done. by eexists.
Qed.

Lemma breakdown_lines_defined (breakdown : list (string * Z * float)) (total_hours : float) :
  exists lines, breakdown_lines breakdown total_hours = Ok lines.
Proof.
  induction breakdown as [|[[meeting_type count] hours] breakdown [lines IH]];
    [by eexists|].
  cbn [breakdown_lines].
  destruct (percentage_defined hours total_hours) as [p ->]. rewrite IH.
  by eexists.
Qed.

(** The recommendations block never fails, and never flags the external
    ratio. *)
Lemma recommendations_defined (breakdown : list (string * Z * float))
    (total_hours : float) (total_meetings : Z) :
  PrimFloat.ltb (float_of_Z 0) total_hours = true ->
  exists recs, recommendations breakdown total_hours total_meetings = Ok recs
               /\ HighExternalRatio ∉ recs.
Proof.
  intros Hpos. unfold recommendations, float_truediv.
  rewrite generator_selects_nothing, positive_not_zero by done.
  cbn [map sum_hours fold_left to_float mbind result_bind].
  rewrite zero_share_not_high by done.
  rewrite average_meeting_length_value. cbn [mbind result_bind mret result_ret].
  eexists. split; [reflexivity|].
  rewrite !elem_of_app, !elem_of_cons, elem_of_nil.
  destruct (PrimFloat.ltb (float_of_Z 20) total_hours);
    destruct (number_gt _ 45);
    rewrite ?elem_of_cons, ?elem_of_nil; intuition discriminate.
Qed.

Lemma window_days (time_period : string) (end_date : Z) :
  let start_date :=
    if String.eqb time_period "week" then end_date - 7 * usec_per_day
    else if String.eqb time_period "month" then end_date - 30 * usec_per_day
    else end_date - 90 * usec_per_day in
  timedelta_days (end_date - start_date) <> 0.
Proof.
  cbv zeta. unfold timedelta_days.
  destruct (String.eqb time_period "week"); [|destruct (String.eqb time_period "month")].
  - replace (end_date - (end_date - 7 * usec_per_day)) with (7 * usec_per_day) by lia.
    by rewrite Z.div_mul.
  - replace (end_date - (end_date - 30 * usec_per_day)) with (30 * usec_per_day) by lia.
    by rewrite Z.div_mul.
  - replace (end_date - (end_date - 90 * usec_per_day)) with (90 * usec_per_day) by lia.
    by rewrite Z.div_mul.
Qed.

(** The report is always produced; its recommendations never hold the
    external-ratio line. *)
Lemma generate_insights_defined (time_period : string) (include_recommendations : bool)
    (end_date : Z) (table : events_table) :
  exists rep,
    generate_insights time_period include_recommendations end_date table = Ok rep
    /\ 0 <= rep_total_meetings rep
    /\ rep_average_meeting_length rep
       = (if 0 <? rep_total_meetings rep
          then PyFloat (PrimFloat.div (PrimFloat.mul (rep_total_hours rep) (float_of_Z 60))
                                      (float_of_Z (rep_total_meetings rep)))
          else PyInt 0)
    /\ (HighExternalRatio ∉ rep_recommendations rep)
    /\ rep_total_meetings rep
       = Z.of_nat (length (window_rows (period_start time_period end_date)
                                       end_date table))
    /\ rep_total_hours rep
       = hours_of (window_rows (period_start time_period end_date) end_date table).
Proof.
  unfold generate_insights.
  pose proof (window_days time_period end_date) as Hdays. cbv zeta in Hdays.
  fold (period_start time_period end_date) in *.
  set (start_date := period_start time_period end_date) in *.
  set (rows := window_rows start_date end_date table).
  unfold float_truediv_int at 1.
  destruct (Z.eqb_spec (timedelta_days (end_date - start_date)) 0); [done|].
  cbn [mbind result_bind]. rewrite average_meeting_length_value.
  cbn [mbind result_bind].
  destruct (breakdown_lines_defined (meeting_breakdown rows) (hours_of rows))
    as [lines ->].
  cbn [mbind result_bind].
  destruct (include_recommendations && PrimFloat.ltb (float_of_Z 0) (hours_of rows))
    eqn:Hrecs.
  - apply andb_true_iff in Hrecs as [_ Hpos].
    destruct (recommendations_defined (meeting_breakdown rows) (hours_of rows)
                (Z.of_nat (length rows)) Hpos) as (recs & -> & Hnot).
    cbn [mbind result_bind mret result_ret]. eexists. split; [reflexivity|].
    cbn [rep_total_meetings rep_total_hours rep_average_meeting_length
         rep_recommendations].
    split; [lia|]. split; [done|]. split; [done|]. split; done.
  - cbn [mbind result_bind mret result_ret]. eexists. split; [reflexivity|].
    cbn [rep_total_meetings rep_total_hours rep_average_meeting_length
         rep_recommendations].
    split; [lia|]. split; [done|]. split; [apply not_elem_of_nil|]. split; done.
Qed.

(** The rows of the window of a report. *)
Lemma window_rows_elem (start_date end_date : Z) (table : events_table) (r : event_row) :
  r ∈ window_rows start_date end_date table
  <-> r ∈ table /\ start_date <= row_start_time r <= end_date
      /\ row_status r = Some "confirmed".
Proof.
  unfold window_rows, in_window. rewrite list_elem_of_filter, !andb_true_iff.
  rewrite !Z.leb_le. unfold text_is. destruct (row_status r) as [status|].
  - rewrite String.eqb_eq. split.
    + intros [[[? ?] ->] ?]. by repeat split.
    + intros (? & [? ?] & [= ->]). by repeat split.
  - split; [by intros [[_ ?] _]|by intros (_ & _ & ?)].
Qed.

(** C9: the report is always produced, without a division by zero. Its
    meetings are the confirmed rows of the table that start within the
    window, its hours are theirs; with no such row its average meeting
    length is the integer 0, and otherwise it is
    [total_hours * 60 / total_meetings]. *)
Theorem average_meeting_length_guarded
    (time_period : option string) (include_recommendations : option bool)
    (end_date : Z) (table : events_table) :
  let start_date := period_start (dict_get time_period "month") end_date in
  let rows := window_rows start_date end_date table in
  exists rep,
    _handle_generate_insights time_period include_recommendations end_date table
    = InsightsReport rep
    /\ (forall r, r ∈ rows
                  <-> r ∈ table /\ start_date <= row_start_time r <= end_date
                      /\ row_status r = Some "confirmed")
    /\ rep_total_meetings rep = Z.of_nat (length rows)
    /\ rep_total_hours rep = hours_of rows
    /\ rep_average_meeting_length rep
       = match rows with
         | [] => PyInt 0
         | _ :: _ =>
             PyFloat (PrimFloat.div (PrimFloat.mul (hours_of rows) (float_of_Z 60))
                                    (float_of_Z (Z.of_nat (length rows))))
         end
    /\ ((rep_total_meetings rep = 0 /\ rep_average_meeting_length rep = PyInt 0)
        \/ (0 < rep_total_meetings rep
            /\ rep_average_meeting_length rep
               = PyFloat (PrimFloat.div
                            (PrimFloat.mul (rep_total_hours rep) (float_of_Z 60))
                            (float_of_Z (rep_total_meetings rep))))).
Proof.
  cbv zeta. unfold _handle_generate_insights.
  destruct (generate_insights_defined (dict_get time_period "month")
              (dict_get include_recommendations true) end_date table)
    as (rep & -> & Hcount & Havg & _ & Hmeetings & Hhours).
  exists rep. split; [done|]. split; [apply window_rows_elem|].
  split; [done|]. split; [done|]. rewrite Havg, Hhours, Hmeetings. split.
  - by destruct (window_rows _ end_date table).
  - destruct (Z.ltb_spec 0 (Z.of_nat (length (window_rows
        (period_start (dict_get time_period "month") end_date) end_date table))));
      [right|left]; split; done || lia.
Qed.

(** C3, evaluated on a store that holds one confirmed external meeting of
    one hour inside the past week: the external meetings make up 100
    percent of the total hours, above 60, and the recommendations hold no
    external-ratio line. The generator that sums the external hours tests
    the count of each breakdown row, not its meeting type, against
    ["external"]. *)
Theorem high_external_ratio_not_flagged :
  exists rep,
    _handle_generate_insights (Some "week") (Some true) (sample_clock 0) [external_hour]
    = InsightsReport rep
    /\ rep_breakdown rep
       = [("external", 1, float_of_Z 1, PyFloat (float_of_Z 100))]
    /\ PrimFloat.ltb (float_of_Z 0) (rep_total_hours rep) = true
    /\ PrimFloat.ltb (float_of_Z 60)
         (external_percentage_spec (meeting_breakdown [external_hour])
                                   (rep_total_hours rep)) = true
    /\ rep_recommendations rep = [LongAverageDuration; ScheduleReview].
Proof.
  eexists. split; [by vm_compute|]. by vm_compute.
Qed.


(** * Further properties *)

(** ** Candidate slots *)

Lemma time_slots_step_sound (fuel : nat) :
  forall s e t, t ∈ time_slots_step fuel s e ->
                exists k, 0 < k /\ t = s + k * interval_minutes 30 /\ t < e.
Proof.
  induction fuel as [|fuel IH]; intros s e t Hin; cbn [time_slots_step] in Hin.
  - by apply elem_of_nil in Hin.
  - destruct (Z.ltb_spec (s + interval_minutes 30) e) as [Hlt|];
      [|by apply elem_of_nil in Hin].
    apply elem_of_cons in Hin as [->|Hin].
    + exists 1. lia.
    + apply IH in Hin as (k & Hk & -> & Hlt'). exists (k + 1). lia.
Qed.

Lemma time_slots_step_complete (fuel : nat) :
  forall s e k, 0 < k -> k <= Z.of_nat fuel -> s + k * interval_minutes 30 < e ->
                s + k * interval_minutes 30 ∈ time_slots_step fuel s e.
Proof.
  induction fuel as [|fuel IH]; intros s e k Hk Hfuel Hlt; [lia|].
  cbn [time_slots_step]. rewrite interval_30_value in *.
  destruct (Z.ltb_spec (s + 1800000000) e); [|lia].
  destruct (decide (k = 1)) as [->|Hne].
  - rewrite Z.mul_1_l. apply elem_of_cons. by left.
  - apply elem_of_cons. right.
    replace (s + k * 1800000000) with (s + 1800000000 + (k - 1) * 1800000000) by lia.
    rewrite <- interval_30_value. apply IH; rewrite ?interval_30_value; lia.
Qed.

(** X1: the candidates are the start of the range and the multiples of 30
    minutes after it that lie before the end of the range, no more and no
    fewer. *)
Theorem time_slots_grid (s e t : Z) :
  t ∈ time_slots s e
  <-> t = s \/ exists k, 0 < k /\ t = s + k * interval_minutes 30 /\ t < e.
Proof.
  unfold time_slots. rewrite elem_of_cons. split.
  - intros [->|Hin]; [by left|]. right. by apply time_slots_step_sound in Hin.
  - intros [->|(k & Hk & -> & Hlt)]; [by left|]. right.
    apply time_slots_step_complete; [done| |done].
    unfold time_slots_rounds. rewrite interval_30_value in *.
    assert (k <= (e - s) / 1800000000) by (apply Z.div_le_lower_bound; lia).
    lia.
Qed.

Lemma time_slots_step_sorted (fuel : nat) :
  forall s e, StronglySorted Z.lt (time_slots_step fuel s e).
Proof.
  induction fuel as [|fuel IH]; intros s e; cbn [time_slots_step]; [constructor|].
  destruct (s + interval_minutes 30 <? e); [|constructor].
  constructor; [apply IH|]. apply Forall_forall. intros t Hin.
  by apply time_slots_step_before_end in Hin as [? _].
Qed.

Lemma StronglySorted_filter {A : Type} (R : A -> A -> Prop) (P : A -> Prop)
    `{!forall x, Decision (P x)} (l : list A) :
  StronglySorted R l -> StronglySorted R (filter P l).
Proof.
  induction 1 as [|x l Hsorted IH Hall]; [constructor|].
  rewrite filter_cons. destruct (decide (P x)); [|done].
  constructor; [done|]. apply Forall_forall. intros y [_ Hy]%list_elem_of_filter.
  rewrite Forall_forall in Hall. by apply Hall.
Qed.

(** X2: the slots come in strictly ascending order of their start, so no
    slot is emitted twice, and every slot ends [duration_minutes] after its
    start. *)
Theorem free_slots_ascending (table : events_table) (s e d : Z) :
  StronglySorted Z.lt (map fst (free_slots table s e d))
  /\ Forall (fun slot => snd slot = fst slot + interval_minutes d)
            (free_slots table s e d).
Proof.
  unfold free_slots. split.
  - rewrite map_map. cbn [fst]. rewrite map_id. apply StronglySorted_filter.
    unfold time_slots. constructor; [apply time_slots_step_sorted|].
    apply Forall_forall. intros t Hin.
    by apply time_slots_step_before_end in Hin as [? _].
  - apply Forall_forall. intros slot Hin.
    apply list_elem_of_In, in_map_iff in Hin as (t & <- & _). done.
Qed.

Lemma text_is_spec (column : option string) (text : string) :
  text_is column text = true <-> column = Some text.
Proof.
  destruct column as [s|]; cbn [text_is]; [|done].
  rewrite String.eqb_eq. split; congruence.
Qed.

Lemma in_busy_times (table : events_table) (s e : Z) (r : event_row) :
  r ∈ table -> row_status r = Some "confirmed" ->
  s <= row_start_time r -> row_end_time r <= e ->
  In (row_start_time r, row_end_time r) (busy_times table s e).
Proof.
  intros Hin Hstatus Hs He. unfold busy_times. apply in_map_iff. exists r.
  split; [done|]. apply list_elem_of_In, list_elem_of_filter. split; [|done].
  rewrite Hstatus. cbn. rewrite andb_true_iff, !Z.leb_le. done.
Qed.

(** X3: no emitted slot intersects a confirmed event that lies inside the
    searched range: the event ends by the start of the slot or starts at or
    after its end. *)
Theorem free_slots_avoid_busy
    (table : events_table) (s e d : Z) (slot : Z * Z) (r : event_row) :
  slot ∈ free_slots table s e d ->
  r ∈ table -> row_status r = Some "confirmed" ->
  s <= row_start_time r -> row_end_time r <= e ->
  row_end_time r <= fst slot \/ snd slot <= row_start_time r.
Proof.
  intros Hslot Hin Hstatus Hs He. unfold free_slots in Hslot.
  apply list_elem_of_In, in_map_iff in Hslot as (t & <- & Ht).
  apply list_elem_of_In, list_elem_of_filter in Ht as [Hsel _].
  unfold slot_selected in Hsel. apply andb_true_iff in Hsel as [Hfree _].
  apply negb_true_iff in Hfree. cbn [fst snd].
  destruct (decide (row_end_time r <= t)) as [|Hafter]; [by left|]. right.
  destruct (decide (t + interval_minutes d <= row_start_time r)) as [|Hbefore]; [done|].
  exfalso. apply not_true_iff_false in Hfree. apply Hfree, existsb_exists.
  exists (row_start_time r, row_end_time r). split; [by apply in_busy_times|].
  unfold overlaps. cbn [fst snd]. rewrite andb_true_iff, !Z.ltb_lt. lia.
Qed.

Lemma free_slots_avoid_busy_witness :
  let wednesday := timestamp 2024 1 17 in
  let table := [wednesday_meeting "evt-5" 10 0 60] in
  (wednesday 9 30, wednesday 10 0) ∈ free_slots table (wednesday 9 0) (wednesday 17 0) 30
  /\ ((wednesday 10 0, wednesday 10 30)
      ∉ free_slots table (wednesday 9 0) (wednesday 17 0) 30)
  /\ (wednesday 11 0 <= wednesday 9 30 \/ wednesday 10 0 <= wednesday 10 0).
Proof.
  cbv zeta.
  assert (Hslot : (timestamp 2024 1 17 9 30, timestamp 2024 1 17 10 0)
                  ∈ free_slots [wednesday_meeting "evt-5" 10 0 60]
                      (timestamp 2024 1 17 9 0) (timestamp 2024 1 17 17 0) 30).
  { apply list_elem_of_In. vm_compute. tauto. }
  split; [exact Hslot|]. split.
  - rewrite list_elem_of_In. vm_compute. intuition discriminate.
  - exact (free_slots_avoid_busy [wednesday_meeting "evt-5" 10 0 60]
             (timestamp 2024 1 17 9 0) (timestamp 2024 1 17 17 0) 30
             (timestamp 2024 1 17 9 30, timestamp 2024 1 17 10 0)
             (wednesday_meeting "evt-5" 10 0 60)
             Hslot
             ltac:(apply list_elem_of_singleton; reflexivity)
             ltac:(reflexivity)
             ltac:(vm_compute; discriminate)
             ltac:(vm_compute; discriminate)).
Defined.

Lemma busy_times_cons (r : event_row) (table : events_table) (s e : Z) :
  busy_times (r :: table) s e
  = if text_is (row_status r) "confirmed" && (s <=? row_start_time r)
       && (row_end_time r <=? e)
    then (row_start_time r, row_end_time r) :: busy_times table s e
    else busy_times table s e.
Proof.
  unfold busy_times. rewrite filter_cons.
  destruct (text_is (row_status r) "confirmed" && (s <=? row_start_time r)
            && (row_end_time r <=? e)) eqn:Hr.
  - by rewrite decide_True.
  - by rewrite decide_False.
Qed.

(** X4: an event that is not confirmed, or that starts before the range or
    ends after it, is left out of the busy set: with or without it the
    search returns the same slots, also the slots the event covers. *)
Theorem free_slots_ignore_outside
    (r : event_row) (table : events_table) (s e d : Z) :
  row_status r <> Some "confirmed" \/ row_start_time r < s \/ e < row_end_time r ->
  free_slots (r :: table) s e d = free_slots table s e d.
Proof.
  intros Hout. unfold free_slots. rewrite busy_times_cons.
  destruct (text_is (row_status r) "confirmed") eqn:Hc; [|done].
  apply text_is_spec in Hc.
  destruct (Z.leb_spec s (row_start_time r)); [|done].
  destruct (Z.leb_spec (row_end_time r) e); [|done].
  exfalso. destruct Hout as [?|[?|?]]; [done|lia|lia].
Qed.

Lemma free_slots_ignore_outside_witness :
  let wednesday := timestamp 2024 1 17 in
  let late := wednesday_meeting "evt-6" 16 0 90 in
  wednesday 17 0 < row_end_time late
  /\ free_slots [late] (wednesday 9 0) (wednesday 17 0) 30
     = free_slots [] (wednesday 9 0) (wednesday 17 0) 30
  /\ (wednesday 16 30, wednesday 17 0)
     ∈ free_slots [late] (wednesday 9 0) (wednesday 17 0) 30.
Proof.
  cbv zeta. split; [by vm_compute|].
  pose proof (free_slots_ignore_outside (wednesday_meeting "evt-6" 16 0 90) []
                (timestamp 2024 1 17 9 0) (timestamp 2024 1 17 17 0) 30
                ltac:(right; right; by vm_compute)) as Heq.
  split; [exact Heq|]. rewrite Heq. apply list_elem_of_In. vm_compute. tauto.
Defined.

(** X5: more stored events never add a slot: when every row of one table
    is a row of another, every slot found with the larger table is found
    with the smaller one. *)
Theorem free_slots_antitone (table table' : events_table) (s e d : Z) (slot : Z * Z) :
  table ⊆ table' ->
  slot ∈ free_slots table' s e d -> slot ∈ free_slots table s e d.
Proof.
  intros Hsub. unfold free_slots. rewrite !list_elem_of_In, !in_map_iff.
  intros (t & <- & Ht). exists t. split; [done|].
  apply list_elem_of_In, list_elem_of_filter in Ht as [Hsel Ht].
  apply list_elem_of_In, list_elem_of_filter. split; [|done].
  unfold slot_selected in *. apply andb_true_iff in Hsel as [Hfree Hbusiness].
  rewrite Hbusiness, andb_true_r. apply negb_true_iff, not_true_iff_false.
  apply negb_true_iff, not_true_iff_false in Hfree.
  intros Hex. apply Hfree. apply existsb_exists in Hex as (b & Hb & Hov).
  apply existsb_exists. exists b. split; [|done].
  unfold busy_times in *. apply in_map_iff in Hb as (r & <- & Hr).
  apply in_map_iff. exists r. split; [done|].
  apply list_elem_of_In, list_elem_of_filter in Hr as [Hr Hin].
  apply list_elem_of_In, list_elem_of_filter. split; [done|]. by apply Hsub.
Qed.

Lemma free_slots_antitone_witness :
  let wednesday := timestamp 2024 1 17 in
  let slot := (wednesday 9 0, wednesday 9 30) in
  [] ⊆ [wednesday_meeting "evt-5" 10 0 60]
  /\ slot ∈ free_slots [wednesday_meeting "evt-5" 10 0 60]
                       (wednesday 9 0) (wednesday 17 0) 30
  /\ slot ∈ free_slots [] (wednesday 9 0) (wednesday 17 0) 30.
Proof.
  cbv zeta.
  assert (Hsub : ([] : events_table) ⊆ [wednesday_meeting "evt-5" 10 0 60]).
  { intros r Hr. by apply elem_of_nil in Hr. }
  assert (Hslot : (timestamp 2024 1 17 9 0, timestamp 2024 1 17 9 30)
                  ∈ free_slots [wednesday_meeting "evt-5" 10 0 60]
                      (timestamp 2024 1 17 9 0) (timestamp 2024 1 17 17 0) 30).
  { apply list_elem_of_In. vm_compute. tauto. }
  split; [exact Hsub|]. split; [exact Hslot|].
  exact (free_slots_antitone [] [wednesday_meeting "evt-5" 10 0 60] _ _ _ _ Hsub Hslot).
Defined.

(** ** The store under a sync *)

Section StoreUnderSync.

Variable fromisoformat : string -> result datetime.
Variable clock : nat -> Z.
Variable duckdb : engine.

(** X6: the row count a sync reports is the row count before the sync plus
    the number of inserts it reports: a sync deletes nothing and only its
    inserts add rows. A sync with a token whose response lists objects
    does report. *)
Theorem sync_total_is_count_plus_inserted
    (token : option string) (api_response : result json)
    (c : ascii) (text : string) (feed : list json) (w : world) :
  Forall (fun event => is_dict event = true) feed ->
  match fst (_handle_sync_data fromisoformat clock duckdb token api_response w) with
  | SyncComplete stats total_events _ =>
      total_events = count_events (db w) + inserted stats
      /\ total_events
         = count_events
             (db (snd (_handle_sync_data fromisoformat clock duckdb token
                                         api_response w)))
  | SyncError _ => True
  end
  /\ match fst (_handle_sync_data fromisoformat clock duckdb (Some (String c text))
                                  (Ok (body_of feed)) w) with
     | SyncComplete _ _ _ => True
     | SyncError _ => False
     end.
Proof.
  intros Hdicts. split.
  - destruct (fst (_handle_sync_data _ _ _ token api_response w))
      as [stats total last_sync|] eqn:Hanswer; [|done].
    apply handle_sync_data_complete in Hanswer as ((c' & text' & ->) & Hloop & ->).
    rewrite handle_sync_data_db, <- sync_loop_world
      with (stats := {| fetched := Z.of_nat (length (feed_of api_response));
                        updated := 0; inserted := 0; errors := 0 |}).
    split; [|done]. apply sync_loop_counts in Hloop as (_ & _ & Hlen).
    unfold count_events. rewrite Hlen. cbn [db inserted]. lia.
  - by destruct (handle_sync_data_reports fromisoformat clock duckdb c text feed w Hdicts)
      as (stats & total & last_sync & ->).
Qed.

(** X7: a sync keeps every stored row at its position with its id and its
    [created_at]; a row under whose id no accepted record of the feed can
    be written is left exactly as it was. *)
Theorem sync_keeps_rows
    (token : option string) (api_response : result json) (w : world)
    (i : nat) (r : event_row) :
  db w !! i = Some r ->
  exists r',
    db (snd (_handle_sync_data fromisoformat clock duckdb token api_response w)) !! i
    = Some r'
    /\ row_id r' = row_id r
    /\ row_created_at r' = row_created_at r
    /\ (Forall (fun t => ~ may_write duckdb t (row_id r))
               (accepted fromisoformat (feed_of api_response)) ->
        r' = r).
Proof.
  intros Hi. rewrite handle_sync_data_db.
  destruct token as [[|c token]|]; [by exists r| |by exists r].
  by apply upsert_all_keeps_row.
Qed.

(** X8: the last record of a feed that the store can take under a given
    id wins: after the sync the store holds a row of that id carrying its
    columns. *)
Theorem sync_last_record_wins
    (c : ascii) (token : string) (api_response : result json) (w : world)
    (before after : list transformed) (t : transformed) (s : string) (cols : columns) :
  accepted fromisoformat (feed_of api_response) = (before ++ t :: after)%list ->
  tr_id t = JStr s ->
  bind_columns duckdb t = Ok cols ->
  Forall (fun t' => ~ may_write duckdb t' s) after ->
  exists r,
    r ∈ db (snd (_handle_sync_data fromisoformat clock duckdb (Some (String c token))
                                   api_response w))
    /\ row_id r = s /\ carries r cols.
Proof.
  intros Hfeed Hid Hb Hlast. rewrite handle_sync_data_db, Hfeed, upsert_all_app.
  rewrite upsert_all_cons. set (w0 := upsert_all clock duckdb before _).
  destruct (upsert_leaves_row clock duckdb t w0 s cols Hid Hb)
    as (i & r & Hi & Hrid & Hcarries).
  destruct (upsert_all_keeps_row clock duckdb after _ i r Hi)
    as (r' & Hi' & _ & _ & Hsame).
  rewrite Hsame in Hi' by by rewrite Hrid.
  exists r. split; [|done]. apply list_elem_of_lookup. by exists i.
Qed.

(** X9: a sync without a token, or whose fetch fails, or whose response
    is not an object with a list, a str or an object under [events],
    answers with the error and leaves the table as it was. *)
Theorem sync_failure_keeps_table
    (token : option string) (api_response : result json) (w : world) :
  token = None \/ token = Some "" \/ (exists e, api_response = Raise e)
  \/ (exists body e, api_response = Ok body /\ fetched_events body = Raise e) ->
  (exists e, fst (_handle_sync_data fromisoformat clock duckdb token api_response w)
             = SyncError e)
  /\ db (snd (_handle_sync_data fromisoformat clock duckdb token api_response w))
     = db w.
Proof.
  intros [->|[->|Hfetch]]; [split; [by eexists|done]..|].
  assert (Hraise : exists e, api_response ≫= fetched_events = Raise e).
  { destruct Hfetch as [[e ->]|(body & e & -> & Hbody)]; by exists e. }
  destruct Hraise as [e Hraise]. unfold _handle_sync_data, now.
  destruct token as [[|c token]|]; [split; by eexists || done| |split; by eexists || done].
  rewrite Hraise. split; by eexists || done.
Qed.

(** X10: an upsert of a record whose id is a str fails exactly when the
    engine refuses one of its values, never on the primary key; when it
    succeeds a lookup of the id finds it, when it fails the table is as it
    was, and the lookup of any other id answers as before. *)
Theorem upsert_then_lookup (t : transformed) (w : world) (s key : string) :
  tr_id t = JStr s ->
  is_ok (fst (upsert clock duckdb t w)) = is_ok (bind_columns duckdb t)
  /\ match bind_columns duckdb t with
     | Ok _ => select_id duckdb (JStr s) (db (snd (upsert clock duckdb t w)))
               = Ok (Some s)
     | Raise _ => db (snd (upsert clock duckdb t w)) = db w
     end
  /\ (key <> s ->
      select_id duckdb (JStr key) (db (snd (upsert clock duckdb t w)))
      = select_id duckdb (JStr key) (db w)).
Proof.
  clear fromisoformat. intros Hid. split; [|split].
  - rewrite (upsert_str _ _ _ _ _ Hid).
    by destruct (bool_decide _), (bind_columns duckdb t).
  - destruct (bind_columns duckdb t) as [cols|e] eqn:Hb.
    + rewrite select_id_str, bool_decide_eq_true_2; [done|].
      apply upsert_stores_id; [done|]. by rewrite Hb.
    + rewrite (upsert_str _ _ _ _ _ Hid), Hb. by destruct (bool_decide _).
  - intros Hne. rewrite !select_id_str. f_equal.
    destruct (upsert_ids clock duckdb t w) as [-> |(id & _ & Hcast & ->)]; [done|].
    rewrite Hid in Hcast. injection Hcast as <-.
    destruct (bool_decide_reflect (key ∈ map row_id (db w))) as [Hin|Hnotin].
    + rewrite bool_decide_eq_true_2; [done|]. apply elem_of_app. by left.
    + rewrite bool_decide_eq_false_2; [done|].
      rewrite elem_of_app, list_elem_of_singleton. tauto.
Qed.

End StoreUnderSync.

Lemma sync_total_is_count_plus_inserted_witness :
  let w := {| db := [external_hour]; clock_reads := 0 |} in
  Forall (fun event => is_dict event = true) [planning; backwards]
  /\ match fst (_handle_sync_data sample_fromisoformat sample_clock strict_engine
                                  (Some "token") (Ok (body_of [planning; backwards]))
                                  w) with
     | SyncComplete stats total_events _ => total_events = 1 + inserted stats
     | SyncError _ => False
     end.
Proof.
  cbv zeta.
  assert (Hdicts : Forall (fun event => is_dict event = true) [planning; backwards])
    by by repeat constructor.
  split; [exact Hdicts|].
  destruct (sync_total_is_count_plus_inserted sample_fromisoformat sample_clock
              strict_engine (Some "token") (Ok (body_of [planning; backwards]))
              "t" "oken" [planning; backwards]
              {| db := [external_hour]; clock_reads := 0 |} Hdicts)
    as [Hcount Hreports].
  destruct (fst _); [exact (proj1 Hcount)|exact Hreports].
Defined.

Lemma sync_keeps_rows_witness :
  let w := {| db := [external_hour]; clock_reads := 0 |} in
  db w !! 0%nat = Some external_hour
  /\ db (snd (_handle_sync_data sample_fromisoformat sample_clock strict_engine
                                (Some "token") (Ok (body_of [planning; backwards]))
                                w)) !! 0%nat
     = Some external_hour.
Proof.
  cbv zeta. split; [reflexivity|].
  destruct (sync_keeps_rows sample_fromisoformat sample_clock strict_engine
              (Some "token") (Ok (body_of [planning; backwards]))
              {| db := [external_hour]; clock_reads := 0 |} 0 external_hour eq_refl)
    as (r' & Hr' & _ & _ & Hsame).
  rewrite Hr'. f_equal. apply Hsame.
  repeat constructor; intros [Hsel _]; by vm_compute in Hsel.
Defined.

Lemma sync_last_record_wins_witness :
  accepted sample_fromisoformat (feed_of (Ok (body_of [planning; planning_renamed])))
  = ([planning_transformed "Planning"] ++ planning_transformed "Planning (moved)" :: [])%list
  /\ exists r,
      r ∈ db (snd (_handle_sync_data sample_fromisoformat sample_clock strict_engine
                                     (Some "token")
                                     (Ok (body_of [planning; planning_renamed]))
                                     empty_world))
      /\ row_title r = "Planning (moved)".
Proof.
  assert (Hfeed : accepted sample_fromisoformat
                           (feed_of (Ok (body_of [planning; planning_renamed])))
                  = ([planning_transformed "Planning"]
                     ++ planning_transformed "Planning (moved)" :: [])%list)
    by by vm_compute.
  split; [exact Hfeed|].
  destruct (sync_last_record_wins sample_fromisoformat sample_clock strict_engine
              "t" "oken" (Ok (body_of [planning; planning_renamed])) empty_world
              [planning_transformed "Planning"] []
              (planning_transformed "Planning (moved)") "evt-1"
              (planning_columns "Planning (moved)") Hfeed eq_refl eq_refl
              (Forall_nil_2 _))
    as (r & Hr & _ & Hcarries).
  exists r. split; [exact Hr|]. by destruct Hcarries as [-> _].
Defined.

Lemma sync_failure_keeps_table_witness :
  let w := {| db := [external_hour]; clock_reads := 0 |} in
  (None : option string) = None
  /\ db (snd (_handle_sync_data sample_fromisoformat sample_clock strict_engine None
                                (Ok (body_of [planning])) w)) = [external_hour].
Proof.
  cbv zeta. split; [reflexivity|].
  exact (proj2 (sync_failure_keeps_table sample_fromisoformat sample_clock strict_engine
                  None (Ok (body_of [planning]))
                  {| db := [external_hour]; clock_reads := 0 |}
                  (or_introl eq_refl))).
Defined.

(** X10 on the sample record, and on the record of the same id whose
    number of minutes the [INTEGER] column refuses. *)
Lemma upsert_then_lookup_witness :
  tr_id (planning_transformed "Planning") = JStr "evt-1"
  /\ is_ok (fst (upsert sample_clock strict_engine (planning_transformed "Planning")
                        empty_world)) = true
  /\ (exists t, _transform_event_data sample_fromisoformat endless = Ok t
                /\ tr_duration_minutes t = 4194949859
                /\ is_ok (fst (upsert sample_clock strict_engine t empty_world)) = false).
Proof.
  split; [reflexivity|]. split.
  - by rewrite (proj1 (upsert_then_lookup sample_clock strict_engine
                         (planning_transformed "Planning") empty_world
                         "evt-1" "evt-2" eq_refl)).
  - eexists. split; [by vm_compute|]. split; by vm_compute.
Defined.

(** ** The schema under a sync *)

Lemma classify_meeting_known (attendees : json) (company_domain meeting_type : string) :
  classify_meeting attendees company_domain = Ok meeting_type ->
  known_meeting_type meeting_type.
Proof.
  unfold classify_meeting, known_meeting_type.
  destruct (json_iter attendees) as [items|]; result_simpl; [|done].
  destruct (external_domains items) as [domains|]; result_simpl; [|done].
  destruct (bool_decide _); [intros [= <-]; by left|].
  destruct (json_len attendees) as [n|]; result_simpl; [|done].
  intros [= <-]. destruct (1 <? n); [right; by left|right; by right].
Qed.

Lemma json_len_nonneg (v : json) (n : Z) : json_len v = Ok n -> 0 <= n.
Proof. destruct v; try done; intros [= <-]; lia. Qed.

(** The rows the schema describes: a meeting type out of the three and a
    count of attendees that is not negative. *)
Lemma transform_ok_schema (fromisoformat : string -> result datetime)
    (event : json) (t : transformed) :
  _transform_event_data fromisoformat event = Ok t ->
  known_meeting_type (tr_meeting_type t) /\ 0 <= tr_attendees_count t.
Proof.
  intros Ht. apply transform_ok_inv in Ht
    as (? & ? & ? & ? & attendees & ? & _ & _ & _ & _ & _ & _ & _ & _ & Hc & Hn & _).
  split; [by eapply classify_meeting_known|by eapply json_len_nonneg].
Qed.

(** The columns the engine takes over as they are. *)
Lemma bind_columns_ok (duckdb : engine) (t : transformed) (cols : columns) :
  bind_columns duckdb t = Ok cols ->
  col_meeting_type cols = tr_meeting_type t
  /\ col_attendees_count cols = tr_attendees_count t
  /\ col_duration_minutes cols = tr_duration_minutes t
  /\ int32 (col_duration_minutes cols) = true
  /\ int32 (col_attendees_count cols) = true
  /\ col_start_time cols = timestamp_of_datetime (tr_start_time t)
  /\ col_end_time cols = timestamp_of_datetime (tr_end_time t).
Proof.
  unfold bind_columns.
  destruct (to_varchar duckdb (tr_title t)) as [title|]; result_simpl; [|done].
  destruct (to_varchar duckdb (tr_description t)); result_simpl; [|done].
  unfold to_integer.
  destruct (int32 (tr_duration_minutes t)) eqn:Hd; result_simpl; [|done].
  destruct (int32 (tr_attendees_count t)) eqn:Ha; result_simpl; [|done].
  destruct (to_varchar duckdb (tr_creator_email t)); result_simpl; [|done].
  destruct (to_varchar duckdb (tr_status t)); result_simpl; [|done].
  destruct (to_varchar duckdb (tr_location t)); result_simpl; [|done].
  destruct (to_boolean duckdb (tr_is_recurring t)); result_simpl; [|done].
  destruct title; result_simpl; [|done]. by intros [= <-].
Qed.

Section SchemaUnderSync.

Variable fromisoformat : string -> result datetime.
Variable clock : nat -> Z.
Variable duckdb : engine.

Lemma upsert_keeps_schema (P : event_row -> Prop) (t : transformed) (w : world) :
  (forall cols id c u, bind_columns duckdb t = Ok cols -> P (new_row id cols c u)) ->
  (forall cols r u, bind_columns duckdb t = Ok cols -> P (apply_update cols u r)) ->
  Forall P (db w) -> Forall P (db (snd (upsert clock duckdb t w))).
Proof.
  intros Hnew Hupdate Hall.
  destruct (upsert_cases clock duckdb t w)
    as [(e & _ & ->)|[(_ & selected & _ & ->)|(_ & id & cols & _ & Hb & _ & ->)]].
  - done.
  - apply Forall_forall. intros r' Hin.
    apply list_elem_of_In, in_map_iff in Hin as (r & <- & Hin). unfold updated_row.
    rewrite Forall_forall in Hall. apply list_elem_of_In in Hin.
    destruct (selected (row_id r)); [|by apply Hall].
    destruct (bind_columns duckdb t) eqn:Hb; [by apply Hupdate|by apply Hall].
  - apply Forall_app. split; [done|]. by apply Forall_singleton, Hnew.
Qed.

(** X11: a sync keeps the store within the schema: when every stored row
    has one of the three meeting types and a non-negative count of
    attendees, so has every row after the sync. *)
Theorem sync_keeps_schema
    (token : option string) (api_response : result json) (w : world) :
  Forall (fun r => known_meeting_type (row_meeting_type r)
                   /\ 0 <= row_attendees_count r) (db w) ->
  Forall (fun r => known_meeting_type (row_meeting_type r)
                   /\ 0 <= row_attendees_count r)
         (db (snd (_handle_sync_data fromisoformat clock duckdb token api_response w))).
Proof.
  intros Hall. rewrite handle_sync_data_db.
  destruct token as [[|c token]|]; [done| |done].
  set (w1 := {| db := db w; clock_reads := _ |}).
  assert (Hw1 : Forall (fun r => known_meeting_type (row_meeting_type r)
                                 /\ 0 <= row_attendees_count r) (db w1)) by done.
  clearbody w1. clear Hall.
  induction (feed_of api_response) as [|event feed IH] in w1, Hw1 |- *; [done|].
  cbn [accepted].
  destruct (_transform_event_data fromisoformat event) as [t|] eqn:Ht.
  - rewrite upsert_all_cons. apply transform_ok_schema in Ht as [Hknown Hcount].
    apply IH, upsert_keeps_schema; [| |done].
    + intros cols id created u (Hm & Ha & _)%bind_columns_ok.
      cbn [new_row row_meeting_type row_attendees_count]. by rewrite Hm, Ha.
    + intros cols r u (Hm & Ha & _)%bind_columns_ok.
      cbn [apply_update row_meeting_type row_attendees_count]. by rewrite Hm, Ha.
  - destruct (is_dict event); [by apply IH|done].
Qed.

End SchemaUnderSync.

Lemma sync_keeps_schema_witness :
  let schema := fun r => known_meeting_type (row_meeting_type r)
                         /\ 0 <= row_attendees_count r in
  Forall schema [external_hour]
  /\ Forall schema
       (db (snd (_handle_sync_data sample_fromisoformat sample_clock strict_engine
                                   (Some "token") (Ok (body_of [planning; backwards]))
                                   {| db := [external_hour]; clock_reads := 0 |}))).
Proof.
  cbv zeta.
  assert (H0 : Forall (fun r => known_meeting_type (row_meeting_type r)
                                /\ 0 <= row_attendees_count r) [external_hour]).
  { apply Forall_singleton. split; [by left|by vm_compute]. }
  split; [exact H0|].
  exact (sync_keeps_schema sample_fromisoformat sample_clock strict_engine (Some "token")
           (Ok (body_of [planning; backwards]))
           {| db := [external_hour]; clock_reads := 0 |} H0).
Defined.

(** ** Refusals *)

(** The engine refuses a number of minutes outside the range of an
    [INTEGER] and a null title. *)
Lemma bind_columns_refuses (duckdb : engine) (t : transformed) :
  int32 (tr_duration_minutes t) = false \/ tr_title t = JNull ->
  is_ok (bind_columns duckdb t) = false.
Proof.
  intros Hrefused. destruct (bind_columns duckdb t) as [cols|] eqn:Hb; [|done].
  exfalso. revert Hb. unfold bind_columns.
  destruct (to_varchar duckdb (tr_title t)) as [title|] eqn:Htitle; result_simpl; [|done].
  destruct (to_varchar duckdb (tr_description t)); result_simpl; [|done].
  unfold to_integer.
  destruct (int32 (tr_duration_minutes t)) eqn:Hd; result_simpl; [|done].
  destruct (int32 (tr_attendees_count t)); result_simpl; [|done].
  destruct (to_varchar duckdb (tr_creator_email t)); result_simpl; [|done].
  destruct (to_varchar duckdb (tr_status t)); result_simpl; [|done].
  destruct (to_varchar duckdb (tr_location t)); result_simpl; [|done].
  destruct (to_boolean duckdb (tr_is_recurring t)); result_simpl; [|done].
  destruct Hrefused as [?|Hnull]; [done|].
  rewrite Hnull in Htitle. by injection Htitle as <-.
Qed.

Section Refusals.

Variable fromisoformat : string -> result datetime.
Variable clock : nat -> Z.
Variable duckdb : engine.

(** X28: a record that the transformer accepts and the table refuses,
    for a number of minutes beyond 32 bits or for a null title, is counted
    as an error and changes no row, be its id new or stored. *)
Theorem sync_counts_refused_values
    (event : json) (t : transformed) (s : string) (stats : sync_stats) (w : world) :
  _transform_event_data fromisoformat event = Ok t ->
  tr_id t = JStr s ->
  int32 (tr_duration_minutes t) = false \/ tr_title t = JNull ->
  fst (sync_step fromisoformat clock duckdb stats w event)
  = Ok {| fetched := fetched stats; updated := updated stats;
          inserted := inserted stats; errors := errors stats + 1 |}
  /\ db (snd (sync_step fromisoformat clock duckdb stats w event)) = db w.
Proof.
  intros Ht Hid Hrefused. rewrite sync_step_cases, Ht, (upsert_str _ _ _ _ _ Hid).
  apply (bind_columns_refuses duckdb) in Hrefused.
  destruct (bind_columns duckdb t); [done|]. by destruct (bool_decide _).
Qed.

(** The loop over objects followed by a value that is no object. *)
Lemma sync_loop_stops (before after : list json) (v : json) :
  Forall (fun event => is_dict event = true) before -> is_dict v = false ->
  forall stats w,
    sync_loop fromisoformat clock duckdb (before ++ v :: after) stats w
    = (Raise AttributeError, snd (sync_loop fromisoformat clock duckdb before stats w)).
Proof.
  intros Hdicts Hv. induction Hdicts as [|event before Hdict _ IH]; intros stats w.
  - cbn [app sync_loop snd]. rewrite sync_step_cases.
    destruct (_transform_event_data fromisoformat v) as [t|] eqn:Ht.
    + apply transform_ok_dict in Ht. congruence.
    + by rewrite Hv.
  - cbn [app sync_loop]. rewrite sync_step_cases, Hdict.
    destruct (_transform_event_data fromisoformat event); apply IH.
Qed.

(** X29: when an element of the events fetched is not an object, the
    handler of the error of that element raises itself and the sync ends
    there: it answers with that exception and no statistics, the records
    before the element are stored as they are without it, and the records
    after it are not looked at. *)
Theorem sync_stops_at_non_object
    (c : ascii) (token : string) (before after : list json) (v : json) (w : world) :
  Forall (fun event => is_dict event = true) before ->
  is_dict v = false ->
  fst (_handle_sync_data fromisoformat clock duckdb (Some (String c token))
                         (Ok (body_of (before ++ v :: after))) w)
  = SyncError AttributeError
  /\ db (snd (_handle_sync_data fromisoformat clock duckdb (Some (String c token))
                                (Ok (body_of (before ++ v :: after))) w))
     = db (snd (_handle_sync_data fromisoformat clock duckdb (Some (String c token))
                                  (Ok (body_of before)) w)).
Proof.
  intros Hdicts Hv. split.
  - unfold _handle_sync_data, now. cbn [db clock_reads].
    change (Ok (body_of ?feed) ≫= fetched_events) with (fetched_events (body_of feed)).
    rewrite fetched_events_body. cbn [updated inserted errors].
    by rewrite (sync_loop_stops _ _ _ Hdicts Hv).
  - rewrite !handle_sync_data_db. unfold feed_of.
    change (Ok (body_of ?feed) ≫= fetched_events) with (fetched_events (body_of feed)).
    rewrite !fetched_events_body.
    rewrite <- !sync_loop_world with (stats := no_stats).
    by rewrite (sync_loop_stops _ _ _ Hdicts Hv).
Qed.

End Refusals.

(** X28 on the record that never ends, when its id is stored. *)
Lemma sync_counts_refused_values_witness :
  let w := snd (sync_step sample_fromisoformat sample_clock strict_engine no_stats
                          empty_world planning) in
  map row_title (db w) = ["Planning"]
  /\ (exists t, _transform_event_data sample_fromisoformat endless = Ok t
                /\ tr_id t = JStr "evt-1"
                /\ int32 (tr_duration_minutes t) = false)
  /\ fst (sync_step sample_fromisoformat sample_clock strict_engine no_stats w endless)
     = Ok {| fetched := 0; updated := 0; inserted := 0; errors := 1 |}
  /\ db (snd (sync_step sample_fromisoformat sample_clock strict_engine no_stats w endless))
     = db w.
Proof.
  cbv zeta. split; [by vm_compute|].
  assert (Ht : exists t, _transform_event_data sample_fromisoformat endless = Ok t
                         /\ tr_id t = JStr "evt-1"
                         /\ int32 (tr_duration_minutes t) = false).
  { eexists. split; [by vm_compute|]. split; by vm_compute. }
  split; [exact Ht|]. destruct Ht as (t & Ht & Hid & Hrange).
  exact (sync_counts_refused_values sample_fromisoformat sample_clock strict_engine
           endless t "evt-1" no_stats _ Ht Hid (or_introl Hrange)).
Defined.

(** X29 on a feed with a null between two records. *)
Lemma sync_stops_at_non_object_witness :
  Forall (fun event => is_dict event = true) [planning]
  /\ fst (_handle_sync_data sample_fromisoformat sample_clock strict_engine
                            (Some "token") (Ok (body_of [planning; JNull; backwards]))
                            empty_world)
     = SyncError AttributeError
  /\ map row_id
         (db (snd (_handle_sync_data sample_fromisoformat sample_clock strict_engine
                                     (Some "token")
                                     (Ok (body_of [planning; JNull; backwards]))
                                     empty_world)))
     = ["evt-1"].
Proof.
  assert (Hdicts : Forall (fun event => is_dict event = true) [planning])
    by by repeat constructor.
  split; [exact Hdicts|].
  destruct (sync_stops_at_non_object sample_fromisoformat sample_clock strict_engine
              "t" "oken" [planning] [backwards] JNull empty_world Hdicts eq_refl)
    as [Hanswer Hdb].
  split; [exact Hanswer|].
  change ([planning; JNull; backwards]) with ([planning] ++ JNull :: [backwards])%list.
  rewrite Hdb. by vm_compute.
Defined.

(** ** The transformer *)

Lemma replace_Z_app (s1 s2 : string) :
  replace_Z (s1 ++ s2) = replace_Z s1 ++ replace_Z s2.
Proof.
  induction s1 as [|c s1 IH]; [done|].
  change (String c s1 ++ s2) with (String c (s1 ++ s2)). cbn [replace_Z].
  rewrite IH. by destruct (Ascii.eqb c "Z").
Qed.

Lemma replace_Z_fixed (s : string) :
  contains_char "Z" s = false -> replace_Z s = s.
Proof.
  induction s as [|c s IH]; [done|]. cbn [contains_char replace_Z].
  intros [Hc Hs]%orb_false_iff. rewrite Hc. by rewrite IH.
Qed.

Lemma contains_char_app (c : ascii) (s1 s2 : string) :
  contains_char c (s1 ++ s2) = contains_char c s1 || contains_char c s2.
Proof.
  induction s1 as [|c1 s1 IH]; [done|].
  change (String c1 s1 ++ s2) with (String c1 (s1 ++ s2)). cbn [contains_char].
  by rewrite IH, orb_assoc.
Qed.

Lemma dict_item_required_only (key : string) (entries : list (string * json)) :
  dict_item key (required_only entries)
  = if load_bearing key then dict_item key entries else None.
Proof.
  unfold required_only. induction entries as [|[k v] entries IH].
  - by destruct (load_bearing key).
  - rewrite filter_cons. cbn [fst dict_item].
    destruct (decide (load_bearing k = true)) as [Hk|Hk].
    + cbn [dict_item]. destruct (String.eqb_spec k key) as [->|Hne].
      * by rewrite Hk.
      * exact IH.
    + rewrite IH. destruct (String.eqb_spec k key) as [->|Hne]; [|done].
      by destruct (load_bearing key).
Qed.

Section Transformer.

Variable fromisoformat : string -> result datetime.

(** X12: of the keys of a raw event, only [id], [start_time], [end_time],
    [attendees] and [creator] can make the transformer fail: with every
    other key removed it fails with the same exception or succeeds with the
    same id, timestamps, duration, meeting type, count of attendees and
    creator, and then fills in the defaults [No title], the empty
    description and location, [confirmed] and not recurring. *)
Theorem transform_load_bearing_keys (entries : list (string * json)) :
  match _transform_event_data fromisoformat (JDict entries),
        _transform_event_data fromisoformat (JDict (required_only entries)) with
  | Ok t, Ok t' =>
      tr_id t' = tr_id t
      /\ tr_start_time t' = tr_start_time t
      /\ tr_end_time t' = tr_end_time t
      /\ tr_duration_minutes t' = tr_duration_minutes t
      /\ tr_attendees_count t' = tr_attendees_count t
      /\ tr_meeting_type t' = tr_meeting_type t
      /\ tr_creator_email t' = tr_creator_email t
      /\ tr_title t' = JStr "No title" /\ tr_description t' = JStr ""
      /\ tr_status t' = JStr "confirmed" /\ tr_location t' = JStr ""
      /\ tr_is_recurring t' = JBool false
  | Raise e, Raise e' => e' = e
  | _, _ => False
  end.
Proof.
  unfold _transform_event_data. cbn [json_getitem json_get].
  rewrite !dict_item_required_only.
  cbn [load_bearing String.eqb Ascii.eqb Bool.eqb orb dict_get].
  destruct (getitem "start_time" (dict_item "start_time" entries)) as [start_raw|];
    result_simpl; [|done].
  destruct (json_replace_Z start_raw) as [start_text|]; result_simpl; [|done].
  destruct (fromisoformat start_text) as [start_time|]; result_simpl; [|done].
  destruct (getitem "end_time" (dict_item "end_time" entries)) as [end_raw|];
    result_simpl; [|done].
  destruct (json_replace_Z end_raw) as [end_text|]; result_simpl; [|done].
  destruct (fromisoformat end_text) as [end_time|]; result_simpl; [|done].
  destruct (datetime_sub end_time start_time) as [delta|]; result_simpl; [|done].
  destruct (int_of_float _) as [duration|]; result_simpl; [|done].
  destruct (classify_meeting _ _) as [meeting_type|]; result_simpl; [|done].
  destruct (getitem "id" (dict_item "id" entries)) as [id|]; result_simpl; [|done].
  destruct (json_len _) as [n|]; result_simpl; [|done].
  destruct (json_get (dict_get (dict_item "creator" entries) _) _ _) as [creator_email|];
    result_simpl; [|done].
  repeat split.
Qed.

(** X13: a record whose start has a UTC offset while its end has none, or
    the reverse, is refused with a [TypeError]: the two cannot be
    subtracted. *)
Theorem transform_mixed_awareness_refused
    (event : json) (start_raw end_raw : string) (start_time end_time : datetime) :
  json_getitem event "start_time" = Ok (JStr start_raw) ->
  json_getitem event "end_time" = Ok (JStr end_raw) ->
  fromisoformat (replace_Z start_raw) = Ok start_time ->
  fromisoformat (replace_Z end_raw) = Ok end_time ->
  (dt_utcoffset start_time = None <-> dt_utcoffset end_time <> None) ->
  _transform_event_data fromisoformat event = Raise TypeError.
Proof.
  intros Hs He Hps Hpe Hmixed. unfold _transform_event_data.
  rewrite Hs. cbn [json_replace_Z mbind mret result_bind result_ret].
  rewrite Hps. result_simpl.
  rewrite He. cbn [json_replace_Z mbind mret result_bind result_ret].
  rewrite Hpe. result_simpl.
  unfold datetime_sub.
  destruct (dt_utcoffset start_time), (dt_utcoffset end_time); result_simpl; try done.
  - exfalso. destruct Hmixed as [_ H]. by specialize (H ltac:(done)).
  - exfalso. destruct Hmixed as [H _]. by specialize (H eq_refl).
Qed.

(** X14: a trailing [Z] is read as the offset [+00:00]: two records that
    differ only in writing their timestamps with [Z] or with [+00:00] are
    transformed alike. *)
Theorem transform_reads_Z_as_utc
    (entries : list (string * json)) (start_text end_text : string) :
  contains_char "Z" start_text = false ->
  contains_char "Z" end_text = false ->
  _transform_event_data fromisoformat
    (with_times (start_text ++ "Z") (end_text ++ "Z") entries)
  = _transform_event_data fromisoformat
      (with_times (start_text ++ "+00:00") (end_text ++ "+00:00") entries).
Proof.
  intros Hs He. transform_with_times.
  rewrite !replace_Z_app, !(replace_Z_fixed start_text), !(replace_Z_fixed end_text)
    by done.
  reflexivity.
Qed.

End Transformer.

Lemma transform_mixed_awareness_refused_witness :
  let event := sample_event "evt-3" "Mixed" "2024-01-15T09:00:00Z" "2024-01-15T10:30:00" [] in
  sample_fromisoformat (replace_Z "2024-01-15T10:30:00")
  = Ok {| dt_wall := timestamp 2024 1 15 10 30; dt_utcoffset := None |}
  /\ _transform_event_data sample_fromisoformat event = Raise TypeError.
Proof.
  cbv zeta. split; [by vm_compute|].
  apply (transform_mixed_awareness_refused sample_fromisoformat _
           "2024-01-15T09:00:00Z" "2024-01-15T10:30:00"
           {| dt_wall := timestamp 2024 1 15 9 0; dt_utcoffset := Some 0 |}
           {| dt_wall := timestamp 2024 1 15 10 30; dt_utcoffset := None |}).
  - reflexivity.
  - reflexivity.
  - by vm_compute.
  - by vm_compute.
  - cbn. split; [discriminate|]. intros H. by destruct H.
Defined.

Lemma transform_reads_Z_as_utc_witness :
  contains_char "Z" "2024-01-15T09:00:00" = false
  /\ _transform_event_data sample_fromisoformat
       (with_times ("2024-01-15T09:00:00" ++ "Z") ("2024-01-15T10:30:00" ++ "Z")
                   [("id", JStr "evt-1")])
     = _transform_event_data sample_fromisoformat
         (with_times ("2024-01-15T09:00:00" ++ "+00:00")
                     ("2024-01-15T10:30:00" ++ "+00:00") [("id", JStr "evt-1")]).
Proof.
  split; [reflexivity|].
  exact (transform_reads_Z_as_utc sample_fromisoformat [("id", JStr "evt-1")]
           "2024-01-15T09:00:00" "2024-01-15T10:30:00" eq_refl eq_refl).
Defined.

(** ** Attendees *)

Lemma str_split_no_sep (sep : ascii) (s : string) :
  contains_char sep s = false -> str_split sep s = [s].
Proof.
  induction s as [|c s IH]; [done|]. cbn [contains_char str_split].
  intros [Hc Hs]%orb_false_iff. rewrite Hc, IH by done. done.
Qed.

Lemma str_split_at_first (sep : ascii) (s1 s2 : string) :
  contains_char sep s1 = false ->
  str_split sep (s1 ++ String sep s2) = s1 :: str_split sep s2.
Proof.
  induction s1 as [|c s1 IH].
  - intros _. change ("" ++ String sep s2) with (String sep s2).
    cbn [str_split]. by rewrite Ascii.eqb_refl.
  - cbn [contains_char]. intros [Hc Hs]%orb_false_iff.
    change (String c s1 ++ String sep s2) with (String c (s1 ++ String sep s2)).
    cbn [str_split]. by rewrite Hc, IH.
Qed.

Lemma address_has_at (local rest : string) :
  contains_char "@" (local ++ "@" ++ rest) = true.
Proof.
  rewrite contains_char_app. change ("@" ++ rest) with (String "@"%char rest).
  cbn [contains_char]. by rewrite Ascii.eqb_refl, orb_true_r.
Qed.

Lemma address_split (local rest : string) :
  contains_char "@" local = false ->
  str_split "@" (local ++ "@" ++ rest) = local :: str_split "@" rest.
Proof.
  intros Hlocal. change ("@" ++ rest) with (String "@"%char rest).
  by apply str_split_at_first.
Qed.

(** X15: the domain taken from an address [local@domain] with a single
    ["@"] is [domain]; of an address with several, it is the text between
    the first two. *)
Theorem attendee_domain_of_address (local domain rest : string) :
  contains_char "@" local = false ->
  contains_char "@" domain = false ->
  attendee_domain (with_email (local ++ "@" ++ domain)) = Ok (Some domain)
  /\ attendee_domain (with_email (local ++ "@" ++ domain ++ "@" ++ rest))
     = Ok (Some domain).
Proof.
  intros Hlocal Hdomain. unfold attendee_domain, with_email.
  cbn [json_get dict_item String.eqb Ascii.eqb Bool.eqb dict_get json_contains json_split
       mbind mret result_bind result_ret].
  rewrite !address_has_at. result_simpl. rewrite !address_split by done.
  by rewrite str_split_no_sep.
Qed.

Lemma attendee_domain_of_address_witness :
  contains_char "@" "b" = false
  /\ attendee_domain (with_email ("b" ++ "@" ++ "other.com")) = Ok (Some "other.com").
Proof.
  split; [reflexivity|].
  exact (proj1 (attendee_domain_of_address "b" "other.com" "" eq_refl eq_refl)).
Defined.

Lemma has_foreign_domain_perm (attendees attendees' : list json) (home : string) :
  attendees ≡ₚ attendees' ->
  has_foreign_domain attendees home = has_foreign_domain attendees' home.
Proof.
  intros Hperm. unfold has_foreign_domain.
  induction Hperm as [|a l l' _ IH|a b l|l1 l2 l3 _ IH1 _ IH2]; cbn [existsb].
  - done.
  - by rewrite IH.
  - rewrite !orb_assoc. f_equal. apply orb_comm.
  - by rewrite IH1.
Qed.

(** The comprehension raises when the condition or the element raises for
    some attendee. *)
Lemma external_domains_is_ok (attendees : list json) :
  is_ok (external_domains attendees)
  = forallb (fun a => is_ok (attendee_domain a)) attendees.
Proof.
  unfold external_domains.
  assert (is_ok (mapM attendee_domain attendees)
          = forallb (fun a => is_ok (attendee_domain a)) attendees) as <-.
  { induction attendees as [|a attendees IH]; [done|]. cbn [mapM forallb].
    destruct (attendee_domain a); result_simpl; [|done]. rewrite <- IH.
    by destruct (mapM attendee_domain attendees). }
  by destruct (mapM attendee_domain attendees).
Qed.

Lemma forallb_perm {A : Type} (f : A -> bool) (l l' : list A) :
  l ≡ₚ l' -> forallb f l = forallb f l'.
Proof.
  induction 1 as [|a l l' _ IH|a b l|l1 l2 l3 _ IH1 _ IH2]; cbn [forallb].
  - done.
  - by rewrite IH.
  - rewrite !andb_assoc. f_equal. apply andb_comm.
  - by rewrite IH1.
Qed.

(** X16: the meeting type does not depend on the order of the attendees,
    nor does it whether the classification raises. *)
Theorem classify_meeting_order (attendees attendees' : list json) (home : string) :
  attendees ≡ₚ attendees' ->
  match classify_meeting (JList attendees) home,
        classify_meeting (JList attendees') home with
  | Ok meeting_type, Ok meeting_type' => meeting_type = meeting_type'
  | Raise _, Raise _ => True
  | _, _ => False
  end.
Proof.
  intros Hperm. rewrite !classify_meeting_spec. unfold classify_spec.
  rewrite (has_foreign_domain_perm _ _ _ Hperm), (Permutation_length Hperm).
  pose proof (external_domains_is_ok attendees) as Hok.
  pose proof (external_domains_is_ok attendees') as Hok'.
  rewrite (forallb_perm _ _ _ Hperm), <- Hok' in Hok.
  by destruct (external_domains attendees), (external_domains attendees').
Qed.

Lemma classify_meeting_order_witness :
  map with_email ["a@example.com"; "b@other.com"]
  ≡ₚ map with_email ["b@other.com"; "a@example.com"]
  /\ classify_meeting (JList (map with_email ["b@other.com"; "a@example.com"]))
                      "example.com"
     = Ok "external".
Proof.
  assert (Hperm : map with_email ["a@example.com"; "b@other.com"]
                  ≡ₚ map with_email ["b@other.com"; "a@example.com"]).
  { cbn. apply Permutation_swap. }
  split; [exact Hperm|].
  pose proof (classify_meeting_order _ _ "example.com" Hperm) as Horder.
  rewrite (classify_plain_attendees [Some "a@example.com"; Some "b@other.com"]) in Horder.
  destruct (classify_meeting _ _) as [meeting_type|]; [|done]. by rewrite <- Horder.
Defined.

(** ** Groups and orderings *)

Lemma sum_Z_cons (x : Z) (l : list Z) : sum_Z (x :: l) = x + sum_Z l.
Proof. reflexivity. Qed.

Lemma sum_Z_perm (l1 l2 : list Z) : l1 ≡ₚ l2 -> sum_Z l1 = sum_Z l2.
Proof.
  induction 1 as [|x l l' _ IH|x y l|l1 l2 l3 _ IH1 _ IH2];
    rewrite ?sum_Z_cons; lia.
Qed.

Lemma sum_Z_ones {A : Type} (l : list A) :
  sum_Z (map (fun _ => 1) l) = Z.of_nat (length l).
Proof.
  induction l as [|x l IH]; [done|]. cbn [map length].
  rewrite sum_Z_cons, IH. lia.
Qed.

Section Groups.

Context {A K : Type} (key : A -> K) (eqb : K -> K -> bool).
Hypothesis eqb_eq : forall a b, eqb a b = true <-> a = b.

Lemma eqb_same (a : K) : eqb a a = true.
Proof. by apply eqb_eq. Qed.

Lemma distinct_elem (keys : list K) (k : K) : k ∈ distinct eqb keys <-> k ∈ keys.
Proof.
  induction keys as [|k0 keys IH]; cbn [distinct]; [done|].
  rewrite !elem_of_cons, list_elem_of_filter, IH. split.
  - intros [->|[_ Hin]]; [by left|by right].
  - intros [->|Hin]; [by left|].
    destruct (eqb k0 k) eqn:Hk; [|by right].
    apply eqb_eq in Hk. by left.
Qed.

Lemma distinct_NoDup (keys : list K) : NoDup (distinct eqb keys).
Proof.
  induction keys as [|k0 keys IH]; cbn [distinct]; [constructor|].
  constructor.
  - intros [Hk _]%list_elem_of_filter. by rewrite eqb_same in Hk.
  - by apply NoDup_filter.
Qed.

Lemma group_of_cons (r : A) (rows : list A) (k : K) :
  group_of key eqb (r :: rows) k
  = if eqb (key r) k then r :: group_of key eqb rows k else group_of key eqb rows k.
Proof.
  unfold group_of. rewrite filter_cons.
  destruct (eqb (key r) k); [by rewrite decide_True|by rewrite decide_False].
Qed.

Lemma group_of_absent (rows : list A) (k : K) :
  k ∉ map key rows -> group_of key eqb rows k = [].
Proof.
  induction rows as [|r rows IH]; [done|]. cbn [map].
  intros [Hne Hnot]%not_elem_of_cons. rewrite group_of_cons.
  destruct (eqb (key r) k) eqn:Hk; [|by apply IH].
  apply eqb_eq in Hk. congruence.
Qed.

Lemma group_of_nonempty (rows : list A) (k : K) :
  k ∈ map key rows -> (0 < length (group_of key eqb rows k))%nat.
Proof.
  induction rows as [|r rows IH]; cbn [map]; [by intros ?%elem_of_nil|].
  rewrite group_of_cons. intros [->|Hin]%elem_of_cons.
  - rewrite eqb_same. cbn. lia.
  - destruct (eqb (key r) k); cbn; [lia|by apply IH].
Qed.

Lemma filter_other_keys (x : K) (keys : list K) :
  x ∉ keys -> filter (fun k => eqb x k = false) keys = keys.
Proof.
  induction keys as [|k keys IH]; [done|].
  intros [Hne Hnot]%not_elem_of_cons. rewrite filter_cons.
  destruct (eqb x k) eqn:Hxk; [apply eqb_eq in Hxk; congruence|].
  rewrite decide_True by done. f_equal. by apply IH.
Qed.

Lemma sum_split_key (h : K -> Z) (x : K) (keys : list K) :
  NoDup keys -> (x ∉ keys -> h x = 0) ->
  sum_Z (map h keys)
  = h x + sum_Z (map h (filter (fun k => eqb x k = false) keys)).
Proof.
  induction keys as [|k keys IH]; intros Hnd Hx.
  - cbn. rewrite Hx; [done|apply not_elem_of_nil].
  - apply NoDup_cons in Hnd as [Hk Hnd]. rewrite filter_cons. cbn [map].
    destruct (eqb x k) eqn:Hxk.
    + apply eqb_eq in Hxk as <-. rewrite decide_False by done.
      rewrite filter_other_keys by done. by rewrite sum_Z_cons.
    + rewrite decide_True by done. cbn [map]. rewrite !sum_Z_cons, (IH Hnd); [lia|].
      intros Hnot. apply Hx. apply not_elem_of_cons. split; [|done].
      intros ->. by rewrite eqb_same in Hxk.
Qed.

Variable g : A -> Z.

(** The groups of a [GROUP BY] partition the rows: a sum over the rows is
    the sum, over the groups, of the sums over each group. *)
Lemma sum_over_groups (rows : list A) :
  sum_Z (map (fun k => sum_Z (map g (group_of key eqb rows k)))
             (distinct eqb (map key rows)))
  = sum_Z (map g rows).
Proof.
  induction rows as [|r rows IH]; [done|].
  cbn [map distinct]. rewrite !sum_Z_cons, group_of_cons, eqb_same.
  cbn [map]. rewrite sum_Z_cons, <- IH.
  rewrite (sum_split_key (fun k => sum_Z (map g (group_of key eqb rows k))) (key r)
             (distinct eqb (map key rows))).
  - assert (Hsame :
      map (fun k => sum_Z (map g (group_of key eqb (r :: rows) k)))
          (filter (fun k' => eqb (key r) k' = false) (distinct eqb (map key rows)))
      = map (fun k => sum_Z (map g (group_of key eqb rows k)))
            (filter (fun k' => eqb (key r) k' = false) (distinct eqb (map key rows)))).
    { apply map_ext_in. intros k Hk.
      apply list_elem_of_In, list_elem_of_filter in Hk as [Hk _].
      by rewrite group_of_cons, Hk. }
    rewrite Hsame. lia.
  - apply distinct_NoDup.
  - intros Hnot. rewrite distinct_elem in Hnot. by rewrite group_of_absent.
Qed.

End Groups.

Lemma insert_desc_perm {A : Type} (hours : A -> float) (x : A) (sorted : list A) :
  insert_desc hours x sorted ≡ₚ x :: sorted.
Proof.
  induction sorted as [|y sorted IH]; cbn [insert_desc]; [done|].
  destruct (PrimFloat.ltb (hours x) (hours y)); [|done].
  rewrite IH. apply Permutation_swap.
Qed.

Lemma order_by_hours_desc_perm {A : Type} (hours : A -> float) (rows : list A) :
  order_by_hours_desc hours rows ≡ₚ rows.
Proof.
  induction rows as [|x rows IH]; [done|].
  unfold order_by_hours_desc in *. cbn [fold_right].
  by rewrite insert_desc_perm, IH.
Qed.

Lemma insert_asc_perm (x : Z) (sorted : list Z) : insert_asc x sorted ≡ₚ x :: sorted.
Proof.
  induction sorted as [|y sorted IH]; cbn [insert_asc]; [done|].
  destruct (x <=? y); [done|]. rewrite IH. apply Permutation_swap.
Qed.

Lemma order_asc_perm (keys : list Z) : order_asc keys ≡ₚ keys.
Proof.
  induction keys as [|x keys IH]; [done|].
  unfold order_asc in *. cbn [fold_right]. by rewrite insert_asc_perm, IH.
Qed.

Lemma insert_asc_sorted (x : Z) (sorted : list Z) :
  StronglySorted Z.lt sorted -> x ∉ sorted -> StronglySorted Z.lt (insert_asc x sorted).
Proof.
  induction 1 as [|y sorted Hsorted IH Hall]; intros Hx; cbn [insert_asc].
  - repeat constructor.
  - apply not_elem_of_cons in Hx as [Hne Hx].
    destruct (Z.leb_spec x y).
    + constructor; [by constructor|].
      constructor; [lia|]. eapply Forall_impl; [exact Hall|]. cbn. lia.
    + constructor; [by apply IH|].
      rewrite (insert_asc_perm x sorted). constructor; [lia|done].
Qed.

Lemma order_asc_sorted (keys : list Z) :
  NoDup keys -> StronglySorted Z.lt (order_asc keys).
Proof.
  induction 1 as [|x keys Hx Hnd IH]; [constructor|].
  unfold order_asc in *. cbn [fold_right]. apply insert_asc_sorted; [done|].
  fold (order_asc keys). by rewrite order_asc_perm.
Qed.

(** The order of floats is asymmetric. *)
Lemma float_ltb_asym (x y : float) :
  PrimFloat.ltb x y = true -> PrimFloat.ltb y x = false.
Proof.
  rewrite !FloatAxioms.ltb_spec. unfold SFltb.
  destruct (Prim2SF x) as [sx|sx| |sx mx ex], (Prim2SF y) as [sy|sy| |sy my ey];
    cbn; try discriminate; try done;
    try (destruct sx; done); try (destruct sy; done);
    try (destruct sx, sy; done).
  destruct sx, sy; try done.
  - rewrite (Z.compare_antisym ex ey).
    destruct (ex ?= ey)%Z; cbn; try done.
    rewrite !Pos.compare_cont_spec. cbn. rewrite (Pos.compare_antisym mx my).
    by destruct (mx ?= my)%positive.
  - rewrite (Z.compare_antisym ex ey).
    destruct (ex ?= ey)%Z; cbn; try done.
    rewrite !Pos.compare_cont_spec. cbn. rewrite (Pos.compare_antisym mx my).
    by destruct (mx ?= my)%positive.
Qed.

Lemma insert_desc_sorted {A : Type} (hours : A -> float) (x : A) (sorted : list A) :
  Sorted (not_below hours) sorted -> Sorted (not_below hours) (insert_desc hours x sorted).
Proof.
  induction 1 as [|y sorted Hsorted IH Hhd]; cbn [insert_desc].
  - repeat constructor.
  - destruct (PrimFloat.ltb (hours x) (hours y)) eqn:Hxy.
    + constructor; [done|].
      destruct sorted as [|z sorted]; cbn [insert_desc].
      * constructor. by apply float_ltb_asym.
      * destruct (PrimFloat.ltb (hours x) (hours z)).
        -- constructor. by inversion Hhd.
        -- constructor. by apply float_ltb_asym.
    + constructor; [by constructor|]. by constructor.
Qed.

Lemma order_by_hours_desc_sorted {A : Type} (hours : A -> float) (rows : list A) :
  Sorted (not_below hours) (order_by_hours_desc hours rows).
Proof.
  induction rows as [|x rows IH]; [constructor|].
  unfold order_by_hours_desc in *. cbn [fold_right]. by apply insert_desc_sorted.
Qed.

Lemma Sorted_take {A : Type} (R : A -> A -> Prop) (n : nat) (l : list A) :
  Sorted R l -> Sorted R (take n l).
Proof.
  intros Hsorted. revert n.
  induction Hsorted as [|x l Hsorted IH Hhd]; intros [|n]; cbn [take]; try constructor.
  - apply IH.
  - destruct Hhd as [|y l' Hxy]; destruct n; cbn [take]; by constructor.
Qed.

(** ** The insights report *)

Lemma breakdown_lines_fst (breakdown : list (string * Z * float)) (total_hours : float)
    (lines : list (string * Z * float * py_number)) :
  breakdown_lines breakdown total_hours = Ok lines -> map fst lines = breakdown.
Proof.
  revert lines.
  induction breakdown as [|[[meeting_type count] hours] breakdown IH]; intros lines.
  - by intros [= <-].
  - cbn [breakdown_lines].
    destruct (percentage hours total_hours) as [p|]; [|discriminate]. cbn.
    destruct (breakdown_lines breakdown total_hours) as [lines'|]; [|discriminate].
    cbn. intros [= <-]. cbn. f_equal. by apply IH.
Qed.

Lemma recommendations_value (breakdown : list (string * Z * float))
    (total_hours : float) (total_meetings : Z) :
  PrimFloat.ltb (float_of_Z 0) total_hours = true ->
  recommendations breakdown total_hours total_meetings
  = Ok ((if PrimFloat.ltb (float_of_Z 20) total_hours then [HighMeetingLoad] else [])
        ++ (if number_gt
                 (if 0 <? total_meetings
                  then PyFloat (PrimFloat.div
                                  (PrimFloat.mul total_hours (float_of_Z 60))
                                  (float_of_Z total_meetings))
                  else PyInt 0) 45
            then [LongAverageDuration] else [])
        ++ [ScheduleReview])%list.
Proof.
  intros Hpos. unfold recommendations, float_truediv.
  rewrite generator_selects_nothing, positive_not_zero by done.
  cbn [map sum_hours fold_left to_float mbind result_bind].
  rewrite zero_share_not_high by done.
  rewrite average_meeting_length_value. reflexivity.
Qed.

(** The report, field by field. *)
Lemma generate_insights_value (time_period : string) (include_recommendations : bool)
    (end_date : Z) (table : events_table) :
  let rows := window_rows (period_start time_period end_date) end_date table in
  let total_meetings := Z.of_nat (length rows) in
  let total_hours := hours_of rows in
  let average :=
    if 0 <? total_meetings
    then PyFloat (PrimFloat.div (PrimFloat.mul total_hours (float_of_Z 60))
                                (float_of_Z total_meetings))
    else PyInt 0 in
  exists lines average_per_day,
    breakdown_lines (meeting_breakdown rows) total_hours = Ok lines
    /\ generate_insights time_period include_recommendations end_date table
       = Ok {| rep_total_meetings := total_meetings;
               rep_total_hours := total_hours;
               rep_average_per_day := average_per_day;
               rep_average_meeting_length := average;
               rep_breakdown := lines;
               rep_busiest_days := busiest_days rows;
               rep_recommendations :=
                 if include_recommendations
                    && PrimFloat.ltb (float_of_Z 0) total_hours
                 then ((if PrimFloat.ltb (float_of_Z 20) total_hours
                        then [HighMeetingLoad] else [])
                       ++ (if number_gt average 45 then [LongAverageDuration] else [])
                       ++ [ScheduleReview])%list
                 else [] |}.
Proof.
  cbv zeta. unfold generate_insights.
  pose proof (window_days time_period end_date) as Hdays. cbv zeta in Hdays.
  fold (period_start time_period end_date) in *.
  set (rows := window_rows (period_start time_period end_date) end_date table).
  unfold float_truediv_int at 1.
  destruct (Z.eqb_spec (timedelta_days (end_date - period_start time_period end_date)) 0);
    [done|].
  cbn [mbind result_bind]. rewrite average_meeting_length_value.
  cbn [mbind result_bind].
  destruct (breakdown_lines_defined (meeting_breakdown rows) (hours_of rows))
    as [lines Hlines].
  rewrite Hlines. cbn [mbind result_bind].
  exists lines. eexists. split; [done|].
  destruct (include_recommendations && PrimFloat.ltb (float_of_Z 0) (hours_of rows))
    eqn:Hrecs.
  - apply andb_true_iff in Hrecs as [_ Hpos].
    rewrite recommendations_value by done. reflexivity.
  - reflexivity.
Qed.

Lemma window_rows_cons_out (start_date end_date : Z) (r : event_row)
    (table : events_table) :
  in_window start_date end_date r = false ->
  window_rows start_date end_date (r :: table) = window_rows start_date end_date table.
Proof.
  intros Hout. unfold window_rows. rewrite filter_cons_False; [done|].
  by rewrite Hout.
Qed.

(** X17: the report reads the confirmed events that start within the last
    7, 30 or 90 days only: an event that is not confirmed, that starts
    after the end of the window, or that starts more than 90 days before
    it, changes nothing in the report. *)
Theorem insights_ignore_outside
    (time_period : string) (include_recommendations : bool) (end_date : Z)
    (r : event_row) (table : events_table) :
  row_status r <> Some "confirmed" \/ end_date < row_start_time r
  \/ row_start_time r < end_date - 90 * usec_per_day ->
  generate_insights time_period include_recommendations end_date (r :: table)
  = generate_insights time_period include_recommendations end_date table.
Proof.
  intros Hout.
  assert (Hwin : in_window (period_start time_period end_date) end_date r = false).
  { unfold in_window. apply andb_false_iff.
    destruct (text_is (row_status r) "confirmed") eqn:Hc; [left|by right].
    apply text_is_spec in Hc. apply andb_false_iff. rewrite !Z.leb_gt.
    destruct Hout as [?|[?|Hold]]; [done|by right|left].
    unfold period_start, usec_per_day, usec_per_hour, usec_per_minute,
      usec_per_second in *.
    destruct (String.eqb time_period "week"); [lia|].
    destruct (String.eqb time_period "month"); lia. }
  unfold generate_insights. fold (period_start time_period end_date).
  by rewrite window_rows_cons_out.
Qed.

Lemma insights_ignore_outside_witness :
  let cancelled :=
    {| row_id := "evt-7"; row_title := "Cancelled"; row_description := Some "";
       row_start_time := timestamp 2024 1 20 9 0;
       row_end_time := timestamp 2024 1 20 10 0;
       row_duration_minutes := 60; row_attendees_count := 3;
       row_meeting_type := "internal"; row_creator_email := Some "";
       row_status := Some "cancelled"; row_location := Some "";
       row_is_recurring := Some false;
       row_created_at := 0; row_updated_at := 0 |} in
  row_status cancelled <> Some "confirmed"
  /\ generate_insights "week" true (sample_clock 0) [cancelled; external_hour]
     = generate_insights "week" true (sample_clock 0) [external_hour].
Proof.
  cbv zeta. split; [discriminate|].
  apply insights_ignore_outside. left. discriminate.
Defined.

(** X18: the breakdown partitions the meetings of the window by type: each
    type occurs in one line, a type has a line exactly when a meeting of
    the window has it, and the counts of the lines add up to
    [total_meetings]. *)
Theorem insights_breakdown_partitions
    (time_period : string) (include_recommendations : bool) (end_date : Z)
    (table : events_table) :
  match generate_insights time_period include_recommendations end_date table with
  | Ok rep =>
      let types := map (fun line => fst (fst (fst line))) (rep_breakdown rep) in
      let counts := map (fun line => snd (fst (fst line))) (rep_breakdown rep) in
      NoDup types
      /\ (forall t, t ∈ types
                    <-> t ∈ map row_meeting_type
                              (window_rows (period_start time_period end_date)
                                           end_date table))
      /\ sum_Z counts = rep_total_meetings rep
  | Raise _ => False
  end.
Proof.
  destruct (generate_insights_value time_period include_recommendations end_date table)
    as (lines & average_per_day & Hlines & ->).
  cbv zeta. cbn [rep_breakdown rep_total_meetings].
  set (rows := window_rows (period_start time_period end_date) end_date table) in *.
  apply breakdown_lines_fst in Hlines.
  assert (Htypes : map (fun line => fst (fst (fst line))) lines
                   ≡ₚ distinct String.eqb (map row_meeting_type rows)).
  { rewrite <- (map_map fst (fun b => fst (fst b))), Hlines. unfold meeting_breakdown.
    rewrite order_by_hours_desc_perm, map_map. cbn [fst]. by rewrite map_id. }
  assert (Hcounts : map (fun line => snd (fst (fst line))) lines
                    ≡ₚ map (fun k => Z.of_nat (length (group_of row_meeting_type
                                                         String.eqb rows k)))
                           (distinct String.eqb (map row_meeting_type rows))).
  { rewrite <- (map_map fst (fun b => snd (fst b))), Hlines. unfold meeting_breakdown.
    rewrite order_by_hours_desc_perm, map_map. done. }
  split; [|split].
  - rewrite Htypes. apply distinct_NoDup. apply String.eqb_eq.
  - intros t. rewrite Htypes. apply distinct_elem. apply String.eqb_eq.
  - rewrite (sum_Z_perm _ _ Hcounts).
    rewrite <- (sum_Z_ones rows).
    rewrite <- (sum_over_groups row_meeting_type String.eqb String.eqb_eq (fun _ => 1)).
    f_equal. apply map_ext. intros k. by rewrite sum_Z_ones.
Qed.

(** X19: the recommendations are empty unless they are requested and the
    total hours are positive; then they are, in this order, the high-load
    line when the total exceeds 20 hours, the long-duration line when the
    average length exceeds 45 minutes, and always the schedule-review
    line. *)
Theorem insights_recommendations
    (time_period : string) (include_recommendations : bool) (end_date : Z)
    (table : events_table) :
  match generate_insights time_period include_recommendations end_date table with
  | Ok rep =>
      rep_recommendations rep
      = if include_recommendations
           && PrimFloat.ltb (float_of_Z 0) (rep_total_hours rep)
        then ((if PrimFloat.ltb (float_of_Z 20) (rep_total_hours rep)
               then [HighMeetingLoad] else [])
              ++ (if number_gt (rep_average_meeting_length rep) 45
                  then [LongAverageDuration] else [])
              ++ [ScheduleReview])%list
        else []
  | Raise _ => False
  end.
Proof.
  by destruct (generate_insights_value time_period include_recommendations end_date table)
    as (lines & average_per_day & _ & ->).
Qed.

(** X20: the breakdown lines and the busiest days come by descending
    hours: no entry is directly followed by one of more hours. *)
Theorem insights_ordered_by_hours
    (time_period : string) (include_recommendations : bool) (end_date : Z)
    (table : events_table) :
  match generate_insights time_period include_recommendations end_date table with
  | Ok rep =>
      Sorted (not_below snd) (map fst (rep_breakdown rep))
      /\ Sorted (not_below snd) (rep_busiest_days rep)
  | Raise _ => False
  end.
Proof.
  destruct (generate_insights_value time_period include_recommendations end_date table)
    as (lines & average_per_day & Hlines & ->).
  cbn [rep_breakdown rep_busiest_days]. apply breakdown_lines_fst in Hlines.
  rewrite Hlines. split.
  - apply order_by_hours_desc_sorted.
  - apply Sorted_take, order_by_hours_desc_sorted.
Qed.

(** X21: the busiest days are at most five, each day is listed once, and
    each has at least one and at most [total_meetings] meetings. *)
Theorem insights_busiest_days
    (time_period : string) (include_recommendations : bool) (end_date : Z)
    (table : events_table) :
  match generate_insights time_period include_recommendations end_date table with
  | Ok rep =>
      (length (rep_busiest_days rep) <= 5)%nat
      /\ NoDup (map (fun d => fst (fst d)) (rep_busiest_days rep))
      /\ Forall (fun d => 1 <= snd (fst d) <= rep_total_meetings rep)
                (rep_busiest_days rep)
  | Raise _ => False
  end.
Proof.
  destruct (generate_insights_value time_period include_recommendations end_date table)
    as (lines & average_per_day & _ & ->).
  cbn [rep_busiest_days rep_total_meetings].
  set (rows := window_rows (period_start time_period end_date) end_date table).
  unfold busiest_days.
  set (days := distinct Z.eqb (map (fun r => date_of (row_start_time r)) rows)).
  set (entries := map _ days).
  split; [rewrite length_take; lia|]. split.
  - rewrite <- firstn_map. eapply sublist_NoDup; [|apply sublist_take].
    rewrite order_by_hours_desc_perm. unfold entries. rewrite map_map. cbn [fst].
    rewrite map_id. apply distinct_NoDup. apply Z.eqb_eq.
  - apply Forall_forall. intros d Hd.
    apply subseteq_take in Hd.
    rewrite order_by_hours_desc_perm in Hd.
    apply list_elem_of_In, in_map_iff in Hd as (day & <- & Hday). cbn [fst snd].
    apply list_elem_of_In in Hday. unfold days in Hday.
    rewrite (distinct_elem Z.eqb Z.eqb_eq) in Hday.
    pose proof (group_of_nonempty (fun r => date_of (row_start_time r)) Z.eqb Z.eqb_eq
                  rows day Hday) as Hpos.
    unfold group_of in Hpos.
    pose proof (length_filter
                  (fun r => (date_of (row_start_time r) =? day) = true) rows).
    lia.
Qed.

(** ** The daily summary *)

Lemma count_type_bounds (rows : events_table) :
  0 <= count_type "external" rows /\ 0 <= count_type "internal" rows
  /\ count_type "external" rows + count_type "internal" rows <= Z.of_nat (length rows).
Proof.
  unfold count_type. induction rows as [|r rows IH]; [cbn; lia|].
  cbn [map length]. rewrite !sum_Z_cons.
  destruct (String.eqb_spec (row_meeting_type r) "external") as [He|He];
    destruct (String.eqb_spec (row_meeting_type r) "internal") as [Hi|Hi];
    try (rewrite He in Hi; discriminate); lia.
Qed.

Section DailySummaryProperties.

Variable sql_avg : Z -> Z -> float.

Lemma daily_summary_dates (table : events_table) :
  map ds_date (daily_summary sql_avg table)
  = order_asc (distinct Z.eqb (map (fun r => date_of (row_start_time r))
                                   (confirmed_rows table))).
Proof. unfold daily_summary. cbv zeta. rewrite map_map. cbn. apply map_id. Qed.

(** X22: the view has one row for each day on which a confirmed event
    starts, and no other; its rows come in strictly ascending order of
    date. *)
Theorem daily_summary_days (table : events_table) (day : Z) :
  StronglySorted Z.lt (map ds_date (daily_summary sql_avg table))
  /\ (day ∈ map ds_date (daily_summary sql_avg table)
      <-> exists r, r ∈ table /\ row_status r = Some "confirmed"
                    /\ date_of (row_start_time r) = day).
Proof.
  rewrite daily_summary_dates. split.
  - apply order_asc_sorted, distinct_NoDup, Z.eqb_eq.
  - rewrite order_asc_perm, (distinct_elem Z.eqb Z.eqb_eq), list_elem_of_In, in_map_iff.
    unfold confirmed_rows. split.
    + intros (r & <- & Hr).
      apply list_elem_of_In, list_elem_of_filter in Hr as [Hc Hr].
      exists r. by apply text_is_spec in Hc.
    + intros (r & Hr & Hc & <-). exists r. split; [done|].
      apply list_elem_of_In, list_elem_of_filter. split; [|done].
      by apply text_is_spec.
Qed.

Lemma daily_summary_sum (column : summary_row -> Z) (g : event_row -> Z)
    (table : events_table) :
  (forall day group, column (summary_of sql_avg day group) = sum_Z (map g group)) ->
  sum_Z (map column (daily_summary sql_avg table))
  = sum_Z (map g (confirmed_rows table)).
Proof.
  intros Hcolumn. unfold daily_summary. cbv zeta. rewrite map_map.
  set (rows := confirmed_rows table).
  set (key := fun r => date_of (row_start_time r)).
  rewrite <- (sum_over_groups key Z.eqb Z.eqb_eq g rows).
  apply sum_Z_perm.
  rewrite (Permutation_map _ (order_asc_perm (distinct Z.eqb (map key rows)))).
  apply Permutation_refl'. apply map_ext. intros day. by rewrite Hcolumn.
Qed.

(** X23: the columns of the view add up over its rows to the totals over
    the confirmed events: their number, their minutes, and the numbers of
    external and of internal meetings. *)
Theorem daily_summary_totals (table : events_table) :
  let summary := daily_summary sql_avg table in
  sum_Z (map ds_total_meetings summary) = Z.of_nat (length (confirmed_rows table))
  /\ sum_Z (map ds_total_minutes summary) = sum_minutes (confirmed_rows table)
  /\ sum_Z (map ds_external_meetings summary) = count_type "external" (confirmed_rows table)
  /\ sum_Z (map ds_internal_meetings summary) = count_type "internal" (confirmed_rows table).
Proof.
  cbv zeta. repeat split.
  - rewrite <- sum_Z_ones. apply daily_summary_sum.
    intros day group. cbn. by rewrite sum_Z_ones.
  - by apply daily_summary_sum.
  - by apply daily_summary_sum.
  - by apply daily_summary_sum.
Qed.

(** X24: every row of the view stands for at least one meeting, and its
    external and internal meetings together are no more than its
    meetings. *)
Theorem daily_summary_rows (table : events_table) :
  Forall (fun row =>
            1 <= ds_total_meetings row
            /\ 0 <= ds_external_meetings row /\ 0 <= ds_internal_meetings row
            /\ ds_external_meetings row + ds_internal_meetings row
               <= ds_total_meetings row)
         (daily_summary sql_avg table).
Proof.
  apply Forall_forall. intros row Hrow. unfold daily_summary in Hrow. cbv zeta in Hrow.
  apply list_elem_of_In, in_map_iff in Hrow as (day & <- & Hday).
  apply list_elem_of_In in Hday.
  rewrite order_asc_perm, (distinct_elem Z.eqb Z.eqb_eq) in Hday.
  cbn [summary_of ds_total_meetings ds_external_meetings ds_internal_meetings].
  pose proof (group_of_nonempty (fun r => date_of (row_start_time r)) Z.eqb Z.eqb_eq
                (confirmed_rows table) day Hday) as Hpos.
  unfold group_of in Hpos.
  pose proof (count_type_bounds
                (filter (fun r => (date_of (row_start_time r) =? day) = true)
                        (confirmed_rows table))).
  lia.
Qed.

End DailySummaryProperties.

(** ** Ad hoc queries *)

Lemma append_nil_r (s : string) : s ++ "" = s.
Proof.
  induction s as [|c s IH]; [done|].
  change (String c s ++ "") with (String c (s ++ "")). by rewrite IH.
Qed.

Lemma append_assoc (s1 s2 s3 : string) : (s1 ++ s2) ++ s3 = s1 ++ (s2 ++ s3).
Proof.
  induction s1 as [|c s1 IH]; [done|].
  change ((String c s1 ++ s2) ++ s3) with (String c ((s1 ++ s2) ++ s3)).
  by rewrite IH.
Qed.

Lemma length_append (s1 s2 : string) :
  String.length (s1 ++ s2) = (String.length s1 + String.length s2)%nat.
Proof.
  induction s1 as [|c s1 IH]; [done|].
  change (String c s1 ++ s2) with (String c (s1 ++ s2)). cbn [String.length].
  by rewrite IH.
Qed.

Lemma substring_prefix (n : nat) :
  forall s, String.length (substring 0 n s) = Nat.min n (String.length s)
            /\ exists rest, s = substring 0 n s ++ rest.
Proof.
  induction n as [|n IH]; intros s.
  - destruct s; (split; [done|]); by eexists.
  - destruct s as [|c s]; [split; [done|by exists ""]|].
    cbn [substring String.length]. destruct (IH s) as [Hlen [rest Hrest]].
    split; [by rewrite Hlen|]. exists rest.
    change (String c (substring 0 n s) ++ rest)
      with (String c (substring 0 n s ++ rest)).
    by rewrite <- Hrest.
Qed.

Lemma string_rev_app (s1 s2 : string) :
  string_rev (s1 ++ s2) = string_rev s2 ++ string_rev s1.
Proof.
  induction s1 as [|c s1 IH]; [by rewrite append_nil_r|].
  change (String c s1 ++ s2) with (String c (s1 ++ s2)). cbn [string_rev].
  by rewrite IH, append_assoc.
Qed.

Lemma string_rev_involutive (s : string) : string_rev (string_rev s) = s.
Proof.
  induction s as [|c s IH]; [done|]. cbn [string_rev].
  by rewrite string_rev_app, IH.
Qed.

Lemma string_rev_empty (s : string) : string_rev s = "" -> s = "".
Proof.
  intros H. apply (f_equal string_rev) in H. by rewrite string_rev_involutive in H.
Qed.

Lemma lstrip_idempotent (s : string) : lstrip (lstrip s) = lstrip s.
Proof.
  induction s as [|c s IH]; [done|]. cbn [lstrip].
  destruct (is_space c) eqn:Hc; [done|]. cbn [lstrip]. by rewrite Hc.
Qed.

Lemma lstrip_length (s : string) : (String.length (lstrip s) <= String.length s)%nat.
Proof.
  induction s as [|c s IH]; [done|]. cbn [lstrip].
  destruct (is_space c); cbn [String.length]; lia.
Qed.

Lemma lstrip_fixed (c : ascii) (s : string) :
  lstrip (String c s) = String c s -> is_space c = false.
Proof.
  cbn [lstrip]. destruct (is_space c); [|done]. intros H.
  pose proof (lstrip_length s) as Hlen. rewrite H in Hlen. cbn in Hlen. lia.
Qed.

Lemma lstrip_snoc (s : string) (c : ascii) :
  lstrip (s ++ String c "")
  = if String.eqb (lstrip s) "" then lstrip (String c "") else lstrip s ++ String c "".
Proof.
  induction s as [|a s IH]; [done|].
  change (String a s ++ String c "") with (String a (s ++ String c "")).
  cbn [lstrip]. destruct (is_space a); [done|]. done.
Qed.

(** [rstrip], from the left. *)
Lemma rstrip_cons (c : ascii) (s : string) :
  rstrip (String c s)
  = if String.eqb (rstrip s) ""
    then (if is_space c then "" else String c "")
    else String c (rstrip s).
Proof.
  unfold rstrip. cbn [string_rev]. rewrite lstrip_snoc.
  destruct (String.eqb_spec (lstrip (string_rev s)) "") as [Hempty|Hne].
  - rewrite Hempty. cbn [string_rev lstrip String.eqb]. by destruct (is_space c).
  - destruct (String.eqb_spec (string_rev (lstrip (string_rev s))) "") as [H|_].
    + by apply string_rev_empty in H.
    + by rewrite string_rev_app.
Qed.

Lemma rstrip_idempotent (s : string) : rstrip (rstrip s) = rstrip s.
Proof. unfold rstrip. by rewrite string_rev_involutive, lstrip_idempotent. Qed.

Lemma rstrip_nil : rstrip "" = "".
Proof. reflexivity. Qed.

(** Stripping a stripped string changes nothing. *)
Lemma strip_idempotent (s : string) : strip (strip s) = strip s.
Proof.
  unfold strip.
  assert (Hhead : lstrip (rstrip (lstrip s)) = rstrip (lstrip s)).
  { pose proof (lstrip_idempotent s) as Hfix.
    destruct (lstrip s) as [|c t]; [done|].
    apply lstrip_fixed in Hfix. rewrite rstrip_cons.
    destruct (String.eqb (rstrip t) ""); rewrite ?Hfix; cbn [lstrip]; by rewrite Hfix. }
  by rewrite Hhead, rstrip_idempotent.
Qed.

Lemma strip_all_space (s : string) : all_space s = true -> strip s = "".
Proof.
  intros Hs. unfold strip.
  assert (Hl : lstrip s = "").
  { induction s as [|c s IH]; [done|]. cbn [all_space] in Hs.
    apply andb_true_iff in Hs as [Hc Hs]. cbn [lstrip]. rewrite Hc. by apply IH. }
  by rewrite Hl.
Qed.

(** X25: a query that is absent, empty or white space only is answered
    with the request for a query, and the engine does not run. *)
Theorem blank_query_is_refused
    (execute : string -> string + list string * list (list cell)) (sql : string) :
  all_space sql = true ->
  _handle_database_query execute (Some sql) = QueryRequired
  /\ _handle_database_query execute None = QueryRequired.
Proof.
  intros Hblank. unfold _handle_database_query. cbn [dict_get].
  by rewrite strip_all_space.
Qed.

Lemma blank_query_is_refused_witness :
  all_space "   " = true
  /\ _handle_database_query (fun q => inl q) (Some "   ") = QueryRequired.
Proof.
  split; [reflexivity|].
  exact (proj1 (blank_query_is_refused (fun q => inl q) "   " eq_refl)).
Defined.

(** X26: the engine is only ever given a query that is not empty and has
    no white space at either end: two engines that agree on such queries
    get the same answers out of the handler. *)
Theorem engine_gets_stripped_query
    (execute execute' : string -> string + list string * list (list cell))
    (sql_arg : option string) :
  (forall q, q <> "" -> strip q = q -> execute q = execute' q) ->
  _handle_database_query execute sql_arg = _handle_database_query execute' sql_arg.
Proof.
  intros Hagree. unfold _handle_database_query.
  set (sql := strip (dict_get sql_arg "")).
  destruct (String.eqb_spec sql "") as [|Hne]; [done|].
  rewrite (Hagree sql Hne); [done|]. apply strip_idempotent.
Qed.

Lemma engine_gets_stripped_query_witness :
  let execute := fun q : string => @inl string (list string * list (list cell)) q in
  let execute' := fun q : string =>
    if String.eqb (strip q) q then @inl string (list string * list (list cell)) q
    else inr ([], []) in
  _handle_database_query execute (Some " select 1 ")
  = _handle_database_query execute' (Some " select 1 ")
  /\ _handle_database_query execute (Some " select 1 ") = QueryFailed "select 1" "select 1".
Proof.
  cbv zeta. split; [|reflexivity].
  apply engine_gets_stripped_query. intros q _ Hq. by rewrite Hq, String.eqb_refl.
Defined.

(** X27: in the table a [None] reads [NULL]; a text or a timestamp of more
    than 30 characters is cut to its first 27 followed by three dots, so it
    never takes more than 30, and a shorter one is shown whole; a value of
    another type is shown whole whatever its length. *)
Theorem format_cell_bounded (c : cell) :
  match c with
  | CNone => format_cell c = "NULL"
  | COther text => format_cell c = text
  | CStr s | CDatetime s =>
      (String.length (format_cell c) <= 30)%nat
      /\ ((String.length s <= 30)%nat -> format_cell c = s)
      /\ ((30 < String.length s)%nat ->
          String.length (format_cell c) = 30%nat
          /\ exists rest, s = substring 0 27 s ++ rest
                          /\ format_cell c = substring 0 27 s ++ "...")
  end.
Proof.
  destruct c as [|s|s|text]; try done; cbn [format_cell];
    destruct (Nat.ltb_spec 30 (String.length s)) as [Hlong|Hshort];
    destruct (substring_prefix 27 s) as [Hlen [rest Hrest]];
    (split; [|split]); try lia; try done;
    rewrite ?length_append, ?Hlen; cbn [String.length]; try lia.
  - intros _. split; [lia|]. by exists rest.
  - intros _. split; [lia|]. by exists rest.
Qed.
